(** * Medical dataset catalogue: the markdown parser and its query layer

    A shallow embedding of [medical_data/browser.py] (the record model, the
    line-oriented parser, search and category listing), of the statistics
    function of [medical_data/utils.py], and of the record extraction of the
    stand-alone script [medical_data_browser.py], which the repository keeps
    beside the package.

    Text is modelled by [string]; a character stands for a code point below
    256, and the Python primitives ([str.strip], [str.lower], [in], the
    fixed regular expressions) are written out on that range. *)

From Stdlib Require Import String Ascii List Bool Arith Lia Sorted Permutation.
Import ListNotations.
Open Scope string_scope.
Open Scope list_scope.
Open Scope nat_scope.

(** ** Python string primitives *)

Module PyStr.

(** [str.isspace] of a single character; it is also the class [\s] of a
    [str] pattern. *)
Definition isspace (c : ascii) : bool :=
  let n := nat_of_ascii c in
  ((9 <=? n) && (n <=? 13)) || ((28 <=? n) && (n <=? 32))
  || (n =? 133) || (n =? 160).

(** The class [\d]: below 256 only the ten ASCII digits are decimal. *)
Definition isdigit (c : ascii) : bool :=
  let n := nat_of_ascii c in (48 <=? n) && (n <=? 57).

Definition newline : ascii := ascii_of_nat 10.

Definition is_newline (c : ascii) : bool := Ascii.eqb c newline.

Definition lower_char (c : ascii) : ascii :=
  let n := nat_of_ascii c in
  if ((65 <=? n) && (n <=? 90))
     || ((192 <=? n) && (n <=? 222) && negb (n =? 215))
  then ascii_of_nat (n + 32) else c.

(** [s.lower()] on the range of the model, where the lowercase form is
    taken character by character.  Beyond that range Python's is not (the
    lowercase of a capital sigma depends on what stands around it), so no
    statement below compares the lowercase forms of a text and of a part
    of it. *)
Fixpoint lower (s : string) : string :=
  match s with
  | EmptyString => EmptyString
  | String c s' => String (lower_char c) (lower s')
  end.

Fixpoint lstrip (s : string) : string :=
  match s with
  | EmptyString => EmptyString
  | String c s' => if isspace c then lstrip s' else s
  end.

Fixpoint rstrip (s : string) : string :=
  match s with
  | EmptyString => EmptyString
  | String c s' =>
      match rstrip s' with
      | EmptyString => if isspace c then EmptyString else String c EmptyString
      | r => String c r
      end
  end.

(** [s.strip()] *)
Definition strip (s : string) : string := rstrip (lstrip s).

(** [s.strip('#')] *)
Fixpoint lstrip_hash (s : string) : string :=
  match s with
  | EmptyString => EmptyString
  | String c s' => if Ascii.eqb c "#" then lstrip_hash s' else s
  end.

Fixpoint rstrip_hash (s : string) : string :=
  match s with
  | EmptyString => EmptyString
  | String c s' =>
      match rstrip_hash s' with
      | EmptyString => if Ascii.eqb c "#" then EmptyString else String c EmptyString
      | r => String c r
      end
  end.

Definition strip_hash (s : string) : string := rstrip_hash (lstrip_hash s).

(** [s.split("\n")]: never empty, one more piece than there are newlines. *)
Fixpoint split_nl (s : string) : list string :=
  match s with
  | EmptyString => [EmptyString]
  | String c s' =>
      if is_newline c then EmptyString :: split_nl s'
      else match split_nl s' with
           | h :: t => String c h :: t
           | [] => [String c EmptyString]
           end
  end.

(** [s.startswith(p)] *)
Definition startswith (s p : string) : bool := String.prefix p s.

(** The rest of [s] after the literal [p], when [s] starts with [p]. *)
Fixpoint drop_prefix (p s : string) : option string :=
  match p with
  | EmptyString => Some s
  | String a p' =>
      match s with
      | EmptyString => None
      | String b s' => if Ascii.eqb a b then drop_prefix p' s' else None
      end
  end.

(** [p in s] *)
Fixpoint contains (p s : string) : bool :=
  match s with
  | EmptyString => String.prefix p EmptyString
  | String _ s' => String.prefix p s || contains p s'
  end.

(** [sep.join(l)] *)
Definition join (sep : string) (l : list string) : string := String.concat sep l.

(** Truth value of a string: non-empty. *)
Definition truthy (s : string) : bool :=
  match s with EmptyString => false | _ => true end.

(** The longest prefix of [s] whose characters satisfy [p], and the rest. *)
Fixpoint span (p : ascii -> bool) (s : string) : string * string :=
  match s with
  | EmptyString => (EmptyString, EmptyString)
  | String c s' =>
      if p c then let (a, b) := span p s' in (String c a, b)
      else (EmptyString, s)
  end.

End PyStr.

(** ** The fixed regular expressions of the parser

    Each pattern is compiled by hand into the matcher the backtracking
    engine amounts to on it.  A matcher tried at the head of [s] returns the
    replacement (or the captured group) and the text left after the match. *)

Module Regex.
Import PyStr.

(** The group [(.+?)] followed by the literal [d]: the shortest non-empty
    run of non-newline characters after which [d] stands. *)
Fixpoint lazy_group (d s : string) : option (string * string) :=
  match s with
  | EmptyString => None
  | String c s' =>
      if is_newline c then None
      else match drop_prefix d s' with
           | Some rest => Some (String c EmptyString, rest)
           | None =>
               match lazy_group d s' with
               | Some (g, rest) => Some (String c g, rest)
               | None => None
               end
           end
  end.

(** [d(.+?)d] at the head of [s], with replacement [\1]. *)
Definition match_delim (d s : string) : option (string * string) :=
  match drop_prefix d s with
  | Some r => lazy_group d r
  | None => None
  end.

(** [\[([^\]]+)\]\([^\)]+\)] at the head of [s], with replacement [\1]. *)
Definition match_link (s : string) : option (string * string) :=
  match s with
  | String "[" r =>
      let (g, r1) := span (fun c => negb (Ascii.eqb c "]")) r in
      match g, r1 with
      | String _ _, String "]" (String "(" r2) =>
          let (u, r3) := span (fun c => negb (Ascii.eqb c ")")) r2 in
          match u, r3 with
          | String _ _, String ")" r4 => Some (g, r4)
          | _, _ => None
          end
      | _, _ => None
      end
  | _ => None
  end.

(** [re.sub] for a pattern that never matches the empty string: scan from
    the left, replace a match and resume after it, copy a character where
    nothing matches.  [skip] counts the characters of a match still to be
    passed over. *)
Fixpoint sub_from (m : string -> option (string * string))
    (skip : nat) (s : string) : string :=
  match s with
  | EmptyString => EmptyString
  | String c s' =>
      match skip with
      | S k => sub_from m k s'
      | O =>
          match m s with
          | Some (g, rest) =>
              (g ++ sub_from m (String.length s' - String.length rest) s')%string
          | None => String c (sub_from m 0 s')
          end
      end
  end.

Definition sub (m : string -> option (string * string)) (s : string) : string :=
  sub_from m 0 s.

(** A character of the class [[^\s\)]]. *)
Definition url_char (c : ascii) : bool :=
  negb (isspace c) && negb (Ascii.eqb c ")").

(** [https?://[^\s\)]+] at the head of [s]: the matched text. *)
Definition match_url (s : string) : option string :=
  let scheme :=
    match drop_prefix "https://" s with
    | Some r => Some ("https://", r)
    | None =>
        match drop_prefix "http://" s with
        | Some r => Some ("http://", r)
        | None => None
        end
    end in
  match scheme with
  | Some (sch, r) =>
      match fst (span url_char r) with
      | EmptyString => None
      | u => Some (sch ++ u)%string
      end
  | None => None
  end.

(** [pattern.search(s)]: the leftmost match. *)
Fixpoint search_url (s : string) : option string :=
  match match_url s with
  | Some u => Some u
  | None =>
      match s with
      | EmptyString => None
      | String _ s' => search_url s'
      end
  end.

Definition has_newline (s : string) : bool :=
  existsb is_newline (list_ascii_of_string s).

(** [re.match(r"^##\s+\d+\.\s+(.+)$", line.strip())]: group 1.  The
    argument is stripped, so after the second run of spaces the rest is
    empty only if that run is; [.] stops at a newline, which a stripped
    text cannot end with. *)
Definition category_match (line : string) : option string :=
  match drop_prefix "##" (strip line) with
  | None => None
  | Some r1 =>
      let (w1, r2) := span isspace r1 in
      let (ds, r3) := span isdigit r2 in
      match w1, ds, r3 with
      | String _ _, String _ _, String "." r4 =>
          let (w2, r5) := span isspace r4 in
          match w2, r5 with
          | String _ _, String _ _ =>
              if has_newline r5 then None else Some r5
          | _, _ => None
          end
      | _, _, _ => None
      end
  end.

End Regex.

(** ** [medical_data/browser.py] *)

Module Browser.
Import PyStr Regex.

Record MedicalDataset := mkDataset {
  name : string;
  category : string;
  description : string;
  paper_url : option string;
  access_url : option string;
  data_url : option string;
  information_url : option string;
  overview_url : option string;
  requires_registration : bool;
  raw_text : string
}.

Definition has_paper (d : MedicalDataset) : bool :=
  match paper_url d with Some _ => true | None => false end.

Definition _extract_url (text : string) : option string := search_url text.

Definition _clean_markdown (text : string) : string :=
  let text := sub (match_delim "__") text in
  let text := sub (match_delim "*") text in
  let text := sub (match_delim "_") text in
  let text := sub (match_delim "`") text in
  let text := sub match_link text in
  strip text.

(** The local variables of [_parse_dataset_section] that its loop updates. *)
Record metadata := mkMeta {
  description_lines : list string;
  m_paper_url : option string;
  m_access_url : option string;
  m_data_url : option string;
  m_information_url : option string;
  m_overview_url : option string;
  m_requires_registration : bool
}.

Definition metadata0 : metadata := mkMeta [] None None None None None false.

(** One turn of the loop [for line in lines[1:]]. *)
Definition section_step (m : metadata) (line0 : string) : metadata :=
  let line := strip line0 in
  if negb (truthy line) then m
  else
    let reg :=
      if contains "requires registration" (lower line) then true
      else m_requires_registration m in
    let line_lower := lower line in
    if startswith line_lower "paper:" then
      mkMeta (description_lines m) (_extract_url line) (m_access_url m)
        (m_data_url m) (m_information_url m) (m_overview_url m) reg
    else if startswith line_lower "access:" then
      mkMeta (description_lines m) (m_paper_url m) (_extract_url line)
        (m_data_url m) (m_information_url m) (m_overview_url m) reg
    else if startswith line_lower "data:" then
      mkMeta (description_lines m) (m_paper_url m) (m_access_url m)
        (_extract_url line) (m_information_url m) (m_overview_url m) reg
    else if startswith line_lower "information:" then
      mkMeta (description_lines m) (m_paper_url m) (m_access_url m)
        (m_data_url m) (_extract_url line) (m_overview_url m) reg
    else if startswith line_lower "overview:" then
      mkMeta (description_lines m) (m_paper_url m) (m_access_url m)
        (m_data_url m) (m_information_url m) (_extract_url line) reg
    else
      let clean_line := _clean_markdown line in
      mkMeta
        (if truthy clean_line then description_lines m ++ [clean_line]
         else description_lines m)
        (m_paper_url m) (m_access_url m) (m_data_url m)
        (m_information_url m) (m_overview_url m) reg.

(** The record built at the end of [_parse_dataset_section] from a
    non-empty buffer [first :: rest]. *)
Definition make_dataset (first : string) (rest : list string)
    (category : string) : MedicalDataset :=
  let name_line := strip first in
  let name := sub (match_delim "__") name_line in
  let m := fold_left section_step rest metadata0 in
  mkDataset name category (join " " (description_lines m))
    (m_paper_url m) (m_access_url m) (m_data_url m)
    (m_information_url m) (m_overview_url m)
    (m_requires_registration m)
    (join (String newline EmptyString) (first :: rest)).

(** [self._parse_dataset_section(lines, category)], with [self.datasets]
    passed in and returned. *)
Definition _parse_dataset_section (lines : list string) (category : string)
    (datasets : list MedicalDataset) : list MedicalDataset :=
  match lines with
  | [] => datasets
  | first :: rest => datasets ++ [make_dataset first rest category]
  end.

(** The loop variables of [parse_readme], together with [self.datasets]. *)
Record parser := mkParser {
  current_category : string;
  current_dataset_lines : list string;
  in_dataset : bool;
  datasets : list MedicalDataset
}.

Definition nonempty {A : Type} (l : list A) : bool :=
  match l with [] => false | _ => true end.

(** The pending buffer is parsed when it and the category are non-empty. *)
Definition flush (st : parser) : list MedicalDataset :=
  if nonempty (current_dataset_lines st) && truthy (current_category st)
  then _parse_dataset_section (current_dataset_lines st)
         (current_category st) (datasets st)
  else datasets st.

(** One turn of the loop [for line in lines] of [parse_readme]. *)
Definition step (st : parser) (line : string) : parser :=
  match category_match line with
  | Some title =>
      mkParser (strip title) [] false (flush st)
  | None =>
      if String.eqb (strip line) "***" then
        mkParser (current_category st) [] false (flush st)
      else if startswith (strip line) "__" && truthy (current_category st) then
        mkParser (current_category st) [line] true
          (if nonempty (current_dataset_lines st)
           then _parse_dataset_section (current_dataset_lines st)
                  (current_category st) (datasets st)
           else datasets st)
      else if in_dataset st && truthy (strip line) then
        mkParser (current_category st) (current_dataset_lines st ++ [line])
          (in_dataset st) (datasets st)
      else st
  end.

(** The parser over the lines of the document, from a browser whose
    [datasets] attribute holds [self_datasets]. *)
Definition parse_lines (lines : list string)
    (self_datasets : list MedicalDataset) : list MedicalDataset :=
  flush (fold_left step lines (mkParser "" [] false self_datasets)).

(** [parse_readme], on the text read from the file: the value of
    [self.datasets] when it returns. *)
Definition parse_readme (content : string)
    (self_datasets : list MedicalDataset) : list MedicalDataset :=
  parse_lines (split_nl content) self_datasets.

(** [search_datasets(query, case_sensitive)] *)
Definition search_datasets (datasets : list MedicalDataset) (query : string)
    (case_sensitive : bool) : list MedicalDataset :=
  let query := if case_sensitive then query else lower query in
  filter
    (fun d =>
       let search_text := (name d ++ " " ++ description d)%string in
       let search_text :=
         if case_sensitive then search_text else lower search_text in
       contains query search_text)
    datasets.

Definition browse_by_category (datasets : list MedicalDataset)
    (cat : string) : list MedicalDataset :=
  filter (fun d => String.eqb (category d) cat) datasets.

(** [category_counts[c] = category_counts.get(c, 0) + 1] on a dictionary
    kept as the list of its items in insertion order: a known key is
    updated in place, a new one goes to the end. *)
Fixpoint bump (c : string) (counts : list (string * nat)) : list (string * nat) :=
  match counts with
  | [] => [(c, 1)]
  | (k, n) :: rest =>
      if String.eqb k c then (k, n + 1) :: rest else (k, n) :: bump c rest
  end.

Definition count_categories (datasets : list MedicalDataset) : list (string * nat) :=
  fold_left (fun counts d => bump (category d) counts) datasets [].

(** [sorted(items, key=lambda x: x[1], reverse=True)]: the sort is stable,
    also under [reverse], so an item is put before the first one whose
    count does not exceed its own. *)
Fixpoint insert_desc (x : string * nat) (l : list (string * nat)) : list (string * nat) :=
  match l with
  | [] => [x]
  | y :: ys => if snd y <=? snd x then x :: y :: ys else y :: insert_desc x ys
  end.

Fixpoint sorted_desc (l : list (string * nat)) : list (string * nat) :=
  match l with
  | [] => []
  | x :: xs => insert_desc x (sorted_desc xs)
  end.

Definition list_categories (datasets : list MedicalDataset) : list (string * nat) :=
  sorted_desc (count_categories datasets).

End Browser.

(** ** [medical_data_browser.py], the stand-alone script

    Its record extraction works on one section of text at a time. *)

Module Script.
Import PyStr Regex.

Record MedicalDataset := mkDataset {
  name : string;
  category : string;
  description : string;
  paper_url : option string;
  access_url : option string;
  information_url : option string;
  data_url : option string;
  requires_registration : bool;
  additional_info : option string
}.

Definition _extract_url (line : string) : option string := search_url line.

(** [re.search(r'__(.+?)__', s)]: group 1 of the leftmost match. *)
Fixpoint search_bold (s : string) : option string :=
  match match_delim "__" s with
  | Some (g, _) => Some g
  | None =>
      match s with
      | EmptyString => None
      | String _ s' => search_bold s'
      end
  end.

(** The name taken from the first line of a section. *)
Definition section_name (first : string) : string :=
  match search_bold first with
  | Some g => g
  | None => strip (strip_hash first)
  end.

Record metadata := mkMeta {
  description_lines : list string;
  m_paper_url : option string;
  m_access_url : option string;
  m_information_url : option string;
  m_data_url : option string;
  m_requires_registration : bool
}.

Definition metadata0 : metadata := mkMeta [] None None None None false.

(** [not information_url]: unset, or set to the empty string. *)
Definition unset (u : option string) : bool :=
  match u with
  | None => true
  | Some s => negb (truthy s)
  end.

Definition label_prefixes : list string :=
  ["Paper:"; "Access:"; "Information:"; "Data:"; "Overview:"].

(** One turn of the loop [for line in lines[1:]]. *)
Definition section_step (m : metadata) (line0 : string) : metadata :=
  let line := strip line0 in
  let reg :=
    if contains "requires registration" (lower line) then true
    else m_requires_registration m in
  if startswith (lower line) "paper:" then
    mkMeta (description_lines m) (_extract_url line) (m_access_url m)
      (m_information_url m) (m_data_url m) reg
  else if startswith (lower line) "access:" then
    mkMeta (description_lines m) (m_paper_url m) (_extract_url line)
      (m_information_url m) (m_data_url m) reg
  else if startswith (lower line) "information:" then
    mkMeta (description_lines m) (m_paper_url m) (m_access_url m)
      (_extract_url line) (m_data_url m) reg
  else if startswith (lower line) "data:" then
    mkMeta (description_lines m) (m_paper_url m) (m_access_url m)
      (m_information_url m) (_extract_url line) reg
  else if startswith (lower line) "overview:" then
    mkMeta (description_lines m) (m_paper_url m) (m_access_url m)
      (if unset (m_information_url m) then _extract_url line
       else m_information_url m)
      (m_data_url m) reg
  else if truthy line
          && negb (existsb (fun p => startswith line p) label_prefixes) then
    let clean_line := sub (match_delim "__") line in
    mkMeta
      (if truthy clean_line then description_lines m ++ [clean_line]
       else description_lines m)
      (m_paper_url m) (m_access_url m) (m_information_url m)
      (m_data_url m) reg
  else
    mkMeta (description_lines m) (m_paper_url m) (m_access_url m)
      (m_information_url m) (m_data_url m) reg.

(** [_extract_dataset_info] once the section is cut into lines. *)
Definition extract_from_lines (lines : list string) (category : string)
    : option MedicalDataset :=
  match lines with
  | [] => None
  | first :: rest =>
      let name := section_name first in
      if negb (truthy name) || (String.length name <? 3) then None
      else
        let m := fold_left section_step rest metadata0 in
        Some (mkDataset name category
                (strip (join " " (description_lines m)))
                (m_paper_url m) (m_access_url m) (m_information_url m)
                (m_data_url m) (m_requires_registration m) None)
  end.

Definition _extract_dataset_info (section : string) (category : string)
    : option MedicalDataset :=
  extract_from_lines (split_nl (strip section)) category.

End Script.

(** ** [create_summary_statistics] of [medical_data/utils.py] *)

Module Utils.
Import PyStr.
Import Browser.

(** What a caller may pass for [datasets]: a list of records, or something
    that is not a list. *)
Inductive argument :=
| ArgList (ds : list MedicalDataset)
| ArgTuple (ds : list MedicalDataset)
| ArgStr (s : string)
| ArgNone.

Inductive exception :=
| TypeError
| ValueError.

(** A number of the result: an [int], [float("inf")], or the float quotient
    [a / b] of two ints, kept unevaluated. *)
Inductive number :=
| Int (n : nat)
| Infinity
| Quotient (a b : nat).

(** [max(x, n)] and [min(x, n)] for an int [n]: the first argument is
    returned unless the second is strictly beyond it. *)
Definition num_max (x : number) (n : nat) : number :=
  match x with
  | Int a => Int (Nat.max a n)
  | Infinity => Infinity
  | Quotient a b => if a <? n * b then Int n else Quotient a b
  end.

Definition num_min (x : number) (n : nat) : number :=
  match x with
  | Int a => Int (Nat.min a n)
  | Infinity => Int n
  | Quotient a b => if n * b <? a then Int n else Quotient a b
  end.

Record url_statistics := mkUrlStats {
  paper_urls : nat;
  access_urls : nat;
  data_urls : nat;
  information_urls : nat;
  overview_urls : nat
}.

Record description_statistics := mkDescStats {
  with_description : nat;
  average_description_length : number;
  max_description_length : number;
  min_description_length : number
}.

(** The result dictionary.  [categories] is a set during the loop and a
    list made from it at the end: it is kept without duplicates, and only
    its members and its length mean something, not its order.  The records
    are [MedicalDataset] objects, so every [hasattr] test holds. *)
Record statistics := mkStats {
  total_datasets : nat;
  categories : list string;
  category_counts : list (string * nat);
  unique_categories : nat;
  datasets_with_papers : nat;
  datasets_with_access : nat;
  datasets_requiring_registration : nat;
  url_stats : url_statistics;
  description_stats : description_statistics
}.

(** Truth value of an optional string attribute. *)
Definition set_url (u : option string) : bool :=
  match u with
  | Some s => truthy s
  | None => false
  end.

Definition b2n (b : bool) : nat := if b then 1 else 0.

(** [s.add(c)] on a set kept as the list of its elements, without
    repeats.  The list is in the order the elements came in; the order in
    which Python's [list(set)] gives them is that of the hash table, so
    only the elements of [categories] and their number mean something. *)
Definition set_add (c : string) (s : list string) : list string :=
  if existsb (String.eqb c) s then s else s ++ [c].

(** The loop state: the dictionary under construction and the list
    [description_lengths]. *)
Definition stats_step (acc : statistics * list nat) (d : MedicalDataset)
    : statistics * list nat :=
  let (st, lens) := acc in
  let us := url_stats st in
  let ds := description_stats st in
  let has_access :=
    set_url (access_url d) || set_url (data_url d)
    || set_url (information_url d) || set_url (overview_url d) in
  let has_desc := truthy (description d) in
  let desc_len := String.length (description d) in
  (mkStats (total_datasets st)
     (set_add (category d) (categories st))
     (bump (category d) (category_counts st))
     (unique_categories st)
     (datasets_with_papers st + b2n (set_url (paper_url d)))
     (datasets_with_access st + b2n has_access)
     (datasets_requiring_registration st + b2n (requires_registration d))
     (mkUrlStats
        (paper_urls us + b2n (set_url (paper_url d)))
        (access_urls us + b2n (set_url (access_url d)))
        (data_urls us + b2n (set_url (data_url d)))
        (information_urls us + b2n (set_url (information_url d)))
        (overview_urls us + b2n (set_url (overview_url d))))
     (if has_desc then
        mkDescStats (with_description ds + 1)
          (average_description_length ds)
          (num_max (max_description_length ds) desc_len)
          (num_min (min_description_length ds) desc_len)
      else ds),
   if has_desc then lens ++ [desc_len] else lens).

Definition stats0 (n : nat) : statistics :=
  mkStats n [] [] 0 0 0 0 (mkUrlStats 0 0 0 0 0)
    (mkDescStats 0 (Int 0) (Int 0) Infinity).

Definition create_summary_statistics (datasets : argument)
    : exception + statistics :=
  match datasets with
  | ArgList [] => inl ValueError
  | ArgList ds =>
      let (st, lens) := fold_left stats_step ds (stats0 (List.length ds), []) in
      let dst := description_stats st in
      let dst' :=
        match lens with
        | [] =>
            mkDescStats (with_description dst)
              (average_description_length dst)
              (max_description_length dst) (Int 0)
        | _ =>
            mkDescStats (with_description dst)
              (Quotient (list_sum lens) (List.length lens))
              (max_description_length dst) (min_description_length dst)
        end in
      inr (mkStats (total_datasets st) (categories st) (category_counts st)
             (List.length (categories st))
             (datasets_with_papers st) (datasets_with_access st)
             (datasets_requiring_registration st) (url_stats st) dst')
  | _ => inl TypeError
  end.

End Utils.

(** ** Example documents *)

(** The document of the scenario: a category with two records, the first
    with a description line and a paper link, the second with an access
    link, separated by [***]. *)
Definition scenario_document : string :=
  String.concat (String PyStr.newline EmptyString)
    ["## 1. Imaging"; ""; "__Alpha Set__"; "";
     "A chest scan corpus. Requires registration."; "";
     "Paper: https://x.org/a"; ""; "***"; ""; "__Beta Set__"; "";
     "Access: https://y.org/b"].

(** A category whose two records are not separated: the second title
    follows the description of the first. *)
Definition two_titles_document : string :=
  String.concat (String PyStr.newline EmptyString)
    ["## 1. Imaging"; "***"; "__Alpha__"; "About alpha."; "__Beta__";
     "About beta."].

(** Two categories, the first with one record, the second with two. *)
Definition uneven_document : string :=
  String.concat (String PyStr.newline EmptyString)
    ["## 1. Imaging"; "***"; "__Alpha__"; "## 2. Records"; "***";
     "__Beta__"; "***"; "__Gamma__"].

(** One category with one record, after a separator line. *)
Definition headed_document : string :=
  String.concat (String PyStr.newline EmptyString)
    ["## 1. Imaging"; "***"; "__Alpha Set__"; "Data: https://x.org/a"].

(** ** Vocabulary of the statements *)

Module Vocabulary.
Import PyStr Regex Browser.

(** The parser state with [ds] put in front of its record list. *)
Definition prepend (ds : list MedicalDataset) (st : parser) : parser :=
  mkParser (current_category st) (current_dataset_lines st) (in_dataset st)
    (ds ++ datasets st).

(** The kinds of line the parser tells apart. *)
Definition is_header (line : string) : bool :=
  match category_match line with Some _ => true | None => false end.

Definition is_separator (line : string) : bool :=
  String.eqb (strip line) "***".

Definition is_title (line : string) : bool :=
  startswith (strip line) "__".

Definition is_body (line : string) : bool :=
  negb (is_header line) && negb (is_separator line) && negb (is_title line).

Definition nonblank (line : string) : bool := truthy (strip line).

(** A line carries a label when its stripped lowercase form starts with
    it. *)
Definition has_label (label line : string) : bool :=
  startswith (lower (strip line)) label.




Definition no_information_label (line : string) : bool :=
  negb (has_label "information:" line).

(** A document with one category and one record whose title has two
    characters. *)
Definition short_title_document : string :=
  String.concat (String PyStr.newline EmptyString)
    ["## 1. Imaging"; ""; "__ab__"; ""; "Data: https://z.org/c"].

(** The position of the first occurrence of [c] in [l] (the length of [l]
    when there is none). *)
Fixpoint first_index (c : string) (l : list string) : nat :=
  match l with
  | [] => 0
  | x :: l' => if String.eqb x c then 0 else S (first_index c l')
  end.

(** The order of the category listing over the categories [cats] of the
    records: a larger count first, and among equal counts the category
    seen first. *)
Definition ranked_before (cats : list string) (a b : string * nat) : Prop :=
  snd b < snd a
  \/ (snd a = snd b /\ first_index (fst a) cats < first_index (fst b) cats).

Definition seen_before (cats : list string) (a b : string * nat) : Prop :=
  first_index (fst a) cats < first_index (fst b) cats.

(** The dictionary of counts after the records of categories [p]: one key
    per category met, in the order they were first met, each with the
    number of its records. *)
Definition counted (p : list string) (acc : list (string * nat)) : Prop :=
  NoDup (map fst acc)
  /\ (forall k, In k (map fst acc) <-> In k p)
  /\ Forall (fun kn => snd kn = count_occ string_dec p (fst kn)) acc
  /\ StronglySorted (fun a b => first_index a p < first_index b p)
       (map fst acc).

(** The counting loop of [list_categories] over the categories alone. *)
Definition tally (cats : list string) (counts : list (string * nat))
    : list (string * nat) :=
  fold_left (fun a c => bump c a) cats counts.

(** The title a section header line gives to [current_category]. *)
Definition header_title (line : string) : option string :=
  option_map strip (category_match line).

(** The title of the last section header among the lines [ls]. *)
Definition last_header (ls : list string) : option string :=
  fold_left
    (fun acc l => match header_title l with Some t => Some t | None => acc end)
    ls None.

Definition default_category (o : option string) : string :=
  match o with Some t => t | None => "" end.

(** The record [r] starts at line [i] of the document: that line is a
    title line, [r] is built from it and from lines accumulated after it,
    and its category is the title of the last header before line [i]. *)
Definition record_at (lines : list string) (i : nat) (r : MedicalDataset)
    : Prop :=
  exists l rest,
    nth_error lines i = Some l /\ is_title l = true
    /\ r = make_dataset l rest (category r)
    /\ category r <> ""
    /\ last_header (firstn i lines) = Some (category r).

(** The state of the parser after the first [k] lines. *)
Definition parser_inv (lines : list string) (k : nat) (st : parser) : Prop :=
  current_category st = default_category (last_header (firstn k lines))
  /\ (in_dataset st = true -> current_dataset_lines st <> [])
  /\ exists starts,
       StronglySorted lt starts
       /\ Forall2 (record_at lines) starts (datasets st)
       /\ Forall (fun i => i < k) starts
       /\ match current_dataset_lines st with
          | [] => True
          | first :: _ =>
              exists j,
                j < k /\ nth_error lines j = Some first
                /\ is_title first = true
                /\ truthy (current_category st) = true
                /\ last_header (firstn j lines) = Some (current_category st)
                /\ Forall (fun i => i < j) starts
          end.

(** The number of title lines of a document that stand under a section
    header, [cat] being the category in force before the lines. *)
Fixpoint count_titles (cat : string) (lines : list string) : nat :=
  match lines with
  | [] => 0
  | l :: ls =>
      match header_title l with
      | Some t => count_titles t ls
      | None =>
          (if is_title l && truthy cat then 1 else 0) + count_titles cat ls
      end
  end.

(** The lengths of the non-empty descriptions, in record order. *)
Definition desc_lengths (ds : list MedicalDataset) : list nat :=
  map (fun d => String.length (description d))
    (filter (fun d => truthy (description d)) ds).

End Vocabulary.

(** ** The remaining queries of [medical_data/browser.py] *)

Module Queries.
Import PyStr Regex Browser.

(** [MedicalDataset.has_access]: [any] over the four access links, each
    taken by its truth value. *)
Definition has_access (d : MedicalDataset) : bool :=
  existsb
    (fun u => match u with Some s => truthy s | None => false end)
    [access_url d; data_url d; information_url d; overview_url d].

(** The test of the loop of [get_dataset_by_name] on one record. *)
Definition name_matches (exact_match : bool) (name_lower : string)
    (d : MedicalDataset) : bool :=
  if exact_match then String.eqb (lower (name d)) name_lower
  else contains name_lower (lower (name d)).

(** [get_dataset_by_name(name, exact_match)]: the first record that
    passes the test, [None] when there is none. *)
Definition get_dataset_by_name (datasets : list MedicalDataset)
    (name : string) (exact_match : bool) : option MedicalDataset :=
  find (name_matches exact_match (lower name)) datasets.

End Queries.

(** ** [truncate_text] of [medical_data/utils.py] *)

Module Text.
Import PyStr.

(** [s.split()]: the maximal runs of characters that are not spaces.
    The first component is the run the string starts with. *)
Fixpoint words_aux (s : string) : string * list string :=
  match s with
  | EmptyString => (EmptyString, [])
  | String c s' =>
      let (w, ws) := words_aux s' in
      if isspace c then (EmptyString, if truthy w then w :: ws else ws)
      else (String c w, ws)
  end.

Definition split_ws (s : string) : list string :=
  let (w, ws) := words_aux s in if truthy w then w :: ws else ws.

(** [s[:n]] for a non-negative [n]. *)
Fixpoint take (n : nat) (s : string) : string :=
  match n, s with
  | S k, String c s' => String c (take k s')
  | _, _ => EmptyString
  end.

(** [s.rfind(" ", 0, stop)] for a non-negative [stop]: the last position
    below [stop] that holds a blank; [None] stands for -1. *)
Fixpoint rfind_space (s : string) (stop : nat) : option nat :=
  match stop, s with
  | S k, String c s' =>
      match rfind_space s' k with
      | Some i => Some (S i)
      | None => if Ascii.eqb c " " then Some 0 else None
      end
  | _, _ => None
  end.

(** A Python [int]: [Negative n] is [-(n + 1)]. *)
Inductive int :=
| NonNeg (n : nat)
| Negative (n : nat).

(** What may be passed for [text]. *)
Inductive text_arg :=
| Str (s : string)
| NotStr.

Inductive exception :=
| TypeError
| ValueError.

Definition truncate_text (text : text_arg) (max_length : int)
    (suffix : string) (respect_word_boundaries : bool)
    : exception + string :=
  match text with
  | NotStr => inl TypeError
  | Str text =>
      match max_length with
      | Negative _ => inl ValueError
      | NonNeg max_length =>
          if max_length <? String.length suffix then inl ValueError
          else
            let text := join " " (split_ws text) in
            if String.length text <=? max_length then inr text
            else
              let truncate_at := max_length - String.length suffix in
              let truncate_at :=
                if respect_word_boundaries && (0 <? truncate_at) then
                  match rfind_space text truncate_at with
                  | Some last_space =>
                      if 0 <? last_space then last_space else truncate_at
                  | None => truncate_at
                  end
                else truncate_at in
              inr (rstrip (take truncate_at text) ++ suffix)%string
      end
  end.

End Text.

(** ** [filter_datasets] of [medical_data/utils.py]

    The records are [MedicalDataset] objects and the criteria a
    dictionary, kept as the list of its items.  A key is the name of a
    field or of a method of the dataclass, or no attribute at all; the
    attributes every Python object has besides are left out.  An expected
    value is a string, [None] or a boolean; a predicate is a function to
    a truth value. *)

Module Filters.
Import PyStr Browser.

(** What [getattr] gives on a record. *)
Inductive value :=
| VStr (s : string)
| VNone
| VBool (b : bool)
| VMethod (method : string).

(** What a criterion expects when it is not a predicate. *)
Inductive expected :=
| EStr (s : string)
| ENone
| EBool (b : bool).

Inductive criterion :=
| Predicate (f : value -> bool)
| Expected (e : expected).

Definition of_optional (o : option string) : value :=
  match o with Some s => VStr s | None => VNone end.

(** [getattr(dataset, attr_name)], [None] when [hasattr] is false.  Only
    the fields and the methods the dataclass declares are answered; for
    the attributes every object has ([__doc__], [__class__], ...) Python's
    [hasattr] is true, so nothing is stated about the keys this function
    does not know. *)
Definition getattr (d : MedicalDataset) (attr_name : string) : option value :=
  if String.eqb attr_name "name" then Some (VStr (name d))
  else if String.eqb attr_name "category" then Some (VStr (category d))
  else if String.eqb attr_name "description" then Some (VStr (description d))
  else if String.eqb attr_name "paper_url" then Some (of_optional (paper_url d))
  else if String.eqb attr_name "access_url" then Some (of_optional (access_url d))
  else if String.eqb attr_name "data_url" then Some (of_optional (data_url d))
  else if String.eqb attr_name "information_url"
       then Some (of_optional (information_url d))
  else if String.eqb attr_name "overview_url"
       then Some (of_optional (overview_url d))
  else if String.eqb attr_name "requires_registration"
       then Some (VBool (requires_registration d))
  else if String.eqb attr_name "raw_text" then Some (VStr (raw_text d))
  else if String.eqb attr_name "to_dict" then Some (VMethod "to_dict")
  else if String.eqb attr_name "has_paper" then Some (VMethod "has_paper")
  else if String.eqb attr_name "has_access" then Some (VMethod "has_access")
  else None.

(** [actual_value == expected_value] when they are not both strings. *)
Definition equals (actual : value) (e : expected) : bool :=
  match actual, e with
  | VStr a, EStr b => String.eqb a b
  | VNone, ENone => true
  | VBool a, EBool b => Bool.eqb a b
  | _, _ => false
  end.

(** The entry one criterion adds to [matches]. *)
Definition criterion_matches (d : MedicalDataset)
    (item : string * criterion) : bool :=
  match getattr d (fst item) with
  | None => false
  | Some actual_value =>
      match snd item with
      | Predicate f => f actual_value
      | Expected expected_value =>
          match expected_value, actual_value with
          | EStr e, VStr a => contains (lower e) (lower a)
          | _, _ => equals actual_value expected_value
          end
      end
  end.

(** [criteria] stands for the items of a dictionary, in insertion order:
    its keys are distinct. *)
Definition filter_datasets (datasets : list MedicalDataset)
    (criteria : list (string * criterion)) (match_all : bool)
    : list MedicalDataset :=
  match criteria with
  | [] => datasets
  | _ =>
      filter
        (fun d =>
           let matches := map (criterion_matches d) criteria in
           if match_all then forallb (fun b => b) matches
           else existsb (fun b => b) matches)
        datasets
  end.

End Filters.

(** ** The parser and the index of the stand-alone script *)

Module ScriptBrowser.
Import PyStr Regex Script.

(** The lookahead [(?=\n##|\Z)]: a newline and two hashes follow, or the
    text ends. *)
Definition at_boundary (s : string) : bool :=
  match s with
  | EmptyString => true
  | _ => String.prefix (String newline "##") s
  end.

(** The group [(.+?)] under [re.DOTALL] before that lookahead: the
    shortest non-empty run after which the lookahead holds. *)
Fixpoint lazy_block (s : string) : option (string * string) :=
  match s with
  | EmptyString => None
  | String c s' =>
      if at_boundary s' then Some (String c EmptyString, s')
      else match lazy_block s' with
           | Some (g, rest) => Some (String c g, rest)
           | None => None
           end
  end.

Fixpoint last_char (s : string) : string :=
  match s with
  | EmptyString => EmptyString
  | String c EmptyString => String c EmptyString
  | String _ s' => last_char s'
  end.

(** [## (\d+)\.\s+(.+?)(?=\n##|\Z)] at the head of [s]: groups 1 and 2,
    the whole match and the text after it.  When the run of spaces
    reaches the end of the text, its last character is given back to
    group 2. *)
Definition category_at (s : string)
    : option (string * string * string * string) :=
  match drop_prefix "## " s with
  | None => None
  | Some r1 =>
      let (ds, r2) := span isdigit r1 in
      match ds, r2 with
      | String _ _, String "." r3 =>
          let (w, r4) := span isspace r3 in
          match w with
          | EmptyString => None
          | String _ w' =>
              match lazy_block r4 with
              | Some (g, rest) =>
                  Some (ds, g, ("## " ++ ds ++ "." ++ w ++ g)%string, rest)
              | None =>
                  match w' with
                  | EmptyString => None
                  | _ =>
                      Some (ds, last_char w,
                            ("## " ++ ds ++ "." ++ w)%string, EmptyString)
                  end
              end
          end
      | _, _ => None
      end
  end.

(** [re.finditer] of that pattern: for each match its number, its
    stripped name and its whole text. *)
Fixpoint category_blocks (skip : nat) (s : string)
    : list (string * string * string) :=
  match s with
  | EmptyString => []
  | String c s' =>
      match skip with
      | S k => category_blocks k s'
      | O =>
          match category_at s with
          | Some (num, g, whole, rest) =>
              (num, strip g, whole)
              :: category_blocks (String.length s' - String.length rest) s'
          | None => category_blocks 0 s'
          end
      end
  end.

Definition separator : string :=
  String newline (String "*" (String "*" (String "*" (String newline "")))).

(** [re.split(r'\n\*\*\*\n', s)] *)
Fixpoint split_sections (skip : nat) (s : string) : list string :=
  match s with
  | EmptyString => [EmptyString]
  | String c s' =>
      match skip with
      | S k => split_sections k s'
      | O =>
          match drop_prefix separator s with
          | Some _ => EmptyString :: split_sections 4 s'
          | None =>
              match split_sections 0 s' with
              | h :: t => String c h :: t
              | [] => [String c EmptyString]
              end
          end
      end
  end.

(** [self.datasets] and [self.categories_index], the latter as the list
    of its items in insertion order. *)
Record browser := mkBrowser {
  datasets : list MedicalDataset;
  categories_index : list (string * list MedicalDataset)
}.

Definition browser0 : browser := mkBrowser [] [].

(** [index[category].append(dataset)] on a [defaultdict(list)]. *)
Fixpoint index_append (c : string) (d : MedicalDataset)
    (index : list (string * list MedicalDataset))
    : list (string * list MedicalDataset) :=
  match index with
  | [] => [(c, [d])]
  | (k, l) :: rest =>
      if String.eqb k c then (k, l ++ [d]) :: rest
      else (k, l) :: index_append c d rest
  end.

(** One turn of the loop over the sections. *)
Definition add_section (category_name : string) (b : browser)
    (section : string) : browser :=
  if negb (truthy (strip section)) || startswith section "##" then b
  else
    match _extract_dataset_info section category_name with
    | Some dataset =>
        if truthy (name dataset) then
          mkBrowser (datasets b ++ [dataset])
            (index_append category_name dataset (categories_index b))
        else b
    | None => b
    end.

Definition _parse_category_datasets (category_num category_name content : string)
    (b : browser) : browser :=
  fold_left (add_section category_name) (split_sections 0 content) b.

(** [parse_readme] on the text read from the file. *)
Definition parse_readme (content : string) (b : browser) : browser :=
  fold_left
    (fun b block =>
       match block with
       | (category_num, category_name, category_content) =>
           _parse_category_datasets category_num category_name
             category_content b
       end)
    (category_blocks 0 content) b.

Fixpoint index_get (c : string) (index : list (string * list MedicalDataset))
    : list MedicalDataset :=
  match index with
  | [] => []
  | (k, l) :: rest => if String.eqb k c then l else index_get c rest
  end.

(** [browse_by_category(category_name)]: everything for [None] and for
    the empty name. *)
Definition browse_by_category (b : browser) (category_name : option string)
    : list MedicalDataset :=
  match category_name with
  | Some c => if truthy c then index_get c (categories_index b) else datasets b
  | None => datasets b
  end.

Definition list_categories (b : browser) : list (string * nat) :=
  map (fun item => (fst item, List.length (snd item))) (categories_index b).

Definition get_dataset_by_name (b : browser) (name0 : string)
    : option MedicalDataset :=
  find (fun d => String.eqb (lower (name d)) (lower name0)) (datasets b).

End ScriptBrowser.

(** ** Vocabulary of the further properties *)

Module Shapes.
Import PyStr Regex Browser Vocabulary Utils.

Fixpoint all_chars (p : ascii -> bool) (s : string) : bool :=
  match s with
  | EmptyString => true
  | String c s' => p c && all_chars p s'
  end.

(** A link as the parser extracts it: the scheme, then at least one
    character, none of them a space or a closing parenthesis. *)
Definition url_shaped (u : string) : bool :=
  match drop_prefix "https://" u with
  | Some r => truthy r && all_chars url_char r
  | None =>
      match drop_prefix "http://" u with
      | Some r => truthy r && all_chars url_char r
      | None => false
      end
  end.

Definition url_field_ok (o : option string) : bool :=
  match o with
  | None => true
  | Some u => url_shaped u
  end.

(** The first character of [s], if any, is not a link character. *)
Definition stops_link (s : string) : bool :=
  match s with
  | EmptyString => true
  | String c _ => negb (url_char c)
  end.

Definition links_ok (d : MedicalDataset) : Prop :=
  url_field_ok (paper_url d) = true
  /\ url_field_ok (access_url d) = true
  /\ url_field_ok (data_url d) = true
  /\ url_field_ok (information_url d) = true
  /\ url_field_ok (overview_url d) = true.

Definition meta_links_ok (m : metadata) : Prop :=
  url_field_ok (m_paper_url m) = true
  /\ url_field_ok (m_access_url m) = true
  /\ url_field_ok (m_data_url m) = true
  /\ url_field_ok (m_information_url m) = true
  /\ url_field_ok (m_overview_url m) = true.

Definition no_newline (l : string) : bool := negb (has_newline l).

(** [s[n:]] for a non-negative [n]. *)
Fixpoint drop (n : nat) (s : string) : string :=
  match n, s with
  | S k, String _ s' => drop k s'
  | _, _ => s
  end.

(** The text with its runs of spaces collapsed, as [truncate_text] cleans
    it before measuring. *)
Definition collapse (text : string) : string :=
  join " " (Text.split_ws text).

(** A word: not empty and without a space character. *)
Definition solid (w : string) : bool :=
  truthy w && all_chars (fun c => negb (isspace c)) w.

(** The index of the script agrees with its record list: the entry of a
    category holds the records of that category, in order, and no entry
    is empty or doubled. *)
Definition index_agrees (b : ScriptBrowser.browser) : Prop :=
  NoDup (map fst (ScriptBrowser.categories_index b))
  /\ Forall (fun item => snd item <> []) (ScriptBrowser.categories_index b)
  /\ forall c,
       ScriptBrowser.index_get c (ScriptBrowser.categories_index b)
       = filter (fun d => String.eqb (Script.category d) c)
           (ScriptBrowser.datasets b).

(** Two records for the examples. *)
Definition sample_alpha : MedicalDataset :=
  mkDataset "Alpha Set" "Imaging" "A chest scan corpus."
    (Some "https://x.org/a") None None None None true "".

Definition sample_beta : MedicalDataset :=
  mkDataset "Beta Set" "Imaging" "" None (Some "https://y.org/b")
    None None None false "".

(** The counters of the statistics loop after the records [ds], from the
    state [st]. *)
Definition counters_after (ds : list MedicalDataset)
    (st st' : Utils.statistics)
    : Prop :=
  total_datasets st' = total_datasets st
  /\ category_counts st' = tally (map category ds) (category_counts st)
  /\ categories st'
     = fold_left (fun a c => set_add c a) (map category ds) (categories st)
  /\ datasets_with_papers st'
     = datasets_with_papers st
       + List.length (filter (fun d => set_url (paper_url d)) ds)
  /\ datasets_with_access st'
     = datasets_with_access st + List.length (filter Queries.has_access ds)
  /\ datasets_requiring_registration st'
     = datasets_requiring_registration st
       + List.length (filter requires_registration ds)
  /\ paper_urls (url_stats st')
     = paper_urls (url_stats st)
       + List.length (filter (fun d => set_url (paper_url d)) ds)
  /\ access_urls (url_stats st')
     = access_urls (url_stats st)
       + List.length (filter (fun d => set_url (access_url d)) ds)
  /\ data_urls (url_stats st')
     = data_urls (url_stats st)
       + List.length (filter (fun d => set_url (data_url d)) ds)
  /\ information_urls (url_stats st')
     = information_urls (url_stats st)
       + List.length (filter (fun d => set_url (information_url d)) ds)
  /\ overview_urls (url_stats st')
     = overview_urls (url_stats st)
       + List.length (filter (fun d => set_url (overview_url d)) ds).

(** What a line after the first adds to the description lines of a
    section of the script. *)
Definition described (line : string) : list string :=
  Script.description_lines (Script.section_step Script.metadata0 line).

(** A non-blank line of the document [doc]. *)
Definition line_ok (doc : list string) (l : string) : Prop :=
  nonblank l = true /\ In l doc.

(** The record [r] is built from a title line and further non-blank lines
    of the document. *)
Definition record_from (doc : list string) (r : MedicalDataset) : Prop :=
  exists first rest,
    r = make_dataset first rest (category r)
    /\ is_title first = true
    /\ Forall (line_ok doc) (first :: rest).

(** What the parser state holds while it reads lines of [doc]. *)
Definition buffer_inv (doc : list string) (st : parser) : Prop :=
  Forall (record_from doc) (datasets st)
  /\ (in_dataset st = true -> current_dataset_lines st <> [])
  /\ match current_dataset_lines st with
     | [] => True
     | first :: rest =>
         is_title first = true /\ Forall (line_ok doc) (first :: rest)
     end.

End Shapes.

(** * Properties *)

(** ** The definitions on small inputs *)

Section Samples.
Import PyStr Regex.

Example strip_sample : strip "  a b	 " = "a b".
Proof. reflexivity. Qed.

Example split_sample :
  split_nl (String "a" (String newline (String newline "b")))
  = ["a"; ""; "b"].
Proof. reflexivity. Qed.

Example lower_sample : lower "Requires REGISTRATION." = "requires registration.".
Proof. reflexivity. Qed.

Example header_sample :
  category_match "  ## 12.   Medical Imaging Data " = Some "Medical Imaging Data"
  /\ category_match "##1. Imaging" = None
  /\ category_match "## 1 Imaging" = None
  /\ category_match "## 1." = None
  /\ category_match "### 1. Imaging" = None.
Proof. repeat split; reflexivity. Qed.

Example bold_sample :
  sub (match_delim "__") "__EchoNet__ and __b__, ____" = "EchoNet and b, ____"
  /\ sub (match_delim "__") "_____" = "_"
  /\ sub (match_delim "__") "__" = "__".
Proof. repeat split; reflexivity. Qed.

Example clean_sample :
  Browser._clean_markdown "see [the *site*](http://a.b/c), `code` and _it_ "
  = "see the site, code and it".
Proof. reflexivity. Qed.

Example url_sample :
  search_url "Data: see (https://a.org/x?y=1) or http://b.org" = Some "https://a.org/x?y=1"
  /\ search_url "Paper: https:// none" = None
  /\ search_url "Paper: to appear" = None.
Proof. repeat split; reflexivity. Qed.

Example listing_sample :
  Browser.sorted_desc
    (Vocabulary.tally ["B"; "A"; "C"; "A"; "B"; "D"; "D"; "D"] [])
  = [("D", 3); ("B", 2); ("A", 2); ("C", 1)].
Proof. reflexivity. Qed.

(** In the stand-alone script a section is what stands between two [***]
    lines: a second title inside it is one more description line. *)
Example script_section_sample :
  option_map (fun r => (Script.name r, Script.description r))
    (Script._extract_dataset_info
       (String.concat (String newline EmptyString)
          ["__Alpha__"; "About alpha."; "__Beta__"; "About beta."])
       "Imaging")
  = Some ("Alpha", "About alpha. Beta About beta.").
Proof. reflexivity. Qed.

End Samples.

(** ** The scenario *)

Section Scenario.
Import PyStr Regex Browser.

(** C1: on the scenario document the parser yields exactly the records
    Alpha Set and Beta Set, both in category Imaging, with the paper link,
    the registration flag and the description of the first and the access
    link of the second; the category listing is the single pair
    (Imaging, 2) and a search for chest finds exactly Alpha Set. *)
Theorem scenario_two_records :
  exists alpha beta,
    parse_readme scenario_document [] = [alpha; beta]
    /\ name alpha = "Alpha Set" /\ category alpha = "Imaging"
    /\ paper_url alpha = Some "https://x.org/a"
    /\ requires_registration alpha = true
    /\ contains "chest scan corpus" (description alpha) = true
    /\ name beta = "Beta Set" /\ category beta = "Imaging"
    /\ access_url beta = Some "https://y.org/b"
    /\ requires_registration beta = false
    /\ description beta = ""
    /\ list_categories (parse_readme scenario_document []) = [("Imaging", 2)]
    /\ search_datasets (parse_readme scenario_document []) "chest" false
       = [alpha].
Proof.
  eexists; eexists.
  split; [vm_compute; reflexivity|].
  repeat split; vm_compute; reflexivity.
Qed.

End Scenario.

(** ** Re-parsing *)

Section Reparse.
Import PyStr Regex Browser Vocabulary.

Lemma parse_section_prepend lines cat ds x :
  _parse_dataset_section lines cat (ds ++ x)
  = ds ++ _parse_dataset_section lines cat x.
Proof.
  destruct lines; simpl; [reflexivity|]. now rewrite app_assoc.
Qed.

Lemma flush_prepend ds st : flush (prepend ds st) = ds ++ flush st.
Proof.
  unfold flush, prepend; simpl.
  destruct (nonempty _ && truthy _); [apply parse_section_prepend|reflexivity].
Qed.

Lemma step_prepend ds st line :
  step (prepend ds st) line = prepend ds (step st line).
Proof.
  unfold step.
  destruct (category_match line).
  - now rewrite flush_prepend.
  - destruct (String.eqb (strip line) "***").
    + now rewrite flush_prepend.
    + simpl (current_category (prepend ds st)).
      simpl (current_dataset_lines (prepend ds st)).
      simpl (in_dataset (prepend ds st)).
      simpl (datasets (prepend ds st)).
      destruct (startswith (strip line) "__" && truthy (current_category st)).
      * unfold prepend; simpl.
        destruct (nonempty (current_dataset_lines st));
          [now rewrite parse_section_prepend|reflexivity].
      * destruct (in_dataset st && truthy (strip line)); reflexivity.
Qed.

Lemma fold_step_prepend ds lines st :
  fold_left step lines (prepend ds st) = prepend ds (fold_left step lines st).
Proof.
  revert st; induction lines as [|l lines IH]; intros st; simpl;
    [reflexivity|].
  now rewrite step_prepend, IH.
Qed.

Lemma parse_lines_appends lines ds :
  parse_lines lines ds = ds ++ parse_lines lines [].
Proof.
  unfold parse_lines.
  replace (mkParser "" [] false ds)
    with (prepend ds (mkParser "" [] false []))
    by (unfold prepend; simpl; now rewrite app_nil_r).
  now rewrite fold_step_prepend, flush_prepend.
Qed.

(** C7, as the code has it: [parse_readme] appends to [self.datasets]
    without clearing it.  From a browser holding [ds] it leaves [ds]
    followed by the records of one parse of the text; a second call on the
    same browser therefore leaves the one-parse result twice over, each
    copy equal field by field and in order to a single parse. *)
Theorem parse_readme_appends content ds :
  parse_readme content ds = ds ++ parse_readme content []
  /\ parse_readme content (parse_readme content [])
     = parse_readme content [] ++ parse_readme content [].
Proof.
  unfold parse_readme; split; apply parse_lines_appends.
Qed.

(** C7 fails as stated: after a second call on the same browser the record
    list of the scenario document has four entries, not the two of one
    parse. *)
Lemma second_parse_differs :
  parse_readme scenario_document (parse_readme scenario_document [])
  <> parse_readme scenario_document [].
Proof.
  vm_compute. discriminate.
Qed.

End Reparse.

(** ** Record boundaries *)

Section Boundaries.
Import PyStr Regex Browser Vocabulary.

Lemma startswith_cons p c s a :
  startswith (String c s) (String a p) = true -> a = c /\ startswith s p = true.
Proof.
  unfold startswith; simpl.
  destruct (ascii_dec a c); [auto|discriminate].
Qed.

Lemma title_is_no_header line :
  is_title line = true -> is_header line = false /\ is_separator line = false.
Proof.
  unfold is_title, is_header, is_separator, category_match.
  destruct (strip line) as [|c s]; [discriminate|].
  intros H; apply startswith_cons in H as [<- _]. split; reflexivity.
Qed.

Lemma step_title st line :
  is_title line = true -> truthy (current_category st) = true ->
  step st line
  = mkParser (current_category st) [line] true
      (_parse_dataset_section (current_dataset_lines st)
         (current_category st) (datasets st)).
Proof.
  intros Ht Hc.
  destruct (title_is_no_header line Ht) as [Hh Hs].
  unfold is_header in Hh; unfold is_separator in Hs; unfold is_title in Ht.
  unfold step.
  destruct (category_match line); [discriminate|].
  rewrite Hs, Ht, Hc; simpl.
  destruct (current_dataset_lines st); reflexivity.
Qed.

Lemma step_body c buf ds line :
  is_body line = true ->
  step (mkParser c buf true ds) line
  = mkParser c (buf ++ (if nonblank line then [line] else [])) true ds.
Proof.
  unfold is_body, is_header, is_separator, is_title, nonblank, step.
  destruct (category_match line); [discriminate|].
  destruct (String.eqb (strip line) "***"); [discriminate|].
  destruct (startswith (strip line) "__"); simpl; [discriminate|].
  intros _. destruct (truthy (strip line)); simpl;
    [reflexivity|now rewrite app_nil_r].
Qed.

Lemma fold_step_body post : forall c buf ds,
  forallb is_body post = true ->
  fold_left step post (mkParser c buf true ds)
  = mkParser c (buf ++ filter nonblank post) true ds.
Proof.
  induction post as [|l post IH]; intros c buf ds H; simpl.
  - now rewrite app_nil_r.
  - simpl in H. apply andb_true_iff in H as [Hl Hp].
    rewrite step_body by exact Hl. rewrite IH by exact Hp.
    rewrite <- app_assoc. destruct (nonblank l); reflexivity.
Qed.

(** A title line met while a category is active and a record is pending
    closes that record into the output list and starts a new buffer
    holding the title alone; when only description and metadata lines
    follow, the document ends with two records, the pending one and the
    new one, whose lines are those after its own title. *)
Lemma step_title_closes st line first rest :
  is_title line = true ->
  truthy (current_category st) = true ->
  current_dataset_lines st = first :: rest ->
  step st line
  = mkParser (current_category st) [line] true
      (datasets st ++ [make_dataset first rest (current_category st)])
  /\ forall post, forallb is_body post = true ->
       flush (fold_left step post (step st line))
       = datasets st
         ++ [make_dataset first rest (current_category st);
             make_dataset line (filter nonblank post) (current_category st)].
Proof.
  intros Ht Hc Hb.
  assert (Hstep : step st line
          = mkParser (current_category st) [line] true
              (datasets st ++ [make_dataset first rest (current_category st)])).
  { rewrite step_title by assumption. now rewrite Hb. }
  split; [exact Hstep|].
  intros post Hpost. rewrite Hstep, fold_step_body by exact Hpost.
  unfold flush; simpl. rewrite Hc; simpl.
  now rewrite <- app_assoc.
Qed.

(** *** Categories of the records *)

Lemma last_header_snoc pre l :
  last_header (pre ++ [l])
  = match header_title l with Some t => Some t | None => last_header pre end.
Proof. unfold last_header. now rewrite fold_left_app. Qed.

Lemma firstn_S_nth {A} (lines : list A) : forall k l,
  nth_error lines k = Some l -> firstn (S k) lines = firstn k lines ++ [l].
Proof.
  induction lines as [|x lines IH]; intros [|k] l H; try discriminate.
  - injection H as ->. reflexivity.
  - simpl in H. cbn [firstn]. simpl. f_equal. now apply IH.
Qed.

Lemma truthy_nonempty s : truthy s = true <-> s <> "".
Proof. destruct s; simpl; split; congruence. Qed.

Lemma Forall_lt_weaken k starts :
  Forall (fun i => i < k) starts -> Forall (fun i => i < S k) starts.
Proof. apply Forall_impl. intros; lia. Qed.

Lemma StronglySorted_lt_snoc starts j :
  StronglySorted lt starts -> Forall (fun i => i < j) starts ->
  StronglySorted lt (starts ++ [j]).
Proof.
  induction starts as [|x starts IH]; simpl; intros Hs Hf.
  - repeat constructor.
  - inversion Hs; subst. inversion Hf; subst.
    constructor; [now apply IH|].
    apply Forall_app. split; [assumption|]. now repeat constructor.
Qed.

(** The records after the pending buffer is closed. *)
Lemma flush_inv lines k st :
  parser_inv lines k st ->
  exists starts,
    StronglySorted lt starts
    /\ Forall2 (record_at lines) starts (flush st)
    /\ Forall (fun i => i < k) starts.
Proof.
  intros (Hc & Hin & starts & Hs & Hf & Hb & Hp). unfold flush.
  destruct (current_dataset_lines st) as [|first rest]; simpl.
  - exists starts. auto.
  - destruct (truthy (current_category st)) eqn:Et; [|exists starts; auto].
    destruct Hp as (j & Hj & Hn & Hti & _ & Hl & Hlt).
    exists (starts ++ [j]). repeat apply conj.
    + now apply StronglySorted_lt_snoc.
    + apply Forall2_app; [exact Hf|]. constructor; [|constructor].
      exists first, rest. repeat apply conj; try assumption.
      * reflexivity.
      * now apply truthy_nonempty.
    + apply Forall_app. split; [exact Hb|]. now repeat constructor.
Qed.

Lemma title_flush st :
  truthy (current_category st) = true ->
  (if nonempty (current_dataset_lines st)
   then _parse_dataset_section (current_dataset_lines st)
          (current_category st) (datasets st)
   else datasets st)
  = flush st.
Proof.
  intros H. unfold flush. rewrite H, andb_true_r.
  reflexivity.
Qed.

Lemma step_inv lines k st l :
  nth_error lines k = Some l ->
  parser_inv lines k st -> parser_inv lines (S k) (step st l).
Proof.
  intros Hl Hinv.
  destruct (flush_inv _ _ _ Hinv) as (starts' & Hs' & Hf' & Hb').
  destruct Hinv as (Hc & Hin & starts & Hs & Hf & Hb & Hp).
  unfold parser_inv.
  rewrite (firstn_S_nth _ _ _ Hl), last_header_snoc.
  unfold header_title, step.
  destruct (category_match l) as [title|] eqn:Ecm; simpl.
  - split; [reflexivity|]. split; [discriminate|].
    exists starts'. repeat apply conj; auto using Forall_lt_weaken.
  - destruct (String.eqb (strip l) "***"); simpl.
    { split; [exact Hc|]. split; [discriminate|].
      exists starts'. repeat apply conj; auto using Forall_lt_weaken. }
    destruct (startswith (strip l) "__" && truthy (current_category st))
      eqn:Et; simpl.
    { apply andb_true_iff in Et as [Ht Hcat].
      split; [exact Hc|]. split; [discriminate|].
      rewrite title_flush by exact Hcat.
      exists starts'. repeat apply conj; auto using Forall_lt_weaken.
      exists k. repeat apply conj; auto.
      rewrite Hc in Hcat |- *.
      destruct (last_header (firstn k lines)); [reflexivity|discriminate]. }
    destruct (in_dataset st && truthy (strip l)) eqn:Ei; simpl.
    { apply andb_true_iff in Ei as [Hi _].
      split; [exact Hc|]. split.
      - intros _ E. now apply app_eq_nil in E as [_ E].
      - exists starts. repeat apply conj; auto using Forall_lt_weaken.
        specialize (Hin Hi).
        destruct (current_dataset_lines st) as [|first rest]; [tauto|].
        simpl. destruct Hp as (j & Hj & Hp). exists j. split; [lia|exact Hp]. }
    split; [exact Hc|]. split; [exact Hin|].
    exists starts. repeat apply conj; auto using Forall_lt_weaken.
    destruct (current_dataset_lines st) as [|first rest]; [tauto|].
    destruct Hp as (j & Hj & Hp). exists j. split; [lia|exact Hp].
Qed.

Lemma fold_step_inv lines post : forall pre st,
  lines = pre ++ post ->
  parser_inv lines (List.length pre) st ->
  parser_inv lines (List.length lines) (fold_left step post st).
Proof.
  induction post as [|l post IH]; intros pre st E H; simpl.
  - subst lines. now rewrite app_nil_r in *.
  - apply (IH (pre ++ [l])).
    + now rewrite <- app_assoc.
    + rewrite length_app; simpl. rewrite Nat.add_1_r.
      apply step_inv; [|exact H].
      subst lines. rewrite nth_error_app2 by lia.
      now rewrite Nat.sub_diag.
Qed.

Lemma lazy_group_nonempty d s g rest :
  lazy_group d s = Some (g, rest) -> g <> "".
Proof.
  destruct s as [|c s]; simpl; [discriminate|].
  destruct (is_newline c); [discriminate|].
  destruct (drop_prefix d s).
  - intros [= <- _]. discriminate.
  - destruct (lazy_group d s) as [[g' r']|]; [|discriminate].
    intros [= <- _]. discriminate.
Qed.

Lemma sub_bold_nonempty s : s <> "" -> sub (match_delim "__") s <> "".
Proof.
  destruct s as [|c s]; [congruence|]. intros _.
  unfold sub. cbn [sub_from].
  destruct (match_delim "__" (String c s)) as [[g rest]|] eqn:E;
    [|discriminate].
  unfold match_delim in E.
  destruct (drop_prefix "__" (String c s)); [|discriminate].
  apply lazy_group_nonempty in E.
  destruct g; [congruence|discriminate].
Qed.

Lemma title_name_nonempty l rest c :
  is_title l = true -> name (make_dataset l rest c) <> "".
Proof.
  unfold is_title. intros H. simpl. apply sub_bold_nonempty.
  destruct (strip l); [discriminate|discriminate].
Qed.

(** Every record of the output has a non-empty name and a non-empty
    category.  The records start at title lines of the document, at
    increasing positions, and the category of a record is the stripped
    title of the last numbered section header before its title line; so a
    record is never put out without a header before it. *)
Lemma parse_readme_under_headers content :
  exists starts,
    StronglySorted lt starts
    /\ Forall2
         (fun i r =>
            name r <> "" /\ category r <> ""
            /\ record_at (split_nl content) i r)
         starts (parse_readme content []).
Proof.
  unfold parse_readme. set (lines := split_nl content).
  assert (H0 : parser_inv lines (List.length (@nil string))
                 (mkParser "" [] false [])).
  { unfold parser_inv; simpl.
    split; [reflexivity|]. split; [discriminate|].
    exists []. repeat split; constructor. }
  apply (fold_step_inv lines lines [] _ eq_refl) in H0.
  apply flush_inv in H0 as (starts & Hs & Hf & _).
  exists starts. split; [exact Hs|].
  unfold parse_lines.
  eapply Forall2_impl; [|exact Hf].
  intros i r Hr. pose proof Hr as (l & rest & _ & Ht & E & Hc & _).
  repeat split; [|exact Hc|exact Hr].
  rewrite E. now apply title_name_nonempty.
Qed.

(** *** No record is dropped *)

Lemma flush_length st :
  List.length (flush st)
  = List.length (datasets st)
    + (if nonempty (current_dataset_lines st)
          && truthy (current_category st) then 1 else 0).
Proof.
  unfold flush.
  destruct (current_dataset_lines st); simpl; [lia|].
  destruct (truthy (current_category st)); simpl; [|lia].
  rewrite length_app; simpl. lia.
Qed.

(** Every title line under a header ends as one record. *)
Lemma fold_step_count lines : forall st,
  (in_dataset st = true -> current_dataset_lines st <> []) ->
  (current_dataset_lines st <> [] -> truthy (current_category st) = true) ->
  List.length (flush (fold_left step lines st))
  = List.length (flush st) + count_titles (current_category st) lines.
Proof.
  induction lines as [|l lines IH]; intros st Hin Hcat; simpl; [lia|].
  remember (step st l) as st1 eqn:E.
  unfold header_title. unfold step in E.
  destruct (category_match l) as [title|] eqn:Ecm; simpl.
  - subst st1. rewrite IH by (simpl; intros; congruence). simpl.
    rewrite (flush_length (mkParser _ _ _ _)); simpl. lia.
  - destruct (String.eqb (strip l) "***") eqn:Es.
    { assert (Ht : is_title l = false).
      { unfold is_title. apply String.eqb_eq in Es. now rewrite Es. }
      rewrite Ht; simpl. subst st1.
      rewrite IH by (simpl; intros; congruence). simpl.
      rewrite (flush_length (mkParser _ _ _ _)); simpl. lia. }
    fold (is_title l) in E.
    destruct (is_title l && truthy (current_category st)) eqn:Et.
    { apply andb_true_iff in Et as [_ Hc]. subst st1.
      rewrite IH by (simpl; intros; congruence). simpl.
      rewrite (flush_length (mkParser _ _ _ _)); simpl.
      rewrite Hc, title_flush by exact Hc. lia. }
    destruct (in_dataset st && truthy (strip l)) eqn:Ei.
    { apply andb_true_iff in Ei as [Hi _]. specialize (Hin Hi). subst st1.
      rewrite IH; simpl.
      - rewrite !flush_length; simpl.
        destruct (current_dataset_lines st); [tauto|]. reflexivity.
      - intros _ E. now apply app_eq_nil in E as [_ E].
      - intros _. apply Hcat. exact Hin. }
    subst st1. rewrite IH by assumption. lia.
Qed.

Lemma parse_readme_count content :
  List.length (parse_readme content []) = count_titles "" (split_nl content).
Proof.
  unfold parse_readme, parse_lines.
  rewrite fold_step_count by (simpl; intros; congruence). reflexivity.
Qed.

End Boundaries.

(** ** Record finalization *)

Section Finalization.
Import PyStr Regex Browser Vocabulary.

Lemma startswith_lower_cons c s a p :
  startswith (lower (String c s)) (String a p) = true ->
  lower_char c = a.
Proof.
  simpl. intros H. apply startswith_cons in H as [-> _]. reflexivity.
Qed.

(** *** Stripping does not matter to the phrase test *)

Lemma lower_char_isspace c : isspace (lower_char c) = isspace c.
Proof. destruct c as [[] [] [] [] [] [] [] []]; reflexivity. Qed.

Lemma lower_lstrip s : lower (lstrip s) = lstrip (lower s).
Proof.
  induction s as [|c s IH]; simpl; [reflexivity|].
  rewrite lower_char_isspace. destruct (isspace c); [exact IH|reflexivity].
Qed.

Lemma lower_rstrip s : lower (rstrip s) = rstrip (lower s).
Proof.
  induction s as [|c s IH]; simpl; [reflexivity|].
  rewrite <- IH, lower_char_isspace.
  destruct (rstrip s); simpl; [destruct (isspace c)|]; reflexivity.
Qed.

Lemma lower_strip s : lower (strip s) = strip (lower s).
Proof. unfold strip. now rewrite lower_rstrip, lower_lstrip. Qed.

Lemma prefix_empty p : p <> "" -> String.prefix p "" = false.
Proof. destruct p; [congruence|reflexivity]. Qed.









(** The label tests exclude one another: the labels differ in their
    first letter. *)
Lemma label_dispatch s :
  (startswith s "access:" = true -> startswith s "paper:" = false)
  /\ (startswith s "data:" = true ->
      startswith s "paper:" = false /\ startswith s "access:" = false)
  /\ (startswith s "information:" = true ->
      startswith s "paper:" = false /\ startswith s "access:" = false
      /\ startswith s "data:" = false)
  /\ (startswith s "overview:" = true ->
      startswith s "paper:" = false /\ startswith s "access:" = false
      /\ startswith s "data:" = false /\ startswith s "information:" = false).
Proof.
  destruct s as [|c s]; [repeat split; discriminate|].
  repeat split; intros;
    match goal with
    | H : startswith _ _ = true |- _ => apply startswith_cons in H as [<- _]
    end; reflexivity.
Qed.

Lemma labelled_nonblank label c p l :
  label = String c p -> has_label label l = true -> truthy (strip l) = true.
Proof.
  intros -> H. unfold has_label in H.
  destruct (strip l); [discriminate|reflexivity].
Qed.

(** The flag check does not take the line away from the dispatch on
    labels: whatever the line says about registration, a labelled line sets
    its field and an unlabelled one goes to the description. *)
Lemma section_step_fields m l :
  (has_label "paper:" l = true ->
   m_paper_url (section_step m l) = _extract_url (strip l))
  /\ (has_label "access:" l = true ->
      m_access_url (section_step m l) = _extract_url (strip l))
  /\ (has_label "data:" l = true ->
      m_data_url (section_step m l) = _extract_url (strip l))
  /\ (has_label "information:" l = true ->
      m_information_url (section_step m l) = _extract_url (strip l))
  /\ (has_label "overview:" l = true ->
      m_overview_url (section_step m l) = _extract_url (strip l))
  /\ (nonblank l = true ->
      forallb (fun lab => negb (has_label lab l))
        ["paper:"; "access:"; "data:"; "information:"; "overview:"] = true ->
      description_lines (section_step m l)
      = description_lines m
        ++ (if truthy (_clean_markdown (strip l))
            then [_clean_markdown (strip l)] else [])).
Proof.
  unfold has_label, nonblank.
  destruct (label_dispatch (lower (strip l))) as (Ha & Hd & Hi & Ho).
  repeat split; intros H.
  - unfold section_step.
    rewrite (labelled_nonblank "paper:" _ _ l eq_refl H); simpl negb; cbv iota.
    now rewrite H.
  - unfold section_step.
    rewrite (labelled_nonblank "access:" _ _ l eq_refl H); simpl negb; cbv iota.
    now rewrite (Ha H), H.
  - unfold section_step.
    rewrite (labelled_nonblank "data:" _ _ l eq_refl H); simpl negb; cbv iota.
    destruct (Hd H) as [-> ->]. now rewrite H.
  - unfold section_step.
    rewrite (labelled_nonblank "information:" _ _ l eq_refl H);
      simpl negb; cbv iota.
    destruct (Hi H) as (-> & -> & ->). now rewrite H.
  - unfold section_step.
    rewrite (labelled_nonblank "overview:" _ _ l eq_refl H);
      simpl negb; cbv iota.
    destruct (Ho H) as (-> & -> & -> & ->). now rewrite H.
  - intros Hl. unfold section_step. rewrite H; simpl negb; cbv iota.
    simpl in Hl. unfold has_label in Hl.
    repeat (apply andb_true_iff in Hl as [?%negb_true_iff Hl]).
    repeat match goal with
           | E : startswith _ _ = false |- _ => rewrite E; clear E
           end.
    simpl. destruct (truthy (_clean_markdown (strip l)));
      [reflexivity|now rewrite app_nil_r].
Qed.



Example title_line_not_examined :
  requires_registration
    (make_dataset "__Requires registration__" ["About."] "Imaging")
  = false.
Proof. reflexivity. Qed.


(** *** The link fields *)

Lemma section_step_information_kept m l :
  no_information_label l = true ->
  m_information_url (section_step m l) = m_information_url m.
Proof.
  unfold no_information_label, has_label, section_step.
  intros H%negb_true_iff.
  destruct (negb (truthy (strip l))); [reflexivity|].
  rewrite H.
  repeat match goal with
         | |- context [if startswith ?a ?b then _ else _] =>
             destruct (startswith a b)
         end; reflexivity.
Qed.

Lemma fold_section_step_information_kept rest : forall m,
  forallb no_information_label rest = true ->
  m_information_url (fold_left section_step rest m) = m_information_url m.
Proof.
  induction rest as [|l rest IH]; intros m H; simpl; [reflexivity|].
  simpl in H. apply andb_true_iff in H as [Hl Hr].
  now rewrite IH, section_step_information_kept.
Qed.

Lemma match_url_truthy s u : match_url s = Some u -> truthy u = true.
Proof.
  unfold match_url.
  destruct (drop_prefix "https://" s) as [r|].
  - destruct (fst (span url_char r)); [discriminate|].
    intros [= <-]. reflexivity.
  - destruct (drop_prefix "http://" s) as [r|]; [|discriminate].
    destruct (fst (span url_char r)); [discriminate|].
    intros [= <-]. reflexivity.
Qed.

Lemma search_url_truthy s u : search_url s = Some u -> truthy u = true.
Proof.
  induction s as [|c s IH]; cbn [search_url].
  - destruct (match_url "") eqn:E; [|discriminate].
    intros [= <-]. eapply match_url_truthy; eassumption.
  - destruct (match_url (String c s)) eqn:E.
    + intros [= <-]. eapply match_url_truthy; eassumption.
    + exact IH.
Qed.

(** The loop of the stand-alone script. *)

Lemma script_step_information m l :
  has_label "information:" l = true ->
  Script.m_information_url (Script.section_step m l)
  = Script._extract_url (strip l).
Proof.
  unfold has_label, Script.section_step. intros H.
  destruct (label_dispatch (lower (strip l))) as (_ & _ & Hi & _).
  destruct (Hi H) as (-> & -> & _). now rewrite H.
Qed.

Lemma script_step_overview m l :
  has_label "overview:" l = true ->
  Script.m_information_url (Script.section_step m l)
  = if Script.unset (Script.m_information_url m)
    then Script._extract_url (strip l)
    else Script.m_information_url m.
Proof.
  unfold has_label, Script.section_step. intros H.
  destruct (label_dispatch (lower (strip l))) as (_ & _ & _ & Ho).
  destruct (Ho H) as (-> & -> & -> & ->). now rewrite H.
Qed.

Lemma script_step_information_kept m l u :
  Script.m_information_url m = Some u -> truthy u = true ->
  no_information_label l = true ->
  Script.m_information_url (Script.section_step m l) = Some u.
Proof.
  unfold no_information_label, has_label, Script.section_step.
  intros Hm Hu H%negb_true_iff. rewrite H.
  repeat match goal with
         | |- context [if startswith ?a ?b then _ else _] =>
             destruct (startswith a b)
         end; simpl; try exact Hm.
  - unfold Script.unset. rewrite Hm, Hu. reflexivity.
  - destruct (_ && _); exact Hm.
Qed.

Lemma fold_script_step_information_kept rest : forall m u,
  Script.m_information_url m = Some u -> truthy u = true ->
  forallb no_information_label rest = true ->
  Script.m_information_url (fold_left Script.section_step rest m) = Some u.
Proof.
  induction rest as [|l rest IH]; intros m u Hm Hu H; simpl; [exact Hm|].
  simpl in H. apply andb_true_iff in H as [Hl Hr].
  apply IH; [|exact Hu|exact Hr].
  now apply script_step_information_kept.
Qed.

Lemma script_record first rest cat r :
  Script.extract_from_lines (first :: rest) cat = Some r ->
  Script.name r = Script.section_name first
  /\ Script.information_url r
     = Script.m_information_url
         (fold_left Script.section_step rest Script.metadata0).
Proof.
  unfold Script.extract_from_lines.
  destruct (_ || _); [discriminate|]. intros [= <-]. split; reflexivity.
Qed.

(** C3, as the code has it.  In the package an overview line sets the
    overview link and never the information link: a buffer with an
    overview line alone leaves the information link unset, a buffer
    without information line does so whatever else it holds, and the last
    information line gives the information link.  The fallback of the
    claim is the behaviour of the stand-alone script: there an information
    link, once set, is not replaced by a later overview line, and an
    overview line alone sets the information link. *)
Theorem overview_precedence :
  (forall first ov cat,
      has_label "overview:" ov = true ->
      information_url (make_dataset first [ov] cat) = None
      /\ overview_url (make_dataset first [ov] cat) = _extract_url (strip ov))
  /\ (forall first rest cat,
         forallb no_information_label rest = true ->
         information_url (make_dataset first rest cat) = None)
  /\ (forall first l1 info l2 cat,
         has_label "information:" info = true ->
         forallb no_information_label l2 = true ->
         information_url (make_dataset first (l1 ++ info :: l2) cat)
         = _extract_url (strip info))
  /\ (forall first l1 info l2 cat r u,
         Script.extract_from_lines (first :: l1 ++ info :: l2) cat = Some r ->
         has_label "information:" info = true ->
         Script._extract_url (strip info) = Some u ->
         forallb no_information_label l2 = true ->
         Script.information_url r = Some u)
  /\ (forall first ov cat r,
         Script.extract_from_lines [first; ov] cat = Some r ->
         has_label "overview:" ov = true ->
         Script.information_url r = Script._extract_url (strip ov)).
Proof.
  repeat apply conj.
  - intros first ov cat H.
    destruct (section_step_fields metadata0 ov) as (_ & _ & _ & _ & Ho & _).
    unfold make_dataset; simpl. split; [|exact (Ho H)].
    apply section_step_information_kept.
    unfold no_information_label.
    destruct (label_dispatch (lower (strip ov))) as (_ & _ & _ & Hd).
    destruct (Hd H) as (_ & _ & _ & Hi). unfold has_label. now rewrite Hi.
  - intros first rest cat H. unfold make_dataset; simpl.
    now rewrite fold_section_step_information_kept.
  - intros first l1 info l2 cat Hi H. unfold make_dataset; simpl.
    rewrite fold_left_app; simpl.
    rewrite fold_section_step_information_kept by exact H.
    destruct (section_step_fields (fold_left section_step l1 metadata0) info)
      as (_ & _ & _ & Hf & _).
    exact (Hf Hi).
  - intros first l1 info l2 cat r u Hr Hi Hu H.
    apply script_record in Hr as [_ ->].
    rewrite fold_left_app; simpl.
    apply fold_script_step_information_kept; [|now apply search_url_truthy in Hu|exact H].
    now rewrite script_step_information.
  - intros first ov cat r Hr Ho.
    apply script_record in Hr as [_ ->]. simpl.
    now rewrite script_step_overview.
Qed.

Lemma overview_precedence_witness :
  (information_url
     (make_dataset "__Alpha Set__" ["Overview: https://x.org/o"] "Imaging")
   = None
   /\ overview_url
        (make_dataset "__Alpha Set__" ["Overview: https://x.org/o"] "Imaging")
      = _extract_url (strip "Overview: https://x.org/o"))
  /\ information_url
       (make_dataset "__Alpha Set__"
          (["About."] ++ "Information: https://x.org/i"
                         :: ["Overview: https://x.org/o"]) "Imaging")
     = _extract_url (strip "Information: https://x.org/i")
  /\ exists r,
       Script.extract_from_lines
         ("__Alpha Set__"
          :: ["About."] ++ "Information: https://x.org/i"
                           :: ["Overview: https://x.org/o"]) "Imaging"
       = Some r
       /\ Script.information_url r = Some "https://x.org/i".
Proof.
  destruct overview_precedence as (H1 & _ & H3 & H4 & _).
  split; [apply H1; reflexivity|].
  split; [apply H3; reflexivity|].
  eexists. split; [reflexivity|].
  apply (H4 "__Alpha Set__" ["About."] "Information: https://x.org/i"
            ["Overview: https://x.org/o"] "Imaging"); reflexivity.
Defined.

(** C3 fails as stated: in the package a buffer whose only line after the
    title is an overview line does not get that link as its information
    link. *)
Lemma overview_alone_sets_no_information :
  ~ (forall first ov cat,
       has_label "overview:" ov = true ->
       information_url (make_dataset first [ov] cat)
       = _extract_url (strip ov)).
Proof.
  intros H.
  specialize (H "__Alpha Set__" "Overview: https://x.org/o" "Imaging" eq_refl).
  vm_compute in H. discriminate.
Qed.

(** *** Short titles *)

(** C4, as the code has it.  The parser of the package has no test on the
    length of the title: it puts out as many records as the document has
    title lines under a section header, and finalizing a non-empty buffer
    appends exactly one record, named by the stripped first line with its
    bold delimiters removed, however short.  The length test is in the
    stand-alone script: a section whose name has fewer than three
    characters gives no record, one whose name has three or more gives a
    record of that name. *)
Theorem short_title_policy first rest cat :
  (forall content,
      List.length (parse_readme content [])
      = count_titles "" (split_nl content))
  /\ (forall ds,
      _parse_dataset_section (first :: rest) cat ds
      = ds ++ [make_dataset first rest cat]
      /\ name (make_dataset first rest cat)
         = sub (match_delim "__") (strip first))
  /\ (String.length (Script.section_name first) < 3 ->
      Script.extract_from_lines (first :: rest) cat = None)
  /\ (3 <= String.length (Script.section_name first) ->
      exists r, Script.extract_from_lines (first :: rest) cat = Some r
                /\ Script.name r = Script.section_name first).
Proof.
  repeat apply conj.
  - apply parse_readme_count.
  - intros ds. split; reflexivity.
  - intros H. unfold Script.extract_from_lines.
    apply Nat.ltb_lt in H. rewrite H. now rewrite orb_true_r.
  - intros H. unfold Script.extract_from_lines.
    destruct (Script.section_name first) as [|c s] eqn:E;
      [simpl in H; lia|].
    apply Nat.ltb_ge in H. rewrite H. simpl.
    eexists; split; reflexivity.
Qed.

Lemma short_title_policy_witness :
  Script.extract_from_lines ["__ab__"; "Data: https://z.org/c"] "Imaging"
  = None
  /\ exists r,
       Script.extract_from_lines ["__abc__"; "Data: https://z.org/c"] "Imaging"
       = Some r
       /\ Script.name r = Script.section_name "__abc__".
Proof.
  split.
  - apply (short_title_policy "__ab__" ["Data: https://z.org/c"] "Imaging").
    vm_compute. lia.
  - apply (short_title_policy "__abc__" ["Data: https://z.org/c"] "Imaging").
    vm_compute. lia.
Defined.

(** C4 fails as stated: the package parser keeps the record of a title of
    two characters. *)
Lemma two_character_title_kept :
  exists r,
    parse_readme short_title_document [] = [r]
    /\ name r = "ab" /\ String.length (name r) = 2.
Proof.
  eexists. split; [vm_compute; reflexivity|]. split; reflexivity.
Qed.

End Finalization.

(** ** The category listing *)

Section Listing.
Import PyStr Regex Browser Vocabulary.

Lemma first_index_app c p q :
  In c p -> first_index c (p ++ q) = first_index c p.
Proof.
  induction p as [|x p IH]; simpl; [tauto|].
  intros [->|H].
  - now rewrite String.eqb_refl.
  - destruct (String.eqb x c); [reflexivity|]. now rewrite IH.
Qed.

Lemma first_index_lt c p : In c p -> first_index c p < List.length p.
Proof.
  induction p as [|x p IH]; simpl; [tauto|].
  intros [->|H].
  - rewrite String.eqb_refl. lia.
  - destruct (String.eqb x c); [lia|]. apply IH in H. lia.
Qed.

Lemma first_index_fresh c p :
  ~ In c p -> first_index c (p ++ [c]) = List.length p.
Proof.
  induction p as [|x p IH]; simpl; intros H.
  - now rewrite String.eqb_refl.
  - destruct (String.eqb_spec x c) as [->|_]; [tauto|].
    rewrite IH; tauto.
Qed.

Lemma count_occ_snoc (p : list string) c k :
  count_occ string_dec (p ++ [c]) k
  = count_occ string_dec p k + (if string_dec c k then 1 else 0).
Proof.
  rewrite count_occ_app; simpl. destruct (string_dec c k); reflexivity.
Qed.

Lemma bump_keys c acc :
  map fst (bump c acc)
  = if existsb (String.eqb c) (map fst acc) then map fst acc
    else map fst acc ++ [c].
Proof.
  induction acc as [|[k n] acc IH]; simpl; [reflexivity|].
  rewrite (String.eqb_sym c k).
  destruct (String.eqb k c); simpl; [reflexivity|].
  rewrite IH. destruct (existsb _ _); reflexivity.
Qed.

Lemma existsb_eqb_in c (l : list string) :
  existsb (String.eqb c) l = true <-> In c l.
Proof.
  rewrite existsb_exists. split.
  - intros (x & H & E). apply String.eqb_eq in E. now subst.
  - intros H. exists c. split; [exact H|apply String.eqb_refl].
Qed.

Lemma bump_counts p c acc :
  NoDup (map fst acc) ->
  (~ In c (map fst acc) -> count_occ string_dec p c = 0) ->
  Forall (fun kn => snd kn = count_occ string_dec p (fst kn)) acc ->
  Forall (fun kn => snd kn = count_occ string_dec (p ++ [c]) (fst kn))
    (bump c acc).
Proof.
  induction acc as [|[k n] acc IH]; simpl; intros Hnd H0 Hf.
  - constructor; [|constructor]. simpl. rewrite count_occ_snoc.
    rewrite H0 by tauto. destruct (string_dec c c); [reflexivity|tauto].
  - inversion Hnd as [|? ? Hnot Hnd']; subst.
    inversion Hf as [|? ? Hn Hf']; subst. simpl in Hn.
    destruct (String.eqb_spec k c) as [->|Hne].
    + constructor.
      * simpl. rewrite count_occ_snoc, Hn.
        destruct (string_dec c c); [reflexivity|tauto].
      * rewrite Forall_forall in Hf' |- *. intros [k' n'] Hin. simpl.
        pose proof (Hf' _ Hin) as Hx. simpl in Hx.
        rewrite count_occ_snoc, <- Hx.
        destruct (string_dec c k') as [<-|_]; [|lia].
        exfalso. apply Hnot. change c with (fst (c, n')). now apply in_map.
    + constructor.
      * simpl. rewrite count_occ_snoc, Hn.
        destruct (string_dec c k); [congruence|lia].
      * apply IH; [exact Hnd'| |exact Hf'].
        intros Hc. apply H0. intros [E|Hin]; [congruence|tauto].
Qed.

Lemma StronglySorted_snoc {A} (R : A -> A -> Prop) l c :
  StronglySorted R l -> Forall (fun a => R a c) l ->
  StronglySorted R (l ++ [c]).
Proof.
  induction l as [|x l IH]; simpl; intros Hs Hf.
  - repeat constructor.
  - inversion Hs; subst. inversion Hf; subst.
    constructor; [now apply IH|].
    apply Forall_app. split; [assumption|]. now repeat constructor.
Qed.

Lemma StronglySorted_weaken {A} (R R' : A -> A -> Prop) l :
  (forall a b, In a l -> In b l -> R a b -> R' a b) ->
  StronglySorted R l -> StronglySorted R' l.
Proof.
  induction l as [|x l IH]; intros H Hs; [constructor|].
  inversion Hs as [|? ? Hs' Hf]; subst. constructor.
  - apply IH; [|exact Hs']. intros a b Ha Hb. apply H; now right.
  - rewrite Forall_forall in Hf |- *. intros b Hb.
    apply H; [now left|now right|now apply Hf].
Qed.

Lemma StronglySorted_map {A B} (f : A -> B) (R : B -> B -> Prop) l :
  StronglySorted R (map f l) ->
  StronglySorted (fun a b => R (f a) (f b)) l.
Proof.
  induction l as [|x l IH]; simpl; intros H; [constructor|].
  inversion H as [|? ? Hs Hf]; subst. constructor; [now apply IH|].
  rewrite Forall_forall in Hf |- *. intros b Hb. apply Hf. now apply in_map.
Qed.

Lemma counted_bump p acc c :
  counted p acc -> counted (p ++ [c]) (bump c acc).
Proof.
  intros (Hnd & Hk & Hc & Hs).
  assert (Hfresh : ~ In c (map fst acc) -> count_occ string_dec p c = 0).
  { intros H. apply count_occ_not_In. now rewrite <- Hk. }
  unfold counted. rewrite bump_keys.
  destruct (existsb (String.eqb c) (map fst acc)) eqn:E.
  - apply existsb_eqb_in in E.
    repeat apply conj.
    + exact Hnd.
    + intros k. rewrite Hk, in_app_iff. simpl. split; [tauto|].
      intros [H|[<-|[]]]; [exact H|now apply Hk].
    + now apply bump_counts.
    + eapply StronglySorted_weaken; [|exact Hs].
      intros a b Ha Hb. apply Hk in Ha, Hb.
      now rewrite !first_index_app.
  - assert (Hc' : ~ In c (map fst acc)).
    { intros H. apply existsb_eqb_in in H. congruence. }
    repeat apply conj.
    + apply NoDup_app; [exact Hnd|repeat constructor; simpl; tauto|].
      intros a Ha [<-|[]]. tauto.
    + intros k. rewrite !in_app_iff, Hk. tauto.
    + now apply bump_counts.
    + apply StronglySorted_snoc.
      * eapply StronglySorted_weaken; [|exact Hs].
        intros a b Ha Hb. apply Hk in Ha, Hb.
        now rewrite !first_index_app.
      * rewrite Forall_forall. intros a Ha. apply Hk in Ha.
        rewrite first_index_app by exact Ha.
        rewrite first_index_fresh by (now rewrite <- Hk).
        now apply first_index_lt.
Qed.

Lemma counted_tally rest : forall p acc,
  counted p acc -> counted (p ++ rest) (tally rest acc).
Proof.
  induction rest as [|c rest IH]; intros p acc H; simpl.
  - now rewrite app_nil_r.
  - change (p ++ c :: rest) with (p ++ [c] ++ rest). rewrite app_assoc.
    apply IH. now apply counted_bump.
Qed.

Lemma count_categories_tally ds :
  count_categories ds = tally (map category ds) [].
Proof.
  unfold count_categories, tally. generalize (@nil (string * nat)).
  induction ds as [|d ds IH]; intros acc; simpl; [reflexivity|apply IH].
Qed.

Lemma insert_desc_perm x l : Permutation (insert_desc x l) (x :: l).
Proof.
  induction l as [|y ys IH]; simpl; [reflexivity|].
  destruct (snd y <=? snd x); [reflexivity|].
  rewrite IH. apply perm_swap.
Qed.

Lemma sorted_desc_perm l : Permutation (sorted_desc l) l.
Proof.
  induction l as [|x l IH]; simpl; [reflexivity|].
  rewrite insert_desc_perm. now constructor.
Qed.

Lemma ranked_before_count cats a b : ranked_before cats a b -> snd b <= snd a.
Proof. unfold ranked_before. lia. Qed.

Lemma insert_desc_sorted cats x l :
  StronglySorted (ranked_before cats) l ->
  Forall (seen_before cats x) l ->
  StronglySorted (ranked_before cats) (insert_desc x l).
Proof.
  induction l as [|y ys IH]; simpl; intros Hs Hf.
  - repeat constructor.
  - inversion Hs as [|? ? Hs' Hy]; subst.
    inversion Hf as [|? ? Hxy Hf']; subst.
    destruct (Nat.leb_spec (snd y) (snd x)) as [Hle|Hlt].
    + constructor; [exact Hs|].
      rewrite Forall_forall in Hy, Hf' |- *.
      intros z [<-|Hz].
      * unfold ranked_before, seen_before in *. lia.
      * pose proof (ranked_before_count _ _ _ (Hy z Hz)).
        pose proof (Hf' z Hz).
        unfold ranked_before, seen_before in *. lia.
    + constructor; [now apply IH|].
      rewrite Forall_forall in Hy |- *. intros z Hz.
      apply (Permutation_in _ (insert_desc_perm x ys)) in Hz.
      destruct Hz as [<-|Hz]; [|now apply Hy].
      unfold ranked_before. lia.
Qed.

Lemma sorted_desc_sorted cats l :
  StronglySorted (seen_before cats) l ->
  StronglySorted (ranked_before cats) (sorted_desc l).
Proof.
  induction l as [|x l IH]; simpl; intros Hs; [constructor|].
  inversion Hs as [|? ? Hs' Hx]; subst.
  apply insert_desc_sorted; [now apply IH|].
  rewrite Forall_forall in Hx |- *. intros z Hz. apply Hx.
  now apply (Permutation_in _ (sorted_desc_perm l)).
Qed.

(** The category listing has one pair per category of the records, each
    with the number of records of that category, ordered by descending
    count and, among equal counts, by first appearance of the category in
    the record list. *)
Lemma list_categories_sorted ds :
  NoDup (map fst (list_categories ds))
  /\ (forall c n,
        In (c, n) (list_categories ds)
        <-> In c (map category ds)
            /\ n = count_occ string_dec (map category ds) c)
  /\ StronglySorted (ranked_before (map category ds)) (list_categories ds).
Proof.
  unfold list_categories. rewrite count_categories_tally.
  set (cats := map category ds).
  destruct (counted_tally cats [] [])
    as (Hnd & Hk & Hc & Hs).
  { repeat split; simpl; try constructor; tauto. }
  simpl in Hnd, Hk, Hc, Hs.
  pose proof (sorted_desc_perm (tally cats [])) as Hp.
  repeat apply conj.
  - eapply Permutation_NoDup; [|exact Hnd].
    apply Permutation_map. now symmetry.
  - intros c n. rewrite Forall_forall in Hc. split.
    + intros H. apply (Permutation_in _ Hp) in H.
      split; [|exact (Hc _ H)].
      apply Hk. change c with (fst (c, n)). now apply in_map.
    + intros [H ->]. apply Hk in H.
      apply in_map_iff in H as ([k n] & E & H). simpl in E; subst k.
      pose proof (Hc _ H) as Hn. simpl in Hn. rewrite <- Hn.
      now apply (Permutation_in _ (Permutation_sym Hp)).
  - apply sorted_desc_sorted.
    exact (StronglySorted_map fst
             (fun a b => first_index a cats < first_index b cats) _ Hs).
Qed.

End Listing.

(** ** Summary statistics *)

Section Statistics.
Import PyStr Browser Vocabulary Utils.

Lemma desc_lengths_cons d ds :
  desc_lengths (d :: ds)
  = (if truthy (description d) then [String.length (description d)] else [])
    ++ desc_lengths ds.
Proof.
  unfold desc_lengths; simpl. destruct (truthy (description d)); reflexivity.
Qed.

(** What the loop leaves in the description statistics and in the list
    of lengths. *)
Lemma fold_stats_step ds : forall st lens,
  snd (fold_left stats_step ds (st, lens)) = lens ++ desc_lengths ds
  /\ with_description
       (description_stats (fst (fold_left stats_step ds (st, lens))))
     = with_description (description_stats st) + List.length (desc_lengths ds)
  /\ average_description_length
       (description_stats (fst (fold_left stats_step ds (st, lens))))
     = average_description_length (description_stats st)
  /\ max_description_length
       (description_stats (fst (fold_left stats_step ds (st, lens))))
     = fold_left num_max (desc_lengths ds)
         (max_description_length (description_stats st))
  /\ min_description_length
       (description_stats (fst (fold_left stats_step ds (st, lens))))
     = fold_left num_min (desc_lengths ds)
         (min_description_length (description_stats st)).
Proof.
  induction ds as [|d ds IH]; intros st lens; cbn [fold_left].
  - simpl. rewrite app_nil_r. repeat split; lia.
  - destruct (stats_step (st, lens) d) as [st1 lens1] eqn:E.
    destruct (IH st1 lens1) as (H1 & H2 & H3 & H4 & H5).
    rewrite H1, H2, H3, H4, H5, desc_lengths_cons.
    unfold stats_step in E.
    destruct (truthy (description d)); injection E as <- <-; simpl.
    + rewrite <- app_assoc. repeat split; lia.
    + repeat split.
Qed.

Lemma fold_num_min_int l : forall a,
  exists m, fold_left num_min l (Int a) = Int m
            /\ m <= a /\ (forall x, In x l -> m <= x)
            /\ (m = a \/ In m l).
Proof.
  induction l as [|x l IH]; intros a; simpl.
  - exists a. repeat split; [lia|tauto|now left].
  - destruct (IH (Nat.min a x)) as (m & E & Hle & Hall & Hin).
    exists m. repeat split; [exact E|lia| |].
    + intros y [<-|Hy]; [lia|now apply Hall].
    + destruct Hin as [->|Hin]; [|now right; right].
      destruct (Nat.min_spec a x) as [[_ ->]|[_ ->]]; [now left|now right; left].
Qed.

Lemma fold_num_max_int l : forall a,
  exists m, fold_left num_max l (Int a) = Int m
            /\ a <= m /\ (forall x, In x l -> x <= m)
            /\ (m = a \/ In m l).
Proof.
  induction l as [|x l IH]; intros a; simpl.
  - exists a. repeat split; [lia|tauto|now left].
  - destruct (IH (Nat.max a x)) as (m & E & Hle & Hall & Hin).
    exists m. repeat split; [exact E|lia| |].
    + intros y [<-|Hy]; [lia|now apply Hall].
    + destruct Hin as [->|Hin]; [|now right; right].
      destruct (Nat.max_spec a x) as [[_ ->]|[_ ->]]; [now right; left|now left].
Qed.

Lemma desc_lengths_positive ds x : In x (desc_lengths ds) -> 0 < x.
Proof.
  unfold desc_lengths. rewrite in_map_iff.
  intros (d & <- & H). apply filter_In in H as [_ H].
  destruct (description d); [discriminate|simpl; lia].
Qed.

Lemma desc_lengths_nil ds :
  desc_lengths ds = [] <-> (forall d, In d ds -> description d = "").
Proof.
  induction ds as [|d ds IH]; [simpl; tauto|].
  rewrite desc_lengths_cons. split.
  - intros H d' [<-|Hd'].
    + destruct (description d); [reflexivity|discriminate].
    + destruct (truthy (description d)); [discriminate|]. now apply IH.
  - intros H. rewrite (H d) by now left. simpl. apply IH.
    intros d' Hd'. apply H. now right.
Qed.

(** C9: for a non-empty list of records a statistics result is returned.
    When no record has a description, the count of records with one, the
    average and the minimum length are all 0; when some record has one,
    the minimum and maximum are the least and the greatest length over the
    non-empty descriptions. *)
Theorem description_statistics_bounds ds :
  ds <> [] ->
  exists st,
    create_summary_statistics (ArgList ds) = inr st
    /\ with_description (description_stats st)
       = List.length (desc_lengths ds)
    /\ ((forall d, In d ds -> description d = "") ->
        min_description_length (description_stats st) = Int 0
        /\ with_description (description_stats st) = 0
        /\ average_description_length (description_stats st) = Int 0)
    /\ ((exists d, In d ds /\ description d <> "") ->
        exists lo hi,
          min_description_length (description_stats st) = Int lo
          /\ max_description_length (description_stats st) = Int hi
          /\ In lo (desc_lengths ds) /\ In hi (desc_lengths ds)
          /\ forall x, In x (desc_lengths ds) -> lo <= x <= hi).
Proof.
  intros Hne. unfold create_summary_statistics.
  destruct ds as [|d0 ds0] eqn:Eds; [congruence|]. rewrite <- Eds.
  clear Hne.
  destruct (fold_stats_step ds (stats0 (List.length ds)) [])
    as (H1 & H2 & H3 & H4 & H5).
  destruct (fold_left stats_step ds (stats0 (List.length ds), []))
    as [st lens].
  simpl in H1, H2, H3, H4, H5. subst lens.
  destruct (desc_lengths ds) as [|x l] eqn:El.
  - eexists. split; [reflexivity|]. simpl.
    rewrite H2, H3. repeat split.
    intros (d & Hd & Hdesc). exfalso. apply Hdesc.
    now apply (proj1 (desc_lengths_nil ds) El).
  - eexists. split; [reflexivity|]. simpl.
    split; [exact H2|]. split.
    + intros Hall. apply desc_lengths_nil in Hall. congruence.
    + intros _. rewrite H4, H5. simpl.
      destruct (fold_num_min_int l x) as (lo & Elo & Hlo & Hall & Hin).
      destruct (fold_num_max_int l x) as (hi & Ehi & Hhi & Hall' & Hin').
      exists lo, hi. rewrite Elo, Ehi. repeat split.
      * destruct Hin as [->|Hin]; [now left|now right].
      * destruct Hin' as [->|Hin']; [now left|now right].
      * destruct H as [<-|H]; [lia|now apply Hall].
      * destruct H as [<-|H]; [lia|now apply Hall'].
Qed.

Lemma description_statistics_bounds_witness :
  (exists st,
     create_summary_statistics
       (ArgList (parse_readme short_title_document [])) = inr st
     /\ min_description_length (description_stats st) = Int 0
     /\ with_description (description_stats st) = 0
     /\ average_description_length (description_stats st) = Int 0)
  /\ (exists st,
        create_summary_statistics
          (ArgList (parse_readme scenario_document [])) = inr st
        /\ min_description_length (description_stats st) = Int 43
        /\ max_description_length (description_stats st) = Int 43).
Proof.
  split.
  - destruct (description_statistics_bounds
                (parse_readme short_title_document []))
      as (st & E & _ & H0 & _); [vm_compute; discriminate|].
    exists st. split; [exact E|]. apply H0.
    intros d Hd. vm_compute in Hd. destruct Hd as [<-|[]]. reflexivity.
  - destruct (description_statistics_bounds
                (parse_readme scenario_document []))
      as (st & E & _ & _ & H1); [vm_compute; discriminate|].
    exists st. split; [exact E|].
    destruct H1 as (lo & hi & -> & -> & Hlo & Hhi & _).
    + eexists. split; [left; reflexivity|vm_compute; discriminate].
    + vm_compute in Hlo, Hhi.
      destruct Hlo as [<-|[]]; destruct Hhi as [<-|[]]. split; reflexivity.
Defined.

(** C10: the statistics function fails on degenerate input: an empty list
    raises ValueError, an argument that is not a list raises TypeError,
    and a result is returned only for a non-empty list. *)
Theorem statistics_degenerate_input :
  create_summary_statistics (ArgList []) = inl ValueError
  /\ (forall a, (forall ds, a <> ArgList ds) ->
                create_summary_statistics a = inl TypeError)
  /\ (forall a st, create_summary_statistics a = inr st ->
                   exists ds, a = ArgList ds /\ ds <> []).
Proof.
  split; [reflexivity|]. split.
  - intros a H. destruct a; try reflexivity. now destruct (H ds).
  - intros a st H. destruct a as [ds| | |]; try discriminate.
    exists ds. split; [reflexivity|]. intros ->. discriminate.
Qed.

Lemma statistics_degenerate_input_witness :
  create_summary_statistics ArgNone = inl TypeError
  /\ create_summary_statistics (ArgTuple []) = inl TypeError.
Proof.
  destruct statistics_degenerate_input as (_ & H & _).
  split; apply H; discriminate.
Defined.

End Statistics.

(** * Further properties of the code *)

(** ** Strings *)

Section StringFacts.
Import PyStr.

Lemma string_app_assoc (a b c : string) :
  ((a ++ b) ++ c = a ++ (b ++ c))%string.
Proof. induction a as [|x a IH]; simpl; [reflexivity|now rewrite IH]. Qed.

Lemma string_app_nil_r (a : string) : (a ++ "")%string = a.
Proof. induction a as [|x a IH]; simpl; [reflexivity|now rewrite IH]. Qed.

Lemma string_length_app (a b : string) :
  String.length (a ++ b) = String.length a + String.length b.
Proof. induction a as [|x a IH]; simpl; [reflexivity|now rewrite IH]. Qed.

Lemma lower_app (a b : string) :
  lower (a ++ b) = (lower a ++ lower b)%string.
Proof. induction a as [|x a IH]; simpl; [reflexivity|now rewrite IH]. Qed.

Lemma prefix_nil (s : string) : String.prefix "" s = true.
Proof. destruct s; reflexivity. Qed.

Lemma prefix_app (p t : string) : String.prefix p (p ++ t) = true.
Proof.
  induction p as [|a p IH]; simpl; [apply prefix_nil|].
  destruct (ascii_dec a a); [exact IH|congruence].
Qed.

Lemma prefix_app_r (p s t : string) :
  String.prefix p s = true -> String.prefix p (s ++ t) = true.
Proof.
  revert s; induction p as [|a p IH]; intros s H; [apply prefix_nil|].
  destruct s as [|b s]; [discriminate|]. simpl in *.
  destruct (ascii_dec a b); [now apply IH|discriminate].
Qed.

Lemma contains_prefix (p s : string) :
  String.prefix p s = true -> contains p s = true.
Proof.
  destruct s as [|c s]; simpl; [auto|]. intros ->. reflexivity.
Qed.

Lemma contains_app_l (p a s : string) :
  contains p s = true -> contains p (a ++ s) = true.
Proof.
  intros H. induction a as [|x a IH]; simpl; [exact H|].
  rewrite IH. apply orb_true_r.
Qed.

Lemma contains_app_r (p s t : string) :
  contains p s = true -> contains p (s ++ t) = true.
Proof.
  induction s as [|c s IH]; intros H.
  - apply contains_prefix. destruct p; [apply prefix_nil|discriminate].
  - cbn [contains] in H. apply orb_true_iff in H as [H|H].
    + apply contains_prefix. now apply prefix_app_r.
    + change (String c s ++ t)%string with (String c (s ++ t)).
      cbn [contains]. rewrite (IH H). apply orb_true_r.
Qed.

Lemma contains_refl (s : string) : contains s s = true.
Proof.
  apply contains_prefix. rewrite <- (string_app_nil_r s) at 2.
  apply prefix_app.
Qed.

Lemma lower_char_idem c : lower_char (lower_char c) = lower_char c.
Proof. destruct c as [[] [] [] [] [] [] [] []]; reflexivity. Qed.

Lemma lower_idem (s : string) : lower (lower s) = lower s.
Proof.
  induction s as [|c s IH]; simpl; [reflexivity|].
  now rewrite lower_char_idem, IH.
Qed.

End StringFacts.

(** ** Links *)

Section Links.
Import PyStr Regex Browser Vocabulary Shapes.

Lemma drop_prefix_app p s r : drop_prefix p s = Some r -> s = (p ++ r)%string.
Proof.
  revert s; induction p as [|a p IH]; intros s; simpl.
  - now intros [= ->].
  - destruct s as [|b s]; [discriminate|].
    destruct (Ascii.eqb_spec a b) as [->|_]; [|discriminate].
    intros H. now rewrite (IH _ H).
Qed.

Lemma drop_prefix_refl p r : drop_prefix p (p ++ r) = Some r.
Proof.
  induction p as [|a p IH]; simpl; [reflexivity|].
  now rewrite Ascii.eqb_refl.
Qed.

Lemma span_spec p s :
  s = (fst (span p s) ++ snd (span p s))%string
  /\ all_chars p (fst (span p s)) = true
  /\ match snd (span p s) with
     | EmptyString => True
     | String c _ => p c = false
     end.
Proof.
  induction s as [|c s (IH1 & IH2 & IH3)]; simpl; [auto|].
  destruct (p c) eqn:E.
  - destruct (span p s) as [a b]; simpl in *.
    rewrite E, IH2. repeat split; [now f_equal|exact IH3].
  - simpl. auto.
Qed.

Lemma url_shaped_scheme sch r :
  sch = "https://" \/ sch = "http://" ->
  truthy r = true -> all_chars url_char r = true ->
  url_shaped (sch ++ r) = true.
Proof.
  intros [->| ->] Hr Ha; unfold url_shaped.
  - rewrite (drop_prefix_refl "https://" r). now rewrite Hr, Ha.
  - replace (drop_prefix "https://" ("http://" ++ r)) with (@None string)
      by (destruct r; reflexivity).
    rewrite (drop_prefix_refl "http://" r). now rewrite Hr, Ha.
Qed.

Lemma match_url_spec s u :
  match_url s = Some u ->
  url_shaped u = true
  /\ exists post, s = (u ++ post)%string /\ stops_link post = true.
Proof.
  unfold match_url.
  assert (G : forall sch r,
             sch = "https://" \/ sch = "http://" ->
             s = (sch ++ r)%string ->
             match fst (span url_char r) with
             | EmptyString => None
             | String a s0 => Some (sch ++ String a s0)%string
             end = Some u ->
             url_shaped u = true
             /\ exists post, s = (u ++ post)%string /\ stops_link post = true).
  { intros sch r Hs -> H.
    destruct (span_spec url_char r) as (E & Ha & Hb).
    destruct (fst (span url_char r)) as [|a w] eqn:Ef; [discriminate|].
    injection H as <-. split.
    - now apply url_shaped_scheme.
    - exists (snd (span url_char r)). split.
      + rewrite E at 1. now rewrite string_app_assoc.
      + unfold stops_link. destruct (snd (span url_char r)); [reflexivity|].
        now rewrite Hb. }
  destruct (drop_prefix "https://" s) as [r|] eqn:E1.
  - apply G; [now left|now apply drop_prefix_app].
  - destruct (drop_prefix "http://" s) as [r|] eqn:E2; [|discriminate].
    apply G; [now right|now apply drop_prefix_app].
Qed.

Lemma search_url_spec s u :
  search_url s = Some u ->
  url_shaped u = true
  /\ exists pre post,
       s = (pre ++ u ++ post)%string /\ stops_link post = true.
Proof.
  induction s as [|c s IH]; cbn [search_url].
  - destruct (match_url "") eqn:E; [|discriminate]. intros [= <-].
    destruct (match_url_spec _ _ E) as (Hu & post & Hs & Hp).
    split; [exact Hu|]. now exists "", post.
  - destruct (match_url (String c s)) eqn:E.
    + intros [= <-].
      destruct (match_url_spec _ _ E) as (Hu & post & Hs & Hp).
      split; [exact Hu|]. now exists "", post.
    + intros H. destruct (IH H) as (Hu & pre & post & Hs & Hp).
      split; [exact Hu|]. exists (String c pre), post.
      split; [simpl; now rewrite Hs|exact Hp].
Qed.

Lemma match_url_http s u : match_url s = Some u -> String.prefix "http" s = true.
Proof.
  unfold match_url.
  destruct (drop_prefix "https://" s) as [r|] eqn:E1.
  - intros _. apply drop_prefix_app in E1. subst s. reflexivity.
  - destruct (drop_prefix "http://" s) as [r|] eqn:E2; [|discriminate].
    intros _. apply drop_prefix_app in E2. subst s. reflexivity.
Qed.

Lemma search_url_none s : contains "http" s = false -> search_url s = None.
Proof.
  induction s as [|c s IH]; cbn [search_url contains]; intros H.
  - reflexivity.
  - apply orb_false_iff in H as [Hp Hc].
    destruct (match_url (String c s)) eqn:E; [|now apply IH].
    apply match_url_http in E. congruence.
Qed.

(** X1: a link extracted from a text starts with the scheme http or https
    followed by at least one character, holds no space and no closing
    parenthesis, stands in the text as it is, and runs up to the end of
    the text or to the first space or closing parenthesis. *)
Theorem extracted_link_shape text u :
  _extract_url text = Some u ->
  url_shaped u = true
  /\ exists pre post,
       text = (pre ++ u ++ post)%string /\ stops_link post = true.
Proof. apply search_url_spec. Qed.

Lemma extracted_link_shape_witness :
  url_shaped "https://a.org/x?y=1" = true
  /\ exists pre post,
       "Data: see (https://a.org/x?y=1) or http://b.org"
       = (pre ++ "https://a.org/x?y=1" ++ post)%string
       /\ stops_link post = true.
Proof.
  apply (extracted_link_shape
           "Data: see (https://a.org/x?y=1) or http://b.org").
  reflexivity.
Defined.

(** X2: a text in which the letters http do not occur gives no link. *)
Theorem no_scheme_no_link text :
  contains "http" text = false -> _extract_url text = None.
Proof. apply search_url_none. Qed.

Lemma no_scheme_no_link_witness :
  _extract_url "Paper: to appear (see ftp://a.org)" = None.
Proof. apply no_scheme_no_link. reflexivity. Defined.

Lemma extract_url_field_ok text : url_field_ok (_extract_url text) = true.
Proof.
  unfold url_field_ok. destruct (_extract_url text) eqn:E; [|reflexivity].
  now apply search_url_spec in E.
Qed.

Lemma section_step_links m l :
  meta_links_ok m -> meta_links_ok (section_step m l).
Proof.
  intros (H1 & H2 & H3 & H4 & H5). unfold section_step.
  destruct (negb (truthy (strip l))); [repeat split; assumption|].
  repeat match goal with
         | |- context [if startswith ?a ?b then _ else _] =>
             destruct (startswith a b)
         end; repeat split; simpl;
    try assumption; apply extract_url_field_ok.
Qed.

Lemma fold_section_step_links rest : forall m,
  meta_links_ok m -> meta_links_ok (fold_left section_step rest m).
Proof.
  induction rest as [|l rest IH]; intros m H; simpl; [exact H|].
  apply IH. now apply section_step_links.
Qed.

Lemma make_dataset_links first rest c : links_ok (make_dataset first rest c).
Proof.
  destruct (fold_section_step_links rest metadata0) as (H1 & H2 & H3 & H4 & H5).
  { repeat split. }
  unfold links_ok, make_dataset; simpl. auto.
Qed.

(** A property of every record built by [make_dataset] holds of every
    record the parser adds. *)
Lemma parse_section_forall (P : MedicalDataset -> Prop) lines c ds :
  (forall first rest cat, P (make_dataset first rest cat)) ->
  Forall P ds -> Forall P (_parse_dataset_section lines c ds).
Proof.
  intros HP H. destruct lines; simpl; [exact H|].
  apply Forall_app. split; [exact H|]. constructor; [apply HP|constructor].
Qed.

Lemma flush_forall (P : MedicalDataset -> Prop) st :
  (forall first rest cat, P (make_dataset first rest cat)) ->
  Forall P (datasets st) -> Forall P (flush st).
Proof.
  intros HP H. unfold flush.
  destruct (_ && _); [now apply parse_section_forall|exact H].
Qed.

Lemma step_forall (P : MedicalDataset -> Prop) st l :
  (forall first rest cat, P (make_dataset first rest cat)) ->
  Forall P (datasets st) -> Forall P (datasets (step st l)).
Proof.
  intros HP H. unfold step.
  destruct (category_match l); simpl; [now apply flush_forall|].
  destruct (String.eqb (strip l) "***"); simpl; [now apply flush_forall|].
  destruct (_ && _); simpl.
  - destruct (nonempty _); [now apply parse_section_forall|exact H].
  - destruct (_ && _); exact H.
Qed.

Lemma parse_lines_forall (P : MedicalDataset -> Prop) lines ds :
  (forall first rest cat, P (make_dataset first rest cat)) ->
  Forall P ds -> Forall P (parse_lines lines ds).
Proof.
  intros HP H. unfold parse_lines. apply flush_forall; [exact HP|].
  assert (G : forall st, Forall P (datasets st) ->
                         Forall P (datasets (fold_left step lines st))).
  { induction lines as [|l lines IH]; intros st Hst; simpl; [exact Hst|].
    apply IH. now apply step_forall. }
  now apply G.
Qed.

(** X3: in every record the parser puts out, each of the five link fields
    is unset or holds a link of the extracted shape. *)
Theorem parsed_links_shaped content :
  Forall links_ok (parse_readme content []).
Proof.
  unfold parse_readme. apply parse_lines_forall; [|constructor].
  apply make_dataset_links.
Qed.

End Links.

(** ** Lines of a record *)

Section RecordLines.
Import PyStr Regex Browser Vocabulary Shapes.

Lemma step_blank st l : nonblank l = false -> step st l = st.
Proof.
  unfold nonblank. intros H.
  assert (E : strip l = "") by (destruct (strip l); [reflexivity|discriminate]).
  unfold step, category_match. rewrite E. simpl.
  now rewrite andb_false_r.
Qed.

(** X4: blank lines change nothing: the parser gives the same records on
    a document and on the document with its blank lines removed. *)
Theorem blank_lines_ignored lines ds :
  parse_lines (filter nonblank lines) ds = parse_lines lines ds.
Proof.
  unfold parse_lines. f_equal.
  generalize (mkParser "" [] false ds).
  induction lines as [|l lines IH]; intros st; simpl; [reflexivity|].
  destruct (nonblank l) eqn:E; simpl; [apply IH|].
  rewrite step_blank by exact E. apply IH.
Qed.

Lemma split_nl_no_newline s :
  Forall (fun l => no_newline l = true) (split_nl s).
Proof.
  induction s as [|c s IH]; simpl.
  - repeat constructor.
  - destruct (is_newline c) eqn:E.
    + constructor; [reflexivity|exact IH].
    + destruct (split_nl s) as [|h t]; inversion IH; subst.
      * repeat constructor. unfold no_newline, has_newline; simpl.
        now rewrite E.
      * constructor; [|assumption].
        unfold no_newline, has_newline in *; simpl. now rewrite E.
Qed.

Lemma split_nl_line x :
  no_newline x = true -> split_nl x = [x].
Proof.
  unfold no_newline, has_newline.
  induction x as [|c x IH]; simpl; intros H; [reflexivity|].
  destruct (is_newline c); [discriminate|]. simpl in H.
  now rewrite IH.
Qed.

Lemma split_nl_app x t :
  no_newline x = true ->
  split_nl (x ++ String newline t) = x :: split_nl t.
Proof.
  unfold no_newline, has_newline.
  induction x as [|c x IH]; simpl; intros H; [reflexivity|].
  destruct (is_newline c); [discriminate|]. simpl in H.
  now rewrite IH.
Qed.

(** Joining lines with newlines and splitting again gives the lines. *)
Lemma split_join first rest :
  Forall (fun l => no_newline l = true) (first :: rest) ->
  split_nl (join (String newline EmptyString) (first :: rest)) = first :: rest.
Proof.
  revert first; induction rest as [|y rest IH]; intros first H.
  - inversion H; subst. now apply split_nl_line.
  - inversion H as [|? ? Hx Hr]; subst.
    change (join (String newline "") (first :: y :: rest))
      with (first ++ String newline (join (String newline "") (y :: rest)))%string.
    rewrite split_nl_app by exact Hx. now rewrite IH.
Qed.

Lemma title_nonblank l : is_title l = true -> nonblank l = true.
Proof.
  unfold is_title, nonblank. destruct (strip l); [discriminate|reflexivity].
Qed.

Lemma flush_from doc st :
  buffer_inv doc st -> Forall (record_from doc) (flush st).
Proof.
  intros (Hd & _ & Hb). unfold flush.
  destruct (current_dataset_lines st) as [|first rest]; simpl; [exact Hd|].
  destruct (truthy (current_category st)); [|exact Hd].
  apply Forall_app. split; [exact Hd|].
  constructor; [|constructor]. exists first, rest.
  destruct Hb as [Ht Hl]. repeat split; assumption.
Qed.

Lemma step_from doc st l :
  In l doc -> buffer_inv doc st -> buffer_inv doc (step st l).
Proof.
  intros Hl Hinv. pose proof (flush_from doc st Hinv) as Hf.
  destruct Hinv as (Hd & Hin & Hb). unfold step.
  destruct (category_match l); [repeat split; simpl; auto; discriminate|].
  destruct (String.eqb (strip l) "***");
    [repeat split; simpl; auto; discriminate|].
  fold (is_title l).
  destruct (is_title l && truthy (current_category st)) eqn:Et.
  { apply andb_true_iff in Et as [Ht Hc].
    rewrite title_flush by exact Hc.
    repeat split; simpl; auto; try discriminate.
    constructor; [|constructor]. split; [now apply title_nonblank|exact Hl]. }
  fold (nonblank l).
  destruct (in_dataset st && nonblank l) eqn:Ei; [|repeat split; assumption].
  apply andb_true_iff in Ei as [Hi Hn]. specialize (Hin Hi).
  repeat split; simpl; auto.
  - intros _ E. now apply app_eq_nil in E as [_ E].
  - destruct (current_dataset_lines st) as [|first rest]; [tauto|].
    destruct Hb as [Ht Hb]. simpl. split; [exact Ht|].
    change (first :: rest ++ [l]) with ((first :: rest) ++ [l]).
    apply Forall_app. split; [exact Hb|].
    constructor; [|constructor]. split; assumption.
Qed.

Lemma fold_step_from doc lines : forall st,
  incl lines doc -> buffer_inv doc st ->
  buffer_inv doc (fold_left step lines st).
Proof.
  induction lines as [|l lines IH]; intros st Hi H; simpl; [exact H|].
  apply IH.
  - intros x Hx. apply Hi. now right.
  - apply step_from; [apply Hi; now left|exact H].
Qed.

Lemma parse_readme_from content :
  Forall (record_from (split_nl content)) (parse_readme content []).
Proof.
  unfold parse_readme, parse_lines. apply flush_from.
  apply fold_step_from; [apply incl_refl|].
  repeat split; simpl; [constructor|discriminate].
Qed.

(** X5: the raw text of a parsed record splits back into the lines the
    record was built from: a title line first, then non-blank lines, all
    of them lines of the document; finalizing these lines again under the
    record's category gives the record back. *)
Theorem raw_text_round_trip content r :
  In r (parse_readme content []) ->
  exists first rest,
    split_nl (raw_text r) = first :: rest
    /\ is_title first = true
    /\ Forall (line_ok (split_nl content)) (first :: rest)
    /\ _parse_dataset_section (split_nl (raw_text r)) (category r) [] = [r].
Proof.
  intros Hr.
  pose proof (parse_readme_from content) as H.
  rewrite Forall_forall in H.
  destruct (H r Hr) as (first & rest & E & Ht & Hl).
  assert (Hs : split_nl (raw_text r) = first :: rest).
  { rewrite E. unfold make_dataset; simpl. apply split_join.
    pose proof (split_nl_no_newline content) as Hn.
    rewrite Forall_forall in Hn, Hl |- *.
    intros x Hx. apply Hn. now apply Hl. }
  exists first, rest. repeat split; try assumption.
  rewrite Hs. simpl. now rewrite <- E.
Qed.

Lemma raw_text_round_trip_witness :
  exists first rest,
    split_nl
      (raw_text
         (make_dataset "__Beta Set__" ["Access: https://y.org/b"] "Imaging"))
    = first :: rest
    /\ is_title first = true
    /\ Forall (line_ok (split_nl scenario_document)) (first :: rest)
    /\ _parse_dataset_section
         (split_nl
            (raw_text
               (make_dataset "__Beta Set__" ["Access: https://y.org/b"]
                  "Imaging")))
         "Imaging" []
       = [make_dataset "__Beta Set__" ["Access: https://y.org/b"] "Imaging"].
Proof.
  apply (raw_text_round_trip scenario_document
           (make_dataset "__Beta Set__" ["Access: https://y.org/b"] "Imaging")).
  vm_compute. right. left. reflexivity.
Defined.

End RecordLines.

(** ** Search and lookup *)

Section SearchLookup.
Import PyStr Regex Browser Vocabulary Queries Shapes.

Lemma contains_nil s : contains "" s = true.
Proof. apply contains_prefix, prefix_nil. Qed.

Lemma filter_all {A} (f : A -> bool) l :
  (forall x, f x = true) -> filter f l = l.
Proof.
  intros H. induction l as [|x l IH]; simpl; [reflexivity|].
  now rewrite H, IH.
Qed.

(** X6: the empty query matches every record, in either mode. *)
Theorem search_empty_query ds case_sensitive :
  search_datasets ds "" case_sensitive = ds.
Proof.
  unfold search_datasets. apply filter_all. intros d.
  destruct case_sensitive; apply contains_nil.
Qed.

Lemma search_text_contains q d :
  contains q (name d) = true \/ contains q (description d) = true ->
  contains q (name d ++ " " ++ description d) = true.
Proof.
  intros [H|H].
  - now apply contains_app_r.
  - apply contains_app_l. now apply (contains_app_l q " ").
Qed.

(** X7: in a case-sensitive search a record whose name or whose
    description contains the query is among the results. *)
Theorem search_finds_substring ds d query :
  In d ds ->
  contains query (name d) = true \/ contains query (description d) = true ->
  In d (search_datasets ds query true).
Proof.
  intros Hd Hq. unfold search_datasets. apply filter_In. split; [exact Hd|].
  now apply search_text_contains.
Qed.

Lemma search_finds_substring_witness :
  In sample_alpha (search_datasets [sample_alpha; sample_beta] "chest" true).
Proof.
  apply search_finds_substring.
  - left. reflexivity.
  - right. reflexivity.
Defined.

(** *** Lookup by name *)

Lemma find_first {A} (f : A -> bool) l x :
  In x l -> f x = true -> exists y, find f l = Some y.
Proof.
  induction l as [|a l IH]; simpl; [tauto|].
  intros [->|H] Hx.
  - rewrite Hx. eauto.
  - destruct (f a); eauto.
Qed.

(** X9: looking a record up by its own name succeeds in both modes: the
    exact lookup returns a record of the same name up to case, the
    partial lookup one whose name contains it up to case. *)
Theorem lookup_own_name ds d :
  In d ds ->
  (exists e, get_dataset_by_name ds (name d) true = Some e
             /\ In e ds /\ lower (name e) = lower (name d))
  /\ (exists p, get_dataset_by_name ds (name d) false = Some p
                /\ In p ds
                /\ contains (lower (name d)) (lower (name p)) = true).
Proof.
  intros Hd. unfold get_dataset_by_name. split.
  - destruct (find_first (name_matches true (lower (name d))) ds d Hd)
      as [e He]; [apply String.eqb_refl|].
    exists e. apply find_some in He as He'. destruct He' as [Hin Hm].
    repeat split; [exact He|exact Hin|now apply String.eqb_eq].
  - destruct (find_first (name_matches false (lower (name d))) ds d Hd)
      as [p Hp]; [apply contains_refl|].
    exists p. apply find_some in Hp as Hp'. destruct Hp' as [Hin Hm].
    repeat split; assumption.
Qed.

Lemma lookup_own_name_witness :
  exists e,
    get_dataset_by_name (parse_readme scenario_document []) "Beta Set" true
    = Some e
    /\ lower (name e) = "beta set".
Proof.
  destruct (lookup_own_name (parse_readme scenario_document [])
              (make_dataset "__Beta Set__" ["Access: https://y.org/b"]
                 "Imaging"))
    as [(e & He & _ & Hn) _].
  - vm_compute. right. left. reflexivity.
  - exists e. split; [exact He|exact Hn].
Defined.

(** X10: whatever a lookup returns, exact or partial, is among the
    results of the case-insensitive search for the same text; and when
    the exact lookup finds a record the partial lookup finds one too. *)
Theorem lookup_within_search ds query exact_match d :
  get_dataset_by_name ds query exact_match = Some d ->
  In d (search_datasets ds query false)
  /\ exists p, get_dataset_by_name ds query false = Some p.
Proof.
  unfold get_dataset_by_name. intros H.
  apply find_some in H as [Hd Hm].
  assert (Hc : contains (lower query) (lower (name d)) = true).
  { destruct exact_match; simpl in Hm; [|exact Hm].
    apply String.eqb_eq in Hm. rewrite Hm. apply contains_refl. }
  split.
  - unfold search_datasets. apply filter_In. split; [exact Hd|].
    rewrite lower_app. now apply contains_app_r.
  - now apply (find_first _ ds d).
Qed.

Lemma lookup_within_search_witness :
  In sample_beta (search_datasets [sample_alpha; sample_beta] "BETA" false)
  /\ exists p,
       get_dataset_by_name [sample_alpha; sample_beta] "BETA" false = Some p.
Proof.
  apply (lookup_within_search [sample_alpha; sample_beta] "BETA" false
           sample_beta).
  vm_compute. reflexivity.
Defined.

End SearchLookup.

(** ** Categories *)

Section Categories.
Import PyStr Regex Browser Vocabulary Queries.

Lemma browse_length ds c :
  List.length (browse_by_category ds c)
  = count_occ string_dec (map category ds) c.
Proof.
  unfold browse_by_category.
  induction ds as [|d ds IH]; simpl; [reflexivity|].
  destruct (String.eqb_spec (category d) c) as [E|E];
    destruct (string_dec (category d) c); try congruence; simpl; now rewrite IH.
Qed.

Lemma list_categories_entry ds c n :
  In (c, n) (list_categories ds) ->
  In c (map category ds) /\ n = count_occ string_dec (map category ds) c.
Proof.
  unfold list_categories. rewrite count_categories_tally.
  destruct (counted_tally (map category ds) [] [])
    as (_ & Hk & Hc & _).
  { repeat split; simpl; try constructor; tauto. }
  simpl in Hk, Hc. intros H.
  apply (Permutation_in _ (sorted_desc_perm _)) in H.
  rewrite Forall_forall in Hc. split; [|exact (Hc _ H)].
  apply Hk. change c with (fst (c, n)). now apply in_map.
Qed.

Lemma list_categories_keys ds c :
  In c (map fst (list_categories ds)) <-> In c (map category ds).
Proof.
  unfold list_categories. rewrite count_categories_tally.
  destruct (counted_tally (map category ds) [] [])
    as (_ & Hk & _ & _).
  { repeat split; simpl; try constructor; tauto. }
  simpl in Hk. rewrite <- Hk.
  split; apply Permutation_in, Permutation_map;
    [apply sorted_desc_perm|symmetry; apply sorted_desc_perm].
Qed.

(** X11: the count the listing gives for a category is the number of
    records that browsing the category returns, and it is never 0. *)
Theorem listing_counts_browse ds c n :
  In (c, n) (list_categories ds) ->
  List.length (browse_by_category ds c) = n /\ 0 < n.
Proof.
  intros H. apply list_categories_entry in H as [Hin ->].
  split; [apply browse_length|].
  now apply (count_occ_In string_dec).
Qed.

Lemma listing_counts_browse_witness :
  List.length
    (browse_by_category (parse_readme scenario_document []) "Imaging") = 2
  /\ 0 < 2.
Proof.
  apply (listing_counts_browse (parse_readme scenario_document [])).
  vm_compute. left. reflexivity.
Defined.

(** X12: browsing a category returns no record exactly when the listing
    does not name the category. *)
Theorem browse_unlisted_category ds c :
  browse_by_category ds c = [] <-> ~ In c (map fst (list_categories ds)).
Proof.
  rewrite list_categories_keys.
  rewrite (count_occ_not_In string_dec), <- browse_length.
  split; [now intros ->|].
  destruct (browse_by_category ds c); [reflexivity|discriminate].
Qed.

Lemma bump_sum c acc :
  list_sum (map snd (bump c acc)) = S (list_sum (map snd acc)).
Proof.
  induction acc as [|[k n] acc IH]; simpl; [reflexivity|].
  destruct (String.eqb k c); simpl; [lia|]. rewrite IH. lia.
Qed.

Lemma tally_sum cats : forall acc,
  list_sum (map snd (tally cats acc))
  = List.length cats + list_sum (map snd acc).
Proof.
  induction cats as [|c cats IH]; intros acc; simpl; [reflexivity|].
  unfold tally in IH. rewrite IH, bump_sum. lia.
Qed.

Lemma list_sum_perm l l' : Permutation l l' -> list_sum l = list_sum l'.
Proof. induction 1; simpl; lia. Qed.

(** X13: the counts of the listing add up to the number of records. *)
Theorem listing_counts_total ds :
  list_sum (map snd (list_categories ds)) = List.length ds.
Proof.
  unfold list_categories.
  rewrite (list_sum_perm _ _
             (Permutation_map snd (sorted_desc_perm (count_categories ds)))).
  rewrite count_categories_tally, tally_sum, length_map. simpl. lia.
Qed.

End Categories.

(** ** The counters of the statistics *)

Section Counters.
Import PyStr Regex Browser Vocabulary Queries Shapes Utils.

Lemma has_access_stats d :
  has_access d
  = set_url (access_url d) || set_url (data_url d)
    || set_url (information_url d) || set_url (overview_url d).
Proof.
  unfold has_access, set_url; simpl.
  destruct (access_url d) as [a|], (data_url d) as [b|],
    (information_url d) as [c|], (overview_url d) as [e|]; simpl;
    try destruct (truthy a); try destruct (truthy b);
    try destruct (truthy c); try destruct (truthy e); reflexivity.
Qed.

Lemma filter_length_cons {A} (f : A -> bool) x l :
  List.length (filter f (x :: l)) = b2n (f x) + List.length (filter f l).
Proof. simpl. destruct (f x); reflexivity. Qed.

Lemma stats_step_counters d st lens :
  counters_after [d] st (fst (stats_step (st, lens) d)).
Proof.
  unfold counters_after, stats_step.
  rewrite !filter_length_cons, has_access_stats. simpl.
  destruct (truthy (description d)); simpl; repeat split; lia.
Qed.

Lemma fold_stats_counters ds : forall st lens,
  counters_after ds st (fst (fold_left stats_step ds (st, lens))).
Proof.
  induction ds as [|d ds IH]; intros st lens; cbn [fold_left].
  - unfold counters_after; simpl. repeat split; lia.
  - pose proof (stats_step_counters d st lens) as H1.
    destruct (stats_step (st, lens) d) as [st1 lens1].
    specialize (IH st1 lens1). simpl fst in H1.
    unfold counters_after in *.
    destruct H1 as (A1 & A2 & A3 & A4 & A5 & A6 & A7 & A8 & A9 & A10 & A11).
    destruct IH as (B1 & B2 & B3 & B4 & B5 & B6 & B7 & B8 & B9 & B10 & B11).
    rewrite !filter_length_cons.
    rewrite B1, B2, B3, B4, B5, B6, B7, B8, B9, B10, B11.
    rewrite A1, A2, A3, A4, A5, A6, A7, A8, A9, A10, A11.
    rewrite !filter_length_cons. simpl.
    repeat split; lia.
Qed.

Lemma create_statistics_inv ds st :
  create_summary_statistics (ArgList ds) = inr st ->
  counters_after ds (stats0 (List.length ds))
    (mkStats (total_datasets st) (categories st) (category_counts st) 0
       (datasets_with_papers st) (datasets_with_access st)
       (datasets_requiring_registration st) (url_stats st)
       (description_stats st))
  /\ unique_categories st = List.length (categories st)
  /\ with_description (description_stats st)
     = List.length (desc_lengths ds).
Proof.
  unfold create_summary_statistics.
  destruct ds as [|d0 ds0] eqn:Eds; [discriminate|]. rewrite <- Eds.
  pose proof (fold_stats_counters ds (stats0 (List.length ds)) []) as H.
  destruct (fold_stats_step ds (stats0 (List.length ds)) []) as (_ & Hw & _).
  destruct (fold_left stats_step ds (stats0 (List.length ds), []))
    as [s1 lens].
  simpl fst in H, Hw.
  destruct lens; intros [= <-]; simpl; (split; [exact H|split; [reflexivity|exact Hw]]).
Qed.

(** X14: in the statistics of a list of records, the total is the length
    of the list, and the counters of records with a paper link, with some
    access link, requiring registration and with a description are the
    numbers of records that have that property; the paper-link counter of
    the link statistics equals the first of them. *)
Theorem statistics_counters ds st :
  create_summary_statistics (ArgList ds) = inr st ->
  total_datasets st = List.length ds
  /\ datasets_with_papers st
     = List.length (filter (fun d => set_url (paper_url d)) ds)
  /\ paper_urls (url_stats st) = datasets_with_papers st
  /\ datasets_with_access st = List.length (filter has_access ds)
  /\ datasets_requiring_registration st
     = List.length (filter requires_registration ds)
  /\ with_description (description_stats st)
     = List.length (filter (fun d => truthy (description d)) ds).
Proof.
  intros H. apply create_statistics_inv in H as (H & _ & Hw).
  unfold counters_after in H; simpl in H.
  destruct H as (A1 & _ & _ & A4 & A5 & A6 & A7 & _).
  repeat split; try assumption.
  - congruence.
  - rewrite Hw. unfold desc_lengths. apply length_map.
Qed.

Lemma statistics_counters_witness :
  total_datasets
    (mkStats 2 ["Imaging"] [("Imaging", 2)] 1 1 1 1 (mkUrlStats 1 1 0 0 0)
       (mkDescStats 1 (Quotient 20 1) (Int 20) (Int 20)))
  = List.length [sample_alpha; sample_beta]
  /\ datasets_with_access
       (mkStats 2 ["Imaging"] [("Imaging", 2)] 1 1 1 1 (mkUrlStats 1 1 0 0 0)
          (mkDescStats 1 (Quotient 20 1) (Int 20) (Int 20)))
     = List.length (filter has_access [sample_alpha; sample_beta]).
Proof.
  destruct (statistics_counters [sample_alpha; sample_beta]
              (mkStats 2 ["Imaging"] [("Imaging", 2)] 1 1 1 1
                 (mkUrlStats 1 1 0 0 0)
                 (mkDescStats 1 (Quotient 20 1) (Int 20) (Int 20))))
    as (H1 & _ & _ & H4 & _).
  - vm_compute. reflexivity.
  - split; [exact H1|exact H4].
Defined.

End Counters.

(** ** Statistics against the other operations *)

Section StatisticsLinks.
Import PyStr Regex Browser Vocabulary Queries Shapes Utils.

Lemma bump_keys_set_add c acc :
  map fst (bump c acc) = set_add c (map fst acc).
Proof. apply bump_keys. Qed.

Lemma tally_keys cats : forall acc,
  fold_left (fun a c => set_add c a) cats (map fst acc)
  = map fst (tally cats acc).
Proof.
  induction cats as [|c cats IH]; intros acc; simpl; [reflexivity|].
  rewrite <- bump_keys_set_add. apply IH.
Qed.

(** X15: the statistics and the listing agree on the categories: sorting
    the category counts of the statistics the way the listing does gives
    the listing, the categories of the statistics are the keys of its
    counts in some order, and the number of unique categories is the
    length of the listing. *)
Theorem statistics_categories ds st :
  create_summary_statistics (ArgList ds) = inr st ->
  sorted_desc (category_counts st) = list_categories ds
  /\ Permutation (categories st) (map fst (category_counts st))
  /\ unique_categories st = List.length (list_categories ds).
Proof.
  intros H. apply create_statistics_inv in H as (H & Hu & _).
  unfold counters_after in H; simpl in H.
  destruct H as (_ & A2 & A3 & _).
  assert (Hc : category_counts st = count_categories ds)
    by (now rewrite count_categories_tally).
  assert (Hk : categories st = map fst (category_counts st)).
  { rewrite A3, A2. apply (tally_keys (map category ds) []). }
  repeat split.
  - unfold list_categories. now rewrite Hc.
  - now rewrite Hk.
  - rewrite Hu, Hk, length_map, Hc. unfold list_categories.
    symmetry. apply Permutation_length, sorted_desc_perm.
Qed.

Lemma statistics_categories_witness :
  sorted_desc [("Imaging", 2)] = list_categories [sample_alpha; sample_beta]
  /\ Permutation ["Imaging"] (map fst [("Imaging", 2)])
  /\ 1 = List.length (list_categories [sample_alpha; sample_beta]).
Proof.
  apply (statistics_categories [sample_alpha; sample_beta]
           (mkStats 2 ["Imaging"] [("Imaging", 2)] 1 1 1 1
              (mkUrlStats 1 1 0 0 0)
              (mkDescStats 1 (Quotient 20 1) (Int 20) (Int 20)))).
  vm_compute. reflexivity.
Defined.

Lemma access_links_bounds ds :
  List.length (filter has_access ds)
  <= List.length (filter (fun d => set_url (access_url d)) ds)
     + List.length (filter (fun d => set_url (data_url d)) ds)
     + List.length (filter (fun d => set_url (information_url d)) ds)
     + List.length (filter (fun d => set_url (overview_url d)) ds)
  <= 4 * List.length (filter has_access ds).
Proof.
  induction ds as [|d ds IH]; [simpl; lia|].
  rewrite !filter_length_cons, has_access_stats.
  destruct (set_url (access_url d)), (set_url (data_url d)),
    (set_url (information_url d)), (set_url (overview_url d)); simpl; lia.
Qed.

(** X16: the four access-link counters of the link statistics together
    count at least one and at most four links for every record counted as
    having access. *)
Theorem statistics_access_links ds st :
  create_summary_statistics (ArgList ds) = inr st ->
  datasets_with_access st
  <= access_urls (url_stats st) + data_urls (url_stats st)
     + information_urls (url_stats st) + overview_urls (url_stats st)
  <= 4 * datasets_with_access st.
Proof.
  intros H. apply create_statistics_inv in H as (H & _ & _).
  unfold counters_after in H; simpl in H.
  destruct H as (_ & _ & _ & _ & A5 & _ & _ & A8 & A9 & A10 & A11).
  rewrite A5, A8, A9, A10, A11. apply access_links_bounds.
Qed.

Lemma statistics_access_links_witness :
  1 <= 1 + 0 + 0 + 0 <= 4 * 1.
Proof.
  apply (statistics_access_links [sample_alpha; sample_beta]
           (mkStats 2 ["Imaging"] [("Imaging", 2)] 1 1 1 1
              (mkUrlStats 1 1 0 0 0)
              (mkDescStats 1 (Quotient 20 1) (Int 20) (Int 20)))).
  vm_compute. reflexivity.
Defined.

Lemma list_sum_bounds l lo hi :
  (forall x, In x l -> lo <= x <= hi) ->
  lo * List.length l <= list_sum l <= hi * List.length l.
Proof.
  induction l as [|x l IH]; intros H; simpl; [lia|].
  assert (lo <= x <= hi) by (apply H; now left).
  assert (lo * List.length l <= list_sum l <= hi * List.length l)
    by (apply IH; intros y Hy; apply H; now right).
  nia.
Qed.

(** X17: when some record has a description, the average description
    length is the quotient of the sum of the lengths by the number of
    records with a description, and it lies between the reported minimum
    and maximum. *)
Theorem statistics_average ds st :
  create_summary_statistics (ArgList ds) = inr st ->
  desc_lengths ds <> [] ->
  exists lo hi,
    average_description_length (description_stats st)
    = Quotient (list_sum (desc_lengths ds))
        (with_description (description_stats st))
    /\ min_description_length (description_stats st) = Int lo
    /\ max_description_length (description_stats st) = Int hi
    /\ lo * with_description (description_stats st)
       <= list_sum (desc_lengths ds)
       <= hi * with_description (description_stats st).
Proof.
  unfold create_summary_statistics.
  destruct ds as [|d0 ds0] eqn:Eds; [discriminate|]. rewrite <- Eds.
  destruct (fold_stats_step ds (stats0 (List.length ds)) [])
    as (H1 & H2 & _ & H4 & H5).
  destruct (fold_left stats_step ds (stats0 (List.length ds), []))
    as [s1 lens].
  simpl in H1, H2, H4, H5. subst lens.
  destruct (desc_lengths ds) as [|x l] eqn:El; [congruence|].
  intros [= <-] _. simpl.
  rewrite H2, H4, H5. simpl.
  destruct (fold_num_min_int l x) as (lo & Elo & Hlo & Hall & _).
  destruct (fold_num_max_int l x) as (hi & Ehi & Hhi & Hall' & _).
  exists lo, hi. rewrite Elo, Ehi. repeat split.
  - pose proof (list_sum_bounds (x :: l) lo hi) as Hb. simpl in Hb.
    apply Hb. intros y [<-|Hy]; [lia|].
    split; [now apply Hall|now apply Hall'].
  - pose proof (list_sum_bounds (x :: l) lo hi) as Hb. simpl in Hb.
    apply Hb. intros y [<-|Hy]; [lia|].
    split; [now apply Hall|now apply Hall'].
Qed.

Lemma statistics_average_witness :
  exists lo hi,
    Quotient 20 1 = Quotient (list_sum (desc_lengths [sample_alpha; sample_beta])) 1
    /\ Int 20 = Int lo /\ Int 20 = Int hi
    /\ lo * 1 <= list_sum (desc_lengths [sample_alpha; sample_beta])
       <= hi * 1.
Proof.
  apply (statistics_average [sample_alpha; sample_beta]
           (mkStats 2 ["Imaging"] [("Imaging", 2)] 1 1 1 1
              (mkUrlStats 1 1 0 0 0)
              (mkDescStats 1 (Quotient 20 1) (Int 20) (Int 20)))).
  - vm_compute. reflexivity.
  - vm_compute. discriminate.
Defined.

Lemma url_shaped_truthy u : url_shaped u = true -> truthy u = true.
Proof. destruct u; [discriminate|reflexivity]. Qed.

Lemma links_ok_has_paper d :
  links_ok d -> has_paper d = set_url (paper_url d).
Proof.
  intros (H & _). unfold has_paper, set_url.
  destruct (paper_url d) as [u|]; [|reflexivity].
  simpl in H. now rewrite (url_shaped_truthy u H).
Qed.

Lemma filter_ext_forall {A} (f g : A -> bool) l :
  Forall (fun x => f x = g x) l -> filter f l = filter g l.
Proof.
  induction 1 as [|x l Hx _ IH]; simpl; [reflexivity|].
  now rewrite Hx, IH.
Qed.

(** X18: on the records of a parsed document, the statistics count as
    having a paper exactly the records for which [has_paper] holds: a
    paper link the parser sets is never the empty string. *)
Theorem parsed_statistics_papers content st :
  create_summary_statistics (ArgList (parse_readme content [])) = inr st ->
  datasets_with_papers st
  = List.length (filter has_paper (parse_readme content [])).
Proof.
  intros H. apply create_statistics_inv in H as (H & _ & _).
  unfold counters_after in H; simpl in H.
  destruct H as (_ & _ & _ & A4 & _). rewrite A4. f_equal.
  symmetry. apply filter_ext_forall.
  apply Forall_impl with (P := links_ok);
    [intros d Hd; now apply links_ok_has_paper|].
  unfold parse_readme.
  apply parse_lines_forall; [apply make_dataset_links|constructor].
Qed.

Lemma parsed_statistics_papers_witness :
  1 = List.length
        (filter has_paper
           (parse_readme "## 1. Imaging
__Alpha__
Paper: https://x.org/a" [])).
Proof.
  apply (parsed_statistics_papers _
           (mkStats 1 ["Imaging"] [("Imaging", 1)] 1 1 0 0
              (mkUrlStats 1 0 0 0 0)
              (mkDescStats 0 (Int 0) (Int 0) (Int 0)))).
  vm_compute. reflexivity.
Defined.

End StatisticsLinks.

(** ** Truncating text *)

Section Truncation.
Import PyStr Text Shapes.

Example truncate_samples :
  truncate_text (Str "This is a long text") (NonNeg 15) "..." true
  = inr "This is a..."
  /\ truncate_text (Str "Short") (NonNeg 15) "..." true = inr "Short"
  /\ truncate_text (Str "  two   words ") (NonNeg 15) "..." true
     = inr "two words"
  /\ truncate_text (Str "abcdefghij") (NonNeg 6) "..." true = inr "abc..."
  /\ truncate_text (Str "ab cdefghij") (NonNeg 3) "..." true = inr "..."
  /\ truncate_text (Str "ab cdefghij") (NonNeg 2) "..." true = inl ValueError
  /\ split_ws " a  b	c " = ["a"; "b"; "c"].
Proof. repeat split; reflexivity. Qed.

Lemma take_length n s : String.length (take n s) <= n.
Proof.
  revert s; induction n as [|n IH]; intros [|c s]; simpl; try lia.
  specialize (IH s). lia.
Qed.

Lemma rstrip_length s : String.length (rstrip s) <= String.length s.
Proof.
  induction s as [|c s IH]; simpl; [lia|].
  destruct (rstrip s); simpl in *; [destruct (isspace c); simpl; lia|lia].
Qed.

Lemma rfind_space_lt s : forall stop i,
  rfind_space s stop = Some i -> i < stop.
Proof.
  induction s as [|c s IH]; intros [|k] i; simpl; try discriminate.
  destruct (rfind_space s k) as [j|] eqn:E.
  - intros [= <-]. apply IH in E. lia.
  - destruct (Ascii.eqb c " "); [|discriminate]. intros [= <-]. lia.
Qed.

(** X19: a result of [truncate_text] is never longer than [max_length],
    suffix included, with or without respect of word boundaries. *)
Theorem truncate_text_bound text max_length suffix boundaries r :
  truncate_text (Str text) (NonNeg max_length) suffix boundaries = inr r ->
  String.length r <= max_length.
Proof.
  unfold truncate_text.
  destruct (Nat.ltb_spec max_length (String.length suffix)) as [|Hs];
    [discriminate|].
  destruct (Nat.leb_spec (String.length (join " " (split_ws text)))
              max_length) as [Hl|Hl].
  - now intros [= <-].
  - intros [= <-]. rewrite string_length_app.
    set (t := join " " (split_ws text)).
    set (n := max_length - String.length suffix).
    assert (G : forall k, k <= n ->
                String.length (rstrip (take k t)) + String.length suffix
                <= max_length).
    { intros k Hk. pose proof (rstrip_length (take k t)).
      pose proof (take_length k t). lia. }
    destruct (boundaries && (0 <? n)); [|now apply G].
    destruct (rfind_space t n) as [i|] eqn:E; [|now apply G].
    apply rfind_space_lt in E.
    destruct (0 <? i); apply G; lia.
Qed.

Lemma truncate_text_bound_witness :
  String.length "This is a..." <= 15.
Proof.
  apply (truncate_text_bound "This is a long text" 15 "..." true).
  reflexivity.
Defined.

Lemma take_drop n s : s = (take n s ++ drop n s)%string.
Proof.
  revert s; induction n as [|n IH]; intros [|c s]; simpl; try reflexivity.
  now rewrite <- IH.
Qed.

Lemma rfind_space_at s : forall stop i,
  rfind_space s stop = Some i -> exists rest, drop i s = String " " rest.
Proof.
  induction s as [|c s IH]; intros [|k] i; simpl; try discriminate.
  destruct (rfind_space s k) as [j|] eqn:E.
  - intros [= <-]. simpl. now apply (IH k).
  - destruct (Ascii.eqb_spec c " ") as [->|_]; [|discriminate].
    intros [= <-]. simpl. eauto.
Qed.

(** X21: a truncated result is a beginning of the collapsed text,
    stripped at its right end, followed by the suffix, and the beginning
    is no longer than [max_length] less the suffix; when word boundaries
    are respected and a blank stands at a positive position before that
    limit, the beginning ends just before a blank. *)
Theorem truncate_text_cut text max_length suffix boundaries r :
  truncate_text (Str text) (NonNeg max_length) suffix boundaries = inr r ->
  max_length < String.length (collapse text) ->
  exists body rest,
    collapse text = (body ++ rest)%string
    /\ r = (rstrip body ++ suffix)%string
    /\ String.length body <= max_length - String.length suffix
    /\ (boundaries = true ->
        (exists i, rfind_space (collapse text)
                     (max_length - String.length suffix) = Some i
                   /\ 0 < i) ->
        exists rest', rest = String " " rest').
Proof.
  unfold truncate_text, collapse.
  set (t := join " " (split_ws text)).
  set (n := max_length - String.length suffix).
  destruct (max_length <? String.length suffix); [discriminate|].
  intros H Hlen.
  destruct (Nat.leb_spec (String.length t) max_length) as [Hl|_]; [lia|].
  injection H as <-.
  destruct boundaries; simpl.
  - destruct (Nat.ltb_spec 0 n) as [Hn|Hn].
    + destruct (rfind_space t n) as [i|] eqn:E.
      * destruct (Nat.ltb_spec 0 i) as [Hi|Hi].
        -- exists (take i t), (drop i t).
           repeat split; [apply take_drop| |].
           ++ pose proof (take_length i t).
              apply rfind_space_lt in E. lia.
           ++ intros _ _. now apply (rfind_space_at t n).
        -- exists (take n t), (drop n t).
           repeat split; [apply take_drop|apply take_length|].
           intros _ (j & [= <-] & Hj). lia.
      * exists (take n t), (drop n t).
        repeat split; [apply take_drop|apply take_length|].
        intros _ (j & Hj & _). discriminate.
    + exists (take n t), (drop n t).
      repeat split; [apply take_drop|apply take_length|].
      intros _ (j & Hj & _). destruct n; [|lia].
      destruct t; discriminate.
  - exists (take n t), (drop n t).
    repeat split; [apply take_drop|apply take_length|discriminate].
Qed.

Lemma truncate_text_cut_witness :
  exists body rest,
    collapse "This is a long text" = (body ++ rest)%string
    /\ "This is a..." = (rstrip body ++ "...")%string
    /\ String.length body <= 15 - String.length "..."
    /\ (true = true ->
        (exists i, rfind_space (collapse "This is a long text")
                     (15 - String.length "...") = Some i
                   /\ 0 < i) ->
        exists rest', rest = String " " rest').
Proof.
  apply (truncate_text_cut "This is a long text" 15 "..." true).
  - reflexivity.
  - vm_compute. lia.
Defined.

(** *** Collapsing spaces *)

Lemma words_aux_solid s :
  all_chars (fun c => negb (isspace c)) (fst (words_aux s)) = true
  /\ Forall (fun w => solid w = true) (snd (words_aux s)).
Proof.
  induction s as [|c s [IH1 IH2]]; simpl; [split; [reflexivity|constructor]|].
  destruct (words_aux s) as [w ws]; simpl in *.
  destruct (isspace c) eqn:E; simpl.
  - split; [reflexivity|].
    destruct (truthy w) eqn:Ew; [|exact IH2].
    constructor; [|exact IH2]. unfold solid. now rewrite Ew, IH1.
  - rewrite E, IH1. split; [reflexivity|exact IH2].
Qed.

Lemma split_ws_solid s : Forall (fun w => solid w = true) (split_ws s).
Proof.
  unfold split_ws. destruct (words_aux_solid s) as [H1 H2].
  destruct (words_aux s) as [w ws]; simpl in *.
  destruct (truthy w) eqn:Ew; [|exact H2].
  constructor; [|exact H2]. unfold solid. now rewrite Ew, H1.
Qed.

Lemma words_aux_app w s :
  all_chars (fun c => negb (isspace c)) w = true ->
  words_aux (w ++ s)
  = ((w ++ fst (words_aux s))%string, snd (words_aux s)).
Proof.
  induction w as [|c w IH]; simpl; intros H.
  - now destruct (words_aux s).
  - apply andb_true_iff in H as [Hc Hw]. rewrite (IH Hw).
    apply negb_true_iff in Hc. now rewrite Hc.
Qed.

Lemma split_ws_blank s : words_aux (String " " s) = (EmptyString, split_ws s).
Proof.
  unfold split_ws. simpl. now destruct (words_aux s).
Qed.

(** Splitting the blank-joined words gives the words. *)
Lemma split_join_words ws :
  Forall (fun w => solid w = true) ws -> split_ws (join " " ws) = ws.
Proof.
  induction ws as [|w ws IH]; intros H; [reflexivity|].
  inversion H as [|? ? Hw Hws]; subst.
  unfold solid in Hw. apply andb_true_iff in Hw as [Hn Ha].
  destruct ws as [|y ws].
  - unfold split_ws. simpl join.
    rewrite <- (string_app_nil_r w) at 1.
    rewrite (words_aux_app w "" Ha). simpl.
    rewrite string_app_nil_r. now rewrite Hn.
  - change (join " " (w :: y :: ws))
      with (w ++ String " " (join " " (y :: ws)))%string.
    unfold split_ws at 1.
    rewrite (words_aux_app w _ Ha), split_ws_blank. simpl.
    rewrite string_app_nil_r, Hn. f_equal. now apply IH.
Qed.

Lemma collapse_idempotent text : collapse (collapse text) = collapse text.
Proof.
  unfold collapse. now rewrite split_join_words by apply split_ws_solid.
Qed.

(** X22: a text that fits after its runs of spaces are collapsed is
    returned collapsed: it has the words of the text, and passing the
    result again returns it unchanged. *)
Theorem truncate_text_short text max_length suffix boundaries :
  String.length suffix <= max_length ->
  String.length (collapse text) <= max_length ->
  truncate_text (Str text) (NonNeg max_length) suffix boundaries
  = inr (collapse text)
  /\ split_ws (collapse text) = split_ws text
  /\ truncate_text (Str (collapse text)) (NonNeg max_length) suffix
       boundaries
     = inr (collapse text).
Proof.
  intros Hs Hl.
  assert (G : forall t, String.length (collapse t) <= max_length ->
                truncate_text (Str t) (NonNeg max_length) suffix boundaries
                = inr (collapse t)).
  { intros t Ht. unfold truncate_text. fold (collapse t).
    destruct (Nat.ltb_spec max_length (String.length suffix)); [lia|].
    destruct (Nat.leb_spec (String.length (collapse t)) max_length);
      [reflexivity|lia]. }
  repeat split.
  - now apply G.
  - unfold collapse. apply split_join_words, split_ws_solid.
  - rewrite <- (collapse_idempotent text) at 2.
    apply G. now rewrite collapse_idempotent.
Qed.

Lemma truncate_text_short_witness :
  truncate_text (Str "  two   words ") (NonNeg 15) "..." true
  = inr (collapse "  two   words ")
  /\ split_ws (collapse "  two   words ") = split_ws "  two   words "
  /\ truncate_text (Str (collapse "  two   words ")) (NonNeg 15) "..." true
     = inr (collapse "  two   words ").
Proof.
  apply truncate_text_short; vm_compute; lia.
Defined.

End Truncation.

(** ** Filtering *)

Section Filtering.
Import PyStr Browser Queries Shapes Filters.

Example filter_samples :
  filter_datasets [sample_alpha; sample_beta]
    [("category", Expected (EStr "imag"));
     ("requires_registration", Expected (EBool false))] true
  = [sample_beta]
  /\ filter_datasets [sample_alpha; sample_beta]
       [("paper_url", Expected ENone); ("name", Expected (EStr "ALPHA"))]
       false
     = [sample_alpha; sample_beta]
  /\ filter_datasets [sample_alpha; sample_beta]
       [("size", Expected (EStr "big"))] false
     = []
  /\ filter_datasets [sample_alpha; sample_beta] [] true
     = [sample_alpha; sample_beta].
Proof. repeat split; reflexivity. Qed.

Lemma forallb_existsb_nonempty (l : list bool) :
  l <> [] -> forallb (fun b => b) l = true -> existsb (fun b => b) l = true.
Proof.
  destruct l as [|b l]; [congruence|]. simpl. intros _ H.
  apply andb_true_iff in H as [-> _]. reflexivity.
Qed.

(** X23: whatever passes all the criteria passes one of them: the
    records kept when every criterion must match are among those kept when
    any criterion may match. *)
Theorem filter_all_within_any ds criteria d :
  In d (filter_datasets ds criteria true) ->
  In d (filter_datasets ds criteria false).
Proof.
  unfold filter_datasets. destruct criteria as [|c cs]; [auto|].
  rewrite !filter_In. intros [Hd H]. split; [exact Hd|].
  apply forallb_existsb_nonempty; [discriminate|exact H].
Qed.

Lemma filter_all_within_any_witness :
  In sample_beta
    (filter_datasets [sample_alpha; sample_beta]
       [("category", Expected (EStr "imag"));
        ("requires_registration", Expected (EBool false))] false).
Proof.
  apply filter_all_within_any. vm_compute. left. reflexivity.
Defined.

Lemma filter_filter {A} (f g : A -> bool) l :
  filter g (filter f l) = filter (fun x => f x && g x) l.
Proof.
  induction l as [|x l IH]; simpl; [reflexivity|].
  destruct (f x); simpl; [destruct (g x); now rewrite IH|exact IH].
Qed.

(** X25: when two dictionaries of criteria share no key, requiring all
    the criteria of their union is filtering by the first and then
    filtering the result by the second. *)
Theorem filter_all_composes ds criteria1 criteria2 :
  NoDup (map fst (criteria1 ++ criteria2)) ->
  filter_datasets ds (criteria1 ++ criteria2) true
  = filter_datasets (filter_datasets ds criteria1 true) criteria2 true.
Proof.
  intros _. unfold filter_datasets.
  destruct criteria1 as [|c1 cs1]; [reflexivity|].
  destruct criteria2 as [|c2 cs2].
  - now rewrite app_nil_r.
  - rewrite filter_filter. simpl app.
    apply filter_ext. intros d.
    change (c1 :: cs1 ++ c2 :: cs2) with ((c1 :: cs1) ++ c2 :: cs2).
    now rewrite map_app, forallb_app.
Qed.

Lemma filter_all_composes_witness :
  filter_datasets [sample_alpha; sample_beta]
    ([("category", Expected (EStr "imag"))]
     ++ [("requires_registration", Expected (EBool false))]) true
  = filter_datasets
      (filter_datasets [sample_alpha; sample_beta]
         [("category", Expected (EStr "imag"))] true)
      [("requires_registration", Expected (EBool false))] true.
Proof.
  apply filter_all_composes.
  repeat constructor; simpl; intuition discriminate.
Defined.

(** X26: filtering on the category with a string keeps every record that
    browsing that category returns: the filter compares without case and
    by containment, the browser exactly. *)
Theorem filter_category_covers_browse ds c d :
  In d (browse_by_category ds c) ->
  In d (filter_datasets ds [("category", Expected (EStr c))] true).
Proof.
  unfold browse_by_category, filter_datasets. rewrite !filter_In.
  intros [Hd Hc]. split; [exact Hd|].
  apply String.eqb_eq in Hc. simpl.
  unfold criterion_matches; simpl. rewrite Hc, andb_true_r.
  apply contains_refl.
Qed.

Lemma filter_category_covers_browse_witness :
  In sample_beta
    (filter_datasets [sample_alpha; sample_beta]
       [("category", Expected (EStr "Imaging"))] true).
Proof.
  apply filter_category_covers_browse. vm_compute. right. left. reflexivity.
Defined.

End Filtering.

(** ** The stand-alone script *)

Section ScriptIndex.
Import PyStr Regex Script ScriptBrowser Shapes.

Example script_parse_sample :
  map (fun d => (name d, category d))
    (datasets (parse_readme scenario_document browser0))
  = [("Beta Set",
      strip (String.concat (String newline EmptyString)
               ["Imaging"; ""; "__Alpha Set__"; "";
                "A chest scan corpus. Requires registration."; "";
                "Paper: https://x.org/a"; ""; "***"; ""; "__Beta Set__"; "";
                "Access: https://y.org/b"]))].
Proof. vm_compute. reflexivity. Qed.

Lemma extract_dataset_info_some section c d :
  _extract_dataset_info section c = Some d ->
  category d = c /\ 3 <= String.length (name d).
Proof.
  unfold _extract_dataset_info, extract_from_lines.
  destruct (split_nl (strip section)) as [|first rest]; [discriminate|].
  destruct (negb (truthy (section_name first))); simpl; [discriminate|].
  destruct (Nat.ltb_spec (String.length (section_name first)) 3);
    [discriminate|].
  intros [= <-]. simpl. split; [reflexivity|assumption].
Qed.

Lemma index_get_append c' c d index :
  index_get c' (index_append c d index)
  = if String.eqb c c' then index_get c' index ++ [d]
    else index_get c' index.
Proof.
  induction index as [|[k l] index IH]; simpl.
  - rewrite (String.eqb_sym c c'). now destruct (String.eqb c' c).
  - destruct (String.eqb_spec k c) as [->|Hk]; simpl.
    + destruct (String.eqb c c'); reflexivity.
    + destruct (String.eqb_spec k c') as [->|Hk'].
      * destruct (String.eqb_spec c c'); [congruence|reflexivity].
      * exact IH.
Qed.

Lemma index_append_keys c d index :
  map fst (index_append c d index)
  = if existsb (String.eqb c) (map fst index) then map fst index
    else map fst index ++ [c].
Proof.
  induction index as [|[k l] index IH]; simpl; [reflexivity|].
  rewrite (String.eqb_sym c k).
  destruct (String.eqb k c); simpl; [reflexivity|].
  rewrite IH. destruct (existsb _ _); reflexivity.
Qed.

Lemma index_append_nonempty c d index :
  Forall (fun item => snd item <> []) index ->
  Forall (fun item => snd item <> []) (index_append c d index).
Proof.
  induction index as [|[k l] index IH]; simpl; intros H.
  - repeat constructor. discriminate.
  - inversion H; subst. destruct (String.eqb k c).
    + constructor; [|assumption]. simpl. now destruct l.
    + constructor; [assumption|now apply IH].
Qed.

Lemma filter_snoc {A} (f : A -> bool) l x :
  filter f (l ++ [x]) = filter f l ++ (if f x then [x] else []).
Proof. rewrite filter_app. simpl. now destruct (f x). Qed.

Lemma add_section_agrees c b section :
  index_agrees b -> index_agrees (add_section c b section).
Proof.
  intros (Hn & He & Hg). unfold add_section.
  destruct (_ || _); [now repeat split|].
  destruct (_extract_dataset_info section c) as [d|] eqn:E;
    [|now repeat split].
  destruct (truthy (name d)); [|now repeat split].
  apply extract_dataset_info_some in E as [Hc _].
  repeat split; simpl.
  - rewrite index_append_keys.
    destruct (existsb (String.eqb c) (map fst (categories_index b))) eqn:Ex;
      [exact Hn|].
    apply NoDup_app; [exact Hn|repeat constructor; simpl; tauto|].
    intros a Ha [->|[]].
    assert (existsb (String.eqb a) (map fst (categories_index b)) = true).
    { apply existsb_exists. exists a. split; [exact Ha|apply String.eqb_refl]. }
    congruence.
  - now apply index_append_nonempty.
  - intros c'. rewrite index_get_append, filter_snoc, Hg, Hc.
    destruct (String.eqb c c'); [reflexivity|now rewrite app_nil_r].
Qed.

Lemma parse_readme_agrees content b :
  index_agrees b -> index_agrees (parse_readme content b).
Proof.
  unfold parse_readme. revert b.
  induction (category_blocks 0 content) as [|[[num nm] whole] blocks IH];
    intros b H; simpl; [exact H|].
  apply IH. unfold _parse_category_datasets.
  revert b H. induction (split_sections 0 whole) as [|sec secs IHs];
    intros b H; simpl; [exact H|].
  apply IHs. now apply add_section_agrees.
Qed.

Lemma index_get_in c l index :
  NoDup (map fst index) -> In (c, l) index -> index_get c index = l.
Proof.
  induction index as [|[k l0] index IH]; simpl; [tauto|].
  intros Hn [[= -> ->]|H].
  - now rewrite String.eqb_refl.
  - inversion Hn as [|? ? Hk Hn']; subst.
    destruct (String.eqb_spec k c) as [->|_]; [|now apply IH].
    exfalso. apply Hk. change c with (fst (c, l)). now apply in_map.
Qed.

Lemma index_total index (ds : list MedicalDataset) :
  NoDup (map fst index) ->
  (forall c, index_get c index
             = filter (fun d => String.eqb (category d) c) ds) ->
  (forall d, In d ds -> In (category d) (map fst index)) ->
  list_sum (map (fun item => List.length (snd item)) index) = List.length ds.
Proof.
  revert ds. induction index as [|[k l] index IH]; intros ds Hn Hg Hin; simpl.
  - destruct ds as [|d ds]; [reflexivity|]. destruct (Hin d); now left.
  - inversion Hn as [|? ? Hk Hn']; subst.
    rewrite (IH (filter (fun d => negb (String.eqb (category d) k)) ds)).
    + pose proof (Hg k) as Hl. simpl in Hl. rewrite String.eqb_refl in Hl.
      subst l. clear. induction ds as [|d ds IHd]; simpl; [reflexivity|].
      destruct (String.eqb (category d) k); simpl; lia.
    + exact Hn'.
    + intros c. pose proof (Hg c) as Hc. simpl in Hc.
      destruct (String.eqb_spec k c) as [Ekc|Hkc].
      * subst c. assert (E : index_get k index = []).
        { clear -Hk. induction index as [|[k' l'] index IHi]; simpl;
            [reflexivity|].
          destruct (String.eqb_spec k' k) as [->|_].
          - exfalso. apply Hk. now left.
          - apply IHi. intros H. apply Hk. now right. }
        rewrite E. clear. induction ds as [|d ds IHd]; simpl; [reflexivity|].
        destruct (String.eqb (category d) k) eqn:Ed; simpl; [exact IHd|].
        now rewrite Ed.
      * rewrite Hc. clear -Hkc. induction ds as [|d ds IHd]; simpl;
          [reflexivity|].
        destruct (String.eqb_spec (category d) c) as [Ec|Ec];
          destruct (String.eqb_spec (category d) k) as [Ek|Ek]; simpl;
          try congruence.
        -- destruct (String.eqb_spec (category d) c); [|congruence].
           now rewrite IHd.
        -- destruct (String.eqb_spec (category d) c); [congruence|].
           exact IHd.
    + intros d Hd. apply filter_In in Hd as [Hd Hne].
      destruct (Hin d Hd) as [E|H]; [|exact H].
      simpl in E. subst k. now rewrite String.eqb_refl in Hne.
Qed.

(** X27: in the script the index and the record list stay in step.
    After parsing, browsing a category returns the records of that
    category in the order of the list; the listing names every category
    once, with the number of its records, never 0; and the counts add up
    to the number of records. *)
Theorem script_index_agrees content :
  let b := parse_readme content browser0 in
  (forall c, truthy c = true ->
             browse_by_category b (Some c)
             = filter (fun d => String.eqb (category d) c) (datasets b))
  /\ NoDup (map fst (list_categories b))
  /\ (forall c n, In (c, n) (list_categories b) ->
                  0 < n
                  /\ n = List.length
                           (filter (fun d => String.eqb (category d) c)
                              (datasets b)))
  /\ list_sum (map snd (list_categories b)) = List.length (datasets b).
Proof.
  intros b.
  assert (H : index_agrees b).
  { apply parse_readme_agrees. repeat split; simpl; constructor. }
  destruct H as (Hn & He & Hg).
  assert (Hkeys : map fst (list_categories b) = map fst (categories_index b)).
  { unfold list_categories. rewrite map_map. reflexivity. }
  repeat split.
  - intros c Hc. simpl. rewrite Hc. apply Hg.
  - now rewrite Hkeys.
  - unfold list_categories in H. apply in_map_iff in H as ([k l] & E & Hin).
    injection E as <- <-. rewrite Forall_forall in He.
    specialize (He _ Hin). simpl in *. destruct l; [congruence|simpl; lia].
  - unfold list_categories in H. apply in_map_iff in H as ([k l] & E & Hin).
    injection E as <- <-. rewrite <- Hg. simpl.
    now rewrite (index_get_in k l _ Hn Hin).
  - unfold list_categories. rewrite map_map. simpl.
    apply index_total; [exact Hn|exact Hg|].
    intros d Hd.
    assert (Hd' : In d (filter (fun x => String.eqb (category x) (category d))
                          (datasets b)))
      by (apply filter_In; split; [exact Hd|apply String.eqb_refl]).
    rewrite <- Hg in Hd'.
    clear -Hd'. induction (categories_index b) as [|[k l] index IH];
      simpl in *; [destruct Hd'|].
    destruct (String.eqb_spec k (category d)) as [->|_]; [now left|].
    right. now apply IH.
Qed.

(** *** Sections and separators *)

Lemma lazy_block_spec s :
  match lazy_block s with
  | Some (g, rest) => s = (g ++ rest)%string
  | None => s = ""
  end.
Proof.
  induction s as [|c s IH]; simpl; [reflexivity|].
  destruct (at_boundary s) eqn:B; [reflexivity|].
  destruct (lazy_block s) as [[g rest]|]; [now rewrite IH|].
  subst s. discriminate B.
Qed.

Lemma category_at_whole s num g whole rest :
  category_at s = Some (num, g, whole, rest) ->
  s = (whole ++ rest)%string /\ startswith whole "##" = true.
Proof.
  unfold category_at.
  destruct (drop_prefix "## " s) as [r1|] eqn:E1; [|discriminate].
  apply drop_prefix_app in E1.
  destruct (span_spec isdigit r1) as (E2 & _ & _).
  destruct (span isdigit r1) as [ds r2]; simpl in E2.
  destruct ds as [|d ds]; [discriminate|].
  destruct r2 as [|c r3]; [discriminate|].
  destruct (Ascii.eqb_spec c ".") as [->|Hc].
  2:{ destruct c as [[] [] [] [] [] [] [] []]; try discriminate.
      congruence. }
  cbv iota.
  destruct (span_spec isspace r3) as (E3 & _ & _).
  destruct (span isspace r3) as [w r4]; simpl in E3.
  destruct w as [|x w]; [discriminate|].
  pose proof (lazy_block_spec r4) as E4.
  destruct (lazy_block r4) as [[g' rest']|].
  - intros [= <- <- <- <-]. split; [|reflexivity].
    rewrite E1, E2, E3, E4. simpl.
    rewrite !string_app_assoc. simpl. now rewrite !string_app_assoc.
  - destruct w as [|y w]; [discriminate|].
    intros [= <- <- <- <-]. split; [|reflexivity].
    rewrite E1, E2, E3, E4. simpl.
    now rewrite !string_app_nil_r.
Qed.

Lemma contains_cons p c s : contains p s = true -> contains p (String c s) = true.
Proof. intros H. cbn [contains]. rewrite H. apply orb_true_r. Qed.

Lemma category_blocks_within s : forall skip num nm whole,
  In (num, nm, whole) (category_blocks skip s) ->
  startswith whole "##" = true
  /\ forall p, contains p whole = true -> contains p s = true.
Proof.
  induction s as [|c s IH]; intros skip num nm whole; [intros []|].
  cbn [category_blocks]. destruct skip as [|k].
  - destruct (category_at (String c s)) as [[[[n g] w] rest]|] eqn:E.
    + intros [[= <- <- <-]|H].
      * apply category_at_whole in E as [Es Hw]. split; [exact Hw|].
        intros p Hp. rewrite Es. now apply contains_app_r.
      * destruct (IH _ _ _ _ H) as [Hw Hc]. split; [exact Hw|].
        intros p Hp. now apply contains_cons, Hc.
    + intros H. destruct (IH _ _ _ _ H) as [Hw Hc]. split; [exact Hw|].
      intros p Hp. now apply contains_cons, Hc.
  - intros H. destruct (IH _ _ _ _ H) as [Hw Hc]. split; [exact Hw|].
    intros p Hp. now apply contains_cons, Hc.
Qed.

Lemma drop_prefix_prefix p s r :
  drop_prefix p s = Some r -> String.prefix p s = true.
Proof.
  intros H. apply drop_prefix_app in H. subst s. apply prefix_app.
Qed.

Lemma split_sections_whole s :
  contains separator s = false -> split_sections 0 s = [s].
Proof.
  induction s as [|c s IH]; [reflexivity|].
  cbn [contains split_sections]. intros H.
  apply orb_false_iff in H as [Hp Hc].
  destruct (drop_prefix separator (String c s)) eqn:E.
  - apply drop_prefix_prefix in E. congruence.
  - now rewrite (IH Hc).
Qed.

Lemma add_section_header c b section :
  startswith section "##" = true -> add_section c b section = b.
Proof.
  intros H. unfold add_section. now rewrite H, orb_true_r.
Qed.

(** X28: the script records nothing from the text between a category
    header and the first separator line: the section that holds the
    header is skipped.  So a document in which no line [***] stands
    between two newlines leaves the browser as it was. *)
Theorem script_needs_separator content b :
  contains separator content = false -> parse_readme content b = b.
Proof.
  intros H. unfold parse_readme.
  assert (G : forall blocks,
             (forall num nm whole, In (num, nm, whole) blocks ->
                startswith whole "##" = true
                /\ contains separator whole = false) ->
             fold_left
               (fun b0 block =>
                  match block with
                  | (n, nm, whole) => _parse_category_datasets n nm whole b0
                  end) blocks b = b).
  { induction blocks as [|[[n nm] whole] blocks IH]; intros Hb; simpl;
      [reflexivity|].
    destruct (Hb n nm whole (or_introl eq_refl)) as [Hw Hs].
    unfold _parse_category_datasets at 2.
    rewrite (split_sections_whole whole Hs). simpl.
    rewrite add_section_header by exact Hw.
    apply IH. intros n' nm' w' Hin. apply (Hb n' nm' w'). now right. }
  apply G. intros num nm whole Hin.
  destruct (category_blocks_within content 0 num nm whole Hin) as [Hw Hc].
  split; [exact Hw|].
  destruct (contains separator whole) eqn:E; [|reflexivity].
  rewrite (Hc separator E) in H. discriminate.
Qed.

Lemma script_needs_separator_witness :
  parse_readme
    (String.concat (String newline EmptyString)
       ["## 1. Imaging"; ""; "__Alpha Set__"; ""; "A chest scan corpus.";
        ""; "__Beta Set__"; ""; "Access: https://y.org/b"])
    browser0
  = browser0.
Proof.
  apply script_needs_separator. vm_compute. reflexivity.
Defined.

Lemma add_section_forall (P : MedicalDataset -> Prop) c b section :
  (forall d, category d = c -> 3 <= String.length (name d) -> P d) ->
  Forall P (datasets b) -> Forall P (datasets (add_section c b section)).
Proof.
  intros HP H. unfold add_section.
  destruct (_ || _); [exact H|].
  destruct (_extract_dataset_info section c) as [d|] eqn:E; [|exact H].
  destruct (truthy (name d)); [|exact H]. simpl.
  apply extract_dataset_info_some in E as [Hc Hn].
  apply Forall_app. split; [exact H|]. constructor; [now apply HP|constructor].
Qed.

(** X29: every record the script keeps has a name of at least three
    characters, and its category is the stripped name of one of the
    category matches of the document. *)
Theorem script_records_named content :
  Forall
    (fun d =>
       3 <= String.length (name d)
       /\ In (category d)
            (map (fun block => snd (fst block)) (category_blocks 0 content)))
    (datasets (parse_readme content browser0)).
Proof.
  unfold parse_readme.
  set (names := map (fun block => snd (fst block)) (category_blocks 0 content)).
  assert (G : forall blocks b,
             (forall blk, In blk blocks -> In (snd (fst blk)) names) ->
             Forall (fun d => 3 <= String.length (name d)
                              /\ In (category d) names) (datasets b) ->
             Forall (fun d => 3 <= String.length (name d)
                              /\ In (category d) names)
               (datasets
                  (fold_left
                     (fun b0 block =>
                        match block with
                        | (n, nm, whole) =>
                            _parse_category_datasets n nm whole b0
                        end) blocks b))).
  { induction blocks as [|[[n nm] whole] blocks IH]; intros b Hb H; simpl;
      [exact H|].
    apply IH; [intros blk Hin; apply Hb; now right|].
    unfold _parse_category_datasets.
    assert (Hnm : In nm names) by (apply (Hb (n, nm, whole)); now left).
    revert b H. induction (split_sections 0 whole) as [|sec secs IHs];
      intros b H; simpl; [exact H|].
    apply IHs. apply add_section_forall; [|exact H].
    intros d Hc Hn. split; [exact Hn|now rewrite Hc]. }
  apply G; [|constructor].
  intros blk Hin. unfold names.
  exact (in_map (fun block => snd (fst block)) _ _ Hin).
Qed.

End ScriptIndex.

(** ** The package and the script side by side *)

Section TwoParsers.
Import PyStr Regex Browser Vocabulary Shapes.

(** *** Titles inside a section of the script *)

Lemma script_step_described m l :
  Script.description_lines (Script.section_step m l)
  = Script.description_lines m ++ described l.
Proof.
  unfold described, Script.section_step.
  repeat match goal with
         | |- context [if startswith ?a ?b then _ else _] =>
             destruct (startswith a b)
         end; simpl; try (now rewrite app_nil_r).
  destruct (_ && _); simpl; [|now rewrite app_nil_r].
  destruct (truthy _); simpl; [reflexivity|now rewrite app_nil_r].
Qed.

Lemma fold_script_described rest : forall m,
  Script.description_lines (fold_left Script.section_step rest m)
  = Script.description_lines m ++ flat_map described rest.
Proof.
  induction rest as [|l rest IH]; intros m; simpl; [now rewrite app_nil_r|].
  now rewrite IH, script_step_described, <- app_assoc.
Qed.

Lemma described_title l :
  is_title l = true -> described l = [sub (match_delim "__") (strip l)].
Proof.
  unfold is_title, described, Script.section_step. intros H.
  destruct (strip l) as [|c s] eqn:E; [discriminate|].
  apply startswith_cons in H as [<- H].
  destruct s as [|c' s]; [discriminate|].
  apply startswith_cons in H as [<- _].
  assert (Hn : truthy (sub (match_delim "__") (String "_" (String "_" s)))
               = true).
  { apply truthy_nonempty, sub_bold_nonempty. discriminate. }
  cbn [lower]. unfold startswith, Script.label_prefixes.
  cbn [String.prefix existsb].
  change (lower_char "_") with "_"%char.
  repeat match goal with
         | |- context [ascii_dec ?a ?b] =>
             destruct (ascii_dec a b); [discriminate|]
         end.
  cbn [truthy negb andb orb]. cbn [Script.description_lines Script.metadata0].
  now rewrite Hn.
Qed.

Lemma script_description first rest cat r :
  Script.extract_from_lines (first :: rest) cat = Some r ->
  Script.description r = strip (join " " (flat_map described rest)).
Proof.
  unfold Script.extract_from_lines.
  destruct (_ || _); [discriminate|]. intros [= <-]. simpl.
  now rewrite fold_script_described.
Qed.

Lemma add_section_length nm b section :
  List.length (ScriptBrowser.datasets (ScriptBrowser.add_section nm b section))
  <= S (List.length (ScriptBrowser.datasets b)).
Proof.
  unfold ScriptBrowser.add_section.
  destruct (_ || _); [lia|].
  destruct (Script._extract_dataset_info section nm) as [d|]; [|lia].
  destruct (truthy (Script.name d)); [|lia].
  simpl. rewrite length_app. simpl. lia.
Qed.

(** C5, as the code has it.  In the package a title line met while a
    category is active and a record is pending closes that record into the
    output list and starts a new buffer holding the title alone; when only
    description and metadata lines follow, the output ends with two
    records, the pending one and the new one.  The stand-alone script has
    no such rule.  It cuts the text of a category at the separator lines
    only: a text without separator is one section, a section adds at most
    one record, and a title line after the first line of a section is
    read as a description line, so that its text, the bold delimiters
    removed, stands in the description of the record of that section. *)
Theorem title_closes_pending :
  (forall st line first rest,
      is_title line = true ->
      truthy (current_category st) = true ->
      current_dataset_lines st = first :: rest ->
      step st line
      = mkParser (current_category st) [line] true
          (datasets st ++ [make_dataset first rest (current_category st)])
      /\ forall post, forallb is_body post = true ->
           flush (fold_left step post (step st line))
           = datasets st
             ++ [make_dataset first rest (current_category st);
                 make_dataset line (filter nonblank post)
                   (current_category st)])
  /\ (forall category_num category_name content b,
         contains ScriptBrowser.separator content = false ->
         ScriptBrowser._parse_category_datasets category_num category_name
           content b
         = ScriptBrowser.add_section category_name b content)
  /\ (forall category_name b section,
         List.length
           (ScriptBrowser.datasets
              (ScriptBrowser.add_section category_name b section))
         <= S (List.length (ScriptBrowser.datasets b)))
  /\ (forall first pre line post cat r,
         is_title line = true ->
         Script.extract_from_lines (first :: pre ++ line :: post) cat
         = Some r ->
         Script.description r
         = strip (join " " (flat_map described pre
                            ++ sub (match_delim "__") (strip line)
                               :: flat_map described post))).
Proof.
  repeat apply conj.
  - intros st line first rest. apply step_title_closes.
  - intros num nm content b H. unfold ScriptBrowser._parse_category_datasets.
    now rewrite split_sections_whole.
  - apply add_section_length.
  - intros first pre line post cat r Ht Hr.
    rewrite (script_description _ _ _ _ Hr), flat_map_app. simpl.
    now rewrite described_title.
Qed.

Lemma title_closes_pending_witness :
  flush (fold_left step ["About beta."; ""; "Data: https://b.org/d"]
           (step (mkParser "Imaging" ["__Alpha__"; "About alpha."] true [])
                 "__Beta__"))
  = [make_dataset "__Alpha__" ["About alpha."] "Imaging";
     make_dataset "__Beta__" ["About beta."; "Data: https://b.org/d"]
       "Imaging"]
  /\ option_map Script.description
       (Script.extract_from_lines
          ("__Alpha__" :: ["About alpha."] ++ "__Beta__" :: ["About beta."])
          "Imaging")
     = Some "About alpha. Beta About beta.".
Proof.
  destruct title_closes_pending as (H1 & _ & _ & H4).
  split.
  - exact (proj2
             (H1 (mkParser "Imaging" ["__Alpha__"; "About alpha."] true [])
                 "__Beta__" "__Alpha__" ["About alpha."]
                 eq_refl eq_refl eq_refl)
             ["About beta."; ""; "Data: https://b.org/d"] eq_refl).
  - destruct (Script.extract_from_lines
                ("__Alpha__" :: ["About alpha."] ++ "__Beta__"
                             :: ["About beta."]) "Imaging") as [r|] eqn:E;
      [|discriminate E].
    simpl. f_equal.
    exact (H4 "__Alpha__" ["About alpha."] "__Beta__" ["About beta."]
              "Imaging" r eq_refl E).
Defined.

(** C5 fails as stated: on a category whose two titles are not separated
    the stand-alone script puts out one record, and its description holds
    the second title; the package puts out the two records. *)
Lemma script_title_absorbed :
  map (fun d => (Script.name d, Script.description d))
    (ScriptBrowser.datasets
       (ScriptBrowser.parse_readme two_titles_document ScriptBrowser.browser0))
  = [("Alpha", "About alpha. Beta About beta.")]
  /\ map (fun d => (name d, description d))
       (parse_readme two_titles_document [])
     = [("Alpha", "About alpha."); ("Beta", "About beta.")].
Proof. split; vm_compute; reflexivity. Qed.

(** *** The listing of the script *)

Lemma counted_listing cats l :
  counted cats l ->
  NoDup (map fst l)
  /\ (forall c n,
        In (c, n) l <-> In c cats /\ n = count_occ string_dec cats c)
  /\ StronglySorted (seen_before cats) l.
Proof.
  intros (Hnd & Hk & Hc & Hs). repeat apply conj.
  - exact Hnd.
  - intros c n. rewrite Forall_forall in Hc. split.
    + intros H. split; [|exact (Hc _ H)].
      apply Hk. change c with (fst (c, n)). now apply in_map.
    + intros [H ->]. apply Hk in H.
      apply in_map_iff in H as ([k n] & E & H). simpl in E; subst k.
      pose proof (Hc _ H) as Hn. simpl in Hn. now rewrite <- Hn.
  - exact (StronglySorted_map fst
             (fun a b => first_index a cats < first_index b cats) _ Hs).
Qed.

Lemma script_listing_append c d index :
  map (fun item : string * list Script.MedicalDataset =>
         (fst item, List.length (snd item)))
    (ScriptBrowser.index_append c d index)
  = bump c
      (map (fun item : string * list Script.MedicalDataset =>
              (fst item, List.length (snd item))) index).
Proof.
  induction index as [|[k l] index IH]; simpl; [reflexivity|].
  destruct (String.eqb k c); simpl.
  - rewrite length_app. reflexivity.
  - now rewrite IH.
Qed.

Lemma tally_snoc cats c : tally (cats ++ [c]) [] = bump c (tally cats []).
Proof. unfold tally. now rewrite fold_left_app. Qed.

(** The method run on every section of every category of a document
    keeps what each run on a section keeps. *)
Lemma script_parse_invariant (P : ScriptBrowser.browser -> Prop) content b :
  (forall num nm whole sec b0,
      In (num, nm, whole) (ScriptBrowser.category_blocks 0 content) ->
      In sec (ScriptBrowser.split_sections 0 whole) ->
      P b0 -> P (ScriptBrowser.add_section nm b0 sec)) ->
  P b -> P (ScriptBrowser.parse_readme content b).
Proof.
  intros Hstep. unfold ScriptBrowser.parse_readme.
  assert (G : forall blocks b0,
             (forall blk, In blk blocks ->
                          In blk (ScriptBrowser.category_blocks 0 content)) ->
             P b0 ->
             P (fold_left
                  (fun b1 block =>
                     match block with
                     | (n, nm, whole) =>
                         ScriptBrowser._parse_category_datasets n nm whole b1
                     end) blocks b0)).
  { induction blocks as [|[[n nm] whole] blocks IH]; intros b0 Hin H; simpl;
      [exact H|].
    apply IH; [intros blk Hb; apply Hin; now right|].
    unfold ScriptBrowser._parse_category_datasets.
    assert (Hs : forall secs b1,
               (forall sec, In sec secs ->
                            In sec (ScriptBrowser.split_sections 0 whole)) ->
               P b1 ->
               P (fold_left (ScriptBrowser.add_section nm) secs b1)).
    { induction secs as [|sec secs IHs]; intros b1 Hsec H1; simpl;
        [exact H1|].
      apply IHs; [intros s Hs; apply Hsec; now right|].
      apply (Hstep n nm whole);
        [apply Hin; now left|apply Hsec; now left|exact H1]. }
    apply Hs; [auto|exact H]. }
  intros H. apply G; [auto|exact H].
Qed.

Lemma add_section_listing c b section :
  ScriptBrowser.list_categories b
  = tally (map Script.category (ScriptBrowser.datasets b)) [] ->
  ScriptBrowser.list_categories (ScriptBrowser.add_section c b section)
  = tally
      (map Script.category
         (ScriptBrowser.datasets (ScriptBrowser.add_section c b section))) [].
Proof.
  intros H. unfold ScriptBrowser.add_section.
  destruct (_ || _); [exact H|].
  destruct (Script._extract_dataset_info section c) as [d|] eqn:E;
    [|exact H].
  destruct (truthy (Script.name d)); [|exact H].
  apply extract_dataset_info_some in E as [Hc _].
  unfold ScriptBrowser.list_categories in *.
  cbn [ScriptBrowser.datasets ScriptBrowser.categories_index].
  rewrite script_listing_append, map_app. cbn [map].
  now rewrite tally_snoc, Hc, H.
Qed.

Lemma script_listing_tally content :
  ScriptBrowser.list_categories
    (ScriptBrowser.parse_readme content ScriptBrowser.browser0)
  = tally
      (map Script.category
         (ScriptBrowser.datasets
            (ScriptBrowser.parse_readme content ScriptBrowser.browser0))) [].
Proof.
  apply (script_parse_invariant
           (fun b => ScriptBrowser.list_categories b
                     = tally (map Script.category (ScriptBrowser.datasets b))
                         [])).
  - intros num nm whole sec b0 _ _. apply add_section_listing.
  - reflexivity.
Qed.

(** C6, as the code has it.  In the package the category listing has one
    pair per category of the records, each with the number of records of
    that category, ordered by descending count and, among equal counts, by
    first appearance of the category in the record list.  The listing of
    the stand-alone script has the same pairs and is not sorted by count:
    it is the counting dictionary itself, whose pairs stand in the order in
    which the categories first appear in the record list.  Sorting it the
    way the package does gives the ranking of the package. *)
Theorem list_categories_ranked :
  (forall ds,
      NoDup (map fst (list_categories ds))
      /\ (forall c n,
            In (c, n) (list_categories ds)
            <-> In c (map category ds)
                /\ n = count_occ string_dec (map category ds) c)
      /\ StronglySorted (ranked_before (map category ds))
           (list_categories ds))
  /\ (forall content,
        let b := ScriptBrowser.parse_readme content ScriptBrowser.browser0 in
        let cats := map Script.category (ScriptBrowser.datasets b) in
        ScriptBrowser.list_categories b = tally cats []
        /\ NoDup (map fst (ScriptBrowser.list_categories b))
        /\ (forall c n,
              In (c, n) (ScriptBrowser.list_categories b)
              <-> In c cats /\ n = count_occ string_dec cats c)
        /\ StronglySorted (seen_before cats) (ScriptBrowser.list_categories b)
        /\ StronglySorted (ranked_before cats)
             (sorted_desc (ScriptBrowser.list_categories b))).
Proof.
  split; [exact list_categories_sorted|].
  intros content b cats.
  pose proof (script_listing_tally content) as Ht. fold b in Ht. fold cats in Ht.
  assert (Hc : counted cats (tally cats [])).
  { apply (counted_tally cats [] []).
    repeat split; simpl; try constructor; tauto. }
  rewrite Ht. destruct (counted_listing _ _ Hc) as (Hn & Hi & Hs).
  repeat apply conj; try assumption; [reflexivity|].
  now apply sorted_desc_sorted.
Qed.

(** C6 fails as stated: on a document whose first category has one record
    and whose second has two, the listing of the stand-alone script gives
    the count 1 before the count 2; the package lists the second category
    first. *)
Lemma script_listing_unsorted :
  map snd
    (ScriptBrowser.list_categories
       (ScriptBrowser.parse_readme uneven_document ScriptBrowser.browser0))
  = [1; 2]
  /\ list_categories (parse_readme uneven_document [])
     = [("Records", 2); ("Imaging", 1)].
Proof. split; vm_compute; reflexivity. Qed.

(** *** The categories of the script *)

Lemma has_newline_mid p q : has_newline (p ++ String newline q) = true.
Proof.
  unfold has_newline. induction p as [|c p IH]; simpl; [reflexivity|].
  rewrite IH. apply orb_true_r.
Qed.

Lemma has_newline_app_l p q : has_newline q = true -> has_newline (p ++ q) = true.
Proof.
  unfold has_newline. intros H. induction p as [|c p IH]; simpl; [exact H|].
  rewrite IH. apply orb_true_r.
Qed.

Lemma has_newline_lstrip s : has_newline (lstrip s) = true -> has_newline s = true.
Proof.
  induction s as [|c s IH]; simpl; [auto|].
  destruct (isspace c); [|auto].
  intros H. apply IH in H. unfold has_newline in *. simpl.
  rewrite H. apply orb_true_r.
Qed.

Lemma has_newline_rstrip s : has_newline (rstrip s) = true -> has_newline s = true.
Proof.
  unfold has_newline. induction s as [|c s IH]; simpl; [auto|].
  destruct (rstrip s) as [|x r]; simpl in *.
  - destruct (isspace c); simpl; [discriminate|].
    rewrite orb_false_r. intros ->. reflexivity.
  - intros H. apply orb_true_iff in H as [->|H]; [reflexivity|].
    rewrite (IH H). apply orb_true_r.
Qed.

Lemma header_title_line line title :
  header_title line = Some title -> has_newline title = false.
Proof.
  unfold header_title, category_match.
  destruct (drop_prefix "##" (strip line)) as [r1|]; [|discriminate].
  destruct (span isspace r1) as [w1 r2].
  destruct (span isdigit r2) as [ds r3].
  destruct w1 as [|a w1]; [discriminate|].
  destruct ds as [|d ds]; [discriminate|].
  destruct r3 as [|c r4]; [discriminate|].
  destruct (Ascii.eqb_spec c ".") as [->|Hc].
  2:{ destruct c as [[] [] [] [] [] [] [] []]; try discriminate.
      congruence. }
  cbv iota.
  destruct (span isspace r4) as [w2 r5].
  destruct w2 as [|b w2]; [discriminate|].
  destruct r5 as [|e r5]; [discriminate|].
  destruct (has_newline (String e r5)) eqn:E; [discriminate|].
  intros [= <-]. unfold strip.
  destruct (has_newline (rstrip (lstrip (String e r5)))) eqn:E'; [|reflexivity].
  apply has_newline_rstrip, has_newline_lstrip in E'. congruence.
Qed.

Lemma lstrip_keeps c x r :
  isspace c = false ->
  exists y, lstrip (x ++ String c r) = (y ++ String c r)%string.
Proof.
  intros Hc. induction x as [|a x IH]; simpl.
  - rewrite Hc. now exists "".
  - destruct (isspace a); [exact IH|]. now exists (String a x).
Qed.

Lemma rstrip_keeps c p t :
  isspace c = false ->
  exists t', rstrip (p ++ String c t) = (p ++ String c t')%string.
Proof.
  intros Hc. induction p as [|a p [t' IH]].
  - cbn [append rstrip]. destruct (rstrip t) as [|x r].
    + rewrite Hc. now exists "".
    + now exists (String x r).
  - cbn [append rstrip]. rewrite IH. exists t'.
    destruct p; reflexivity.
Qed.

Lemma strip_truthy_char s :
  truthy (strip s) = true ->
  exists s1 x s2, s = (s1 ++ String x s2)%string /\ isspace x = false.
Proof.
  unfold strip. induction s as [|c s IH]; [discriminate|].
  destruct (isspace c) eqn:E.
  - simpl. rewrite E. intros H.
    destruct (IH H) as (s1 & x & s2 & -> & Hx).
    now exists (String c s1), x, s2.
  - intros _. now exists "", c, s.
Qed.

Lemma split_sections_drop s : forall skip,
  ScriptBrowser.split_sections skip s
  = ScriptBrowser.split_sections 0 (drop skip s).
Proof.
  induction s as [|c s IH]; intros [|k]; try reflexivity.
  cbn [ScriptBrowser.split_sections drop]. apply IH.
Qed.

Lemma split_sections_head s :
  exists h t post,
    ScriptBrowser.split_sections 0 s = h :: t /\ s = (h ++ post)%string.
Proof.
  induction s as [|c s (h & t & post & E & Hs)].
  - now exists "", [], "".
  - cbn [ScriptBrowser.split_sections].
    destruct (drop_prefix ScriptBrowser.separator (String c s)).
    + now exists "", (ScriptBrowser.split_sections 4 s), (String c s).
    + rewrite E. exists (String c h), t, post. split; [reflexivity|].
      simpl. now rewrite <- Hs.
Qed.

Lemma split_sections_tail n : forall s sec,
  String.length s <= n ->
  In sec (tl (ScriptBrowser.split_sections 0 s)) ->
  exists a post,
    s = (a ++ ScriptBrowser.separator ++ sec ++ post)%string.
Proof.
  induction n as [|n IH]; intros [|c s] sec Hn; simpl in Hn;
    try (intros []; fail); try lia.
  cbn [ScriptBrowser.split_sections].
  destruct (drop_prefix ScriptBrowser.separator (String c s)) as [r|] eqn:E.
  - apply drop_prefix_app in E. cbn [tl].
    rewrite split_sections_drop.
    assert (Hr : drop 4 s = r) by (injection E as _ ->; reflexivity).
    rewrite Hr. intros Hin.
    destruct (split_sections_head r) as (h & t & post & Hh & Hp).
    rewrite Hh in Hin. destruct Hin as [<-|Hin].
    + exists "", post. rewrite E, Hp. reflexivity.
    + assert (Hl : String.length r <= n).
      { apply (f_equal String.length) in E.
        rewrite string_length_app in E. simpl in E. lia. }
      destruct (IH r sec Hl) as (a & post' & Ha).
      { now rewrite Hh. }
      exists (ScriptBrowser.separator ++ a)%string, post'.
      rewrite E, string_app_assoc. f_equal. exact Ha.
  - destruct (ScriptBrowser.split_sections 0 s) as [|h t] eqn:Es;
      cbn [tl]; [intros []|].
    intros Hin.
    destruct (IH s sec) as (a & post & Ha); [lia|now rewrite Es|].
    exists (String c a), post. cbn [append]. f_equal. exact Ha.
Qed.

Lemma split_sections_hashes whole sec :
  startswith whole "##" = true ->
  In sec (ScriptBrowser.split_sections 0 whole) ->
  startswith sec "##" = false ->
  In sec (tl (ScriptBrowser.split_sections 0 whole)).
Proof.
  intros Hw Hin Hs.
  destruct whole as [|a whole]; [discriminate|].
  apply startswith_cons in Hw as [<- Hw].
  destruct whole as [|b whole]; [discriminate|].
  apply startswith_cons in Hw as [<- _].
  revert Hin. cbn.
  destruct (ScriptBrowser.split_sections 0 whole) as [|h t]; cbn.
  - intros [<-|[]]. discriminate.
  - intros [<-|H]; [|exact H].
    unfold startswith in Hs. simpl in Hs. rewrite prefix_nil in Hs.
    discriminate.
Qed.

Lemma all_chars_app p a b :
  all_chars p (a ++ b) = all_chars p a && all_chars p b.
Proof.
  induction a as [|c a IH]; simpl; [reflexivity|].
  now rewrite IH, andb_assoc.
Qed.

Lemma all_chars_impl (p q : ascii -> bool) s :
  (forall c, p c = true -> q c = true) ->
  all_chars p s = true -> all_chars q s = true.
Proof.
  intros Hpq. induction s as [|c s IH]; simpl; [auto|].
  intros H. apply andb_true_iff in H as [Hc Hs].
  now rewrite (Hpq c Hc), IH.
Qed.

Lemma digit_no_star c : isdigit c = true -> negb (Ascii.eqb c "*") = true.
Proof.
  destruct c as [[] [] [] [] [] [] [] []]; intros H; try reflexivity;
    vm_compute in H; discriminate H.
Qed.

Lemma space_no_star c : isspace c = true -> negb (Ascii.eqb c "*") = true.
Proof.
  destruct c as [[] [] [] [] [] [] [] []]; intros H; try reflexivity;
    vm_compute in H; discriminate H.
Qed.

Lemma no_star_split hd : forall g a t,
  all_chars (fun c => negb (Ascii.eqb c "*")) hd = true ->
  (hd ++ g)%string = (a ++ String "*" t)%string ->
  exists x, g = (x ++ String "*" t)%string.
Proof.
  induction hd as [|c hd IH]; intros g a t Hs E; simpl in *.
  - now exists a.
  - apply andb_true_iff in Hs as [Hc Hs].
    destruct a as [|b a]; simpl in E; injection E as -> E.
    + discriminate Hc.
    + exact (IH g a t Hs E).
Qed.

(** The text a category match covers is a head without asterisk, made of
    the hashes, the number, the dot and the spaces, followed by the
    second group or by nothing. *)
Lemma category_at_parts s num g whole rest :
  ScriptBrowser.category_at s = Some (num, g, whole, rest) ->
  startswith whole "##" = true
  /\ exists hd g0,
       whole = (hd ++ g0)%string
       /\ all_chars (fun c => negb (Ascii.eqb c "*")) hd = true
       /\ (g0 = "" \/ g0 = g).
Proof.
  unfold ScriptBrowser.category_at.
  destruct (drop_prefix "## " s) as [r1|]; [|discriminate].
  destruct (span_spec isdigit r1) as (_ & Hd & _).
  destruct (span isdigit r1) as [ds r2]; simpl in Hd.
  destruct ds as [|d ds]; [discriminate|].
  destruct r2 as [|c r3]; [discriminate|].
  destruct (Ascii.eqb_spec c ".") as [->|Hc].
  2:{ destruct c as [[] [] [] [] [] [] [] []]; try discriminate.
      congruence. }
  cbv iota.
  destruct (span_spec isspace r3) as (_ & Hw & _).
  destruct (span isspace r3) as [w r4]; simpl in Hw.
  destruct w as [|x w]; [discriminate|].
  assert (Hhd : all_chars (fun c => negb (Ascii.eqb c "*"))
                  ("## " ++ String d ds ++ "." ++ String x w) = true).
  { rewrite !all_chars_app.
    rewrite (all_chars_impl _ _ _ digit_no_star Hd).
    rewrite (all_chars_impl _ _ _ space_no_star Hw). reflexivity. }
  destruct (ScriptBrowser.lazy_block r4) as [[g' rest']|].
  - intros [= <- <- <- <-]. split; [reflexivity|].
    exists ("## " ++ String d ds ++ "." ++ String x w)%string, g'.
    split; [|split; [exact Hhd|now right]].
    now rewrite !string_app_assoc.
  - destruct w as [|y w]; [discriminate|].
    intros [= <- <- <- <-]. split; [reflexivity|].
    exists ("## " ++ String d ds ++ "." ++ String x (String y w))%string, "".
    split; [|split; [exact Hhd|now left]].
    now rewrite string_app_nil_r.
Qed.

(** The name of a category of the script holds a line break as soon as
    one of its sections can give a record. *)
Lemma category_at_newline s num g whole rest sec :
  ScriptBrowser.category_at s = Some (num, g, whole, rest) ->
  In sec (ScriptBrowser.split_sections 0 whole) ->
  startswith sec "##" = false ->
  truthy (strip sec) = true ->
  has_newline (strip g) = true.
Proof.
  intros Hc Hin Hs Ht.
  apply category_at_parts in Hc as (Hw & hd & g0 & E & Hhd & Hg).
  apply (split_sections_hashes _ _ Hw) in Hin; [|exact Hs].
  apply (split_sections_tail _ _ _ (le_n _)) in Hin as (a & post & Ea).
  apply strip_truthy_char in Ht as (s1 & x & s2 & -> & Hx).
  assert (Ew : (hd ++ g0)%string
               = ((a ++ String newline "")
                  ++ String "*"
                       ("**" ++ String newline (s1 ++ String x (s2 ++ post))))%string).
  { rewrite <- E, Ea. unfold ScriptBrowser.separator.
    rewrite ?string_app_assoc. simpl. now rewrite ?string_app_assoc. }
  apply (no_star_split _ _ _ _ Hhd) in Ew as (y & Ey).
  destruct Hg as [Hg|Hg]; subst g0; [destruct y; discriminate Ey|].
  unfold strip. rewrite Ey.
  destruct (lstrip_keeps "*" y
              ("**" ++ String newline (s1 ++ String x (s2 ++ post)))
              eq_refl) as (y' & ->).
  replace (y' ++ String "*"
             ("**" ++ String newline (s1 ++ String x (s2 ++ post))))%string
    with ((y' ++ "***" ++ String newline s1) ++ String x (s2 ++ post))%string
    by (rewrite ?string_app_assoc; simpl; now rewrite ?string_app_assoc).
  destruct (rstrip_keeps x (y' ++ "***" ++ String newline s1)
              (s2 ++ post) Hx) as (t' & ->).
  rewrite !string_app_assoc. apply has_newline_app_l.
  apply (has_newline_mid "***").
Qed.

Lemma category_blocks_at s : forall skip num nm whole,
  In (num, nm, whole) (ScriptBrowser.category_blocks skip s) ->
  exists s' g rest,
    ScriptBrowser.category_at s' = Some (num, g, whole, rest)
    /\ nm = strip g.
Proof.
  induction s as [|c s IH]; intros skip num nm whole; [intros []|].
  cbn [ScriptBrowser.category_blocks]. destruct skip as [|k].
  - destruct (ScriptBrowser.category_at (String c s))
      as [[[[n g] w] rest]|] eqn:E.
    + intros [[= <- <- <-]|H]; [|exact (IH _ _ _ _ H)].
      now exists (String c s), g, rest.
    + apply IH.
  - apply IH.
Qed.

Lemma script_categories_newline content :
  Forall (fun d => has_newline (Script.category d) = true)
    (ScriptBrowser.datasets
       (ScriptBrowser.parse_readme content ScriptBrowser.browser0)).
Proof.
  apply (script_parse_invariant
           (fun b => Forall (fun d => has_newline (Script.category d) = true)
                       (ScriptBrowser.datasets b))); [|constructor].
  intros num nm whole sec b0 Hb Hsec H.
  unfold ScriptBrowser.add_section.
  destruct (negb (truthy (strip sec)) || startswith sec "##") eqn:Ec;
    [exact H|].
  apply orb_false_iff in Ec as [Ht Hs]. apply negb_false_iff in Ht.
  destruct (Script._extract_dataset_info sec nm) as [d|] eqn:E; [|exact H].
  destruct (truthy (Script.name d)); [|exact H].
  apply extract_dataset_info_some in E as [Hc _].
  cbn [ScriptBrowser.datasets]. apply Forall_app. split; [exact H|].
  constructor; [|constructor]. rewrite Hc.
  apply category_blocks_at in Hb as (s' & g & rest & Hat & ->).
  exact (category_at_newline _ _ _ _ _ _ Hat Hsec Hs Ht).
Qed.

Lemma filter_none {A} (P : A -> Prop) (f : A -> bool) l :
  Forall P l -> (forall x, P x -> f x = false) -> filter f l = [].
Proof.
  intros H Hf. induction H as [|x l Hx _ IH]; simpl; [reflexivity|].
  now rewrite (Hf x Hx).
Qed.

(** C8, as the code has it.  In the package every record of the output
    has a non-empty name and a non-empty category; the records start at
    title lines of the document, at increasing positions, and the category
    of a record is the stripped title of the last numbered section header
    before its title line, so no record is put out without a header
    before it.  The stand-alone script does not give its records the
    title of a header.  The category of each of its records is the whole
    text of the category, from the title of the header to the next line of
    hashes or to the end of the document, and always holds a line break:
    it is the title of no header line, and browsing by a title that stands
    on one line returns nothing.  On the document of one category with one
    record the script names the category by the four lines after the
    number of the header, the package by the title. *)
Theorem records_under_headers :
  (forall content,
      exists starts,
        StronglySorted lt starts
        /\ Forall2
             (fun i r =>
                name r <> "" /\ category r <> ""
                /\ record_at (split_nl content) i r)
             starts (parse_readme content []))
  /\ (forall content,
        Forall (fun d => has_newline (Script.category d) = true)
          (ScriptBrowser.datasets
             (ScriptBrowser.parse_readme content ScriptBrowser.browser0)))
  /\ (forall content d line title,
        In d (ScriptBrowser.datasets
                (ScriptBrowser.parse_readme content ScriptBrowser.browser0)) ->
        header_title line = Some title ->
        Script.category d <> title)
  /\ (forall content title,
        truthy title = true ->
        has_newline title = false ->
        ScriptBrowser.browse_by_category
          (ScriptBrowser.parse_readme content ScriptBrowser.browser0)
          (Some title)
        = [])
  /\ map (fun d => (Script.name d, Script.category d))
       (ScriptBrowser.datasets
          (ScriptBrowser.parse_readme headed_document ScriptBrowser.browser0))
     = [("Alpha Set",
         String.concat (String newline EmptyString)
           ["Imaging"; "***"; "__Alpha Set__"; "Data: https://x.org/a"])]
  /\ map (fun d => (name d, category d)) (parse_readme headed_document [])
     = [("Alpha Set", "Imaging")].
Proof.
  repeat apply conj.
  - exact parse_readme_under_headers.
  - exact script_categories_newline.
  - intros content d line title Hd Ht E.
    pose proof (script_categories_newline content) as H.
    rewrite Forall_forall in H. specialize (H d Hd).
    apply header_title_line in Ht. congruence.
  - intros content title Ht Hn.
    unfold ScriptBrowser.browse_by_category. rewrite Ht.
    destruct (parse_readme_agrees content ScriptBrowser.browser0)
      as (_ & _ & Hg).
    { repeat split; simpl; constructor. }
    rewrite Hg.
    apply (filter_none _ _ _ (script_categories_newline content)).
    intros d Hd. apply String.eqb_neq. congruence.
  - vm_compute. reflexivity.
  - vm_compute. reflexivity.
Qed.

End TwoParsers.
